(** * AI_NovelGenerator: the Flask layer of [app.py]

    A shallow embedding of the request handlers of [app.py].  Each view
    function is a computation in a small state-and-exception monad over a
    [world] (the disk and the trace of calls into the generation library);
    Python values that travel through JSON are the inductive [json]. *)

From Stdlib Require Import ZArith String Ascii List Bool Lia.
From Stdlib Require Import Floats.SpecFloat.
From Stdlib Require Import DecimalString.
From Stdlib Require DecimalPos.
From stdpp Require Import base gmap strings.

Local Open Scope string_scope.
Local Open Scope Z_scope.

(** ** Python values *)

(** Values produced by the JSON parser (and handed to [jsonify]).
    A Python [float] is an IEEE binary64, written as Stdlib's [spec_float].
    A [dict] keeps insertion order; its keys are taken to be distinct and
    [lookup] returns the first binding. *)
#[warnings="-register-all"]
Inductive json : Type :=
| JNull
| JBool (b : bool)
| JInt (z : Z)
| JFloat (f : spec_float)
| JStr (s : string)
| JList (xs : list json)
| JObj (kvs : list (string * json)).

Module Py.

(** The part of the [Exception] hierarchy the handlers distinguish.  An
    exception is filed under the nearest of these classes: a
    [PermissionError] under [OSError], a [JSONDecodeError] under
    [ValueError].  Exceptions that derive from [BaseException] only
    ([KeyboardInterrupt], [SystemExit]) are not modelled. *)
Inductive exn_class : Type :=
| Exception
| AttributeError
| TypeError
| ValueError
| KeyError
| OverflowError
| OSError
| FileNotFoundError
| OtherError (name : string).

Record exn : Type := mk_exn { exn_cls : exn_class; exn_str : string }.

(** [issubclass c d]; [OtherError] stands for a class that derives from
    [Exception] and from none of the other classes. *)
Definition issubclass (c d : exn_class) : bool :=
  match d, c with
  | Exception, _ => true
  | AttributeError, AttributeError => true
  | TypeError, TypeError => true
  | ValueError, ValueError => true
  | KeyError, KeyError => true
  | OverflowError, OverflowError => true
  | OSError, OSError => true
  | OSError, FileNotFoundError => true
  | FileNotFoundError, FileNotFoundError => true
  | OtherError n, OtherError m => String.eqb n m
  | _, _ => false
  end.

Definition result (A : Type) : Type := (A + exn)%type.

Definition raise {A} (c : exn_class) (msg : string) : result A :=
  inr (mk_exn c msg).

(** [dict] lookup. *)
Fixpoint lookup (k : string) (kvs : list (string * json)) : option json :=
  match kvs with
  | [] => None
  | (k', v) :: rest => if String.eqb k k' then Some v else lookup k rest
  end.

(** [bool(float)]: false exactly for the two zeros. *)
Definition float_truthy (f : spec_float) : bool :=
  match f with
  | S754_zero _ => false
  | S754_finite _ _ _ => true
  | S754_infinity _ => true
  | S754_nan => true
  end.

(** [bool(v)]. *)
Definition truthy (v : json) : bool :=
  match v with
  | JNull => false
  | JBool b => b
  | JInt z => negb (z =? 0)
  | JFloat f => float_truthy f
  | JStr s => negb (String.eqb s "")
  | JList xs => match xs with [] => false | _ => true end
  | JObj kvs => match kvs with [] => false | _ => true end
  end.

(** [v.get(k, default)]: only a [dict] has the method. *)
Definition get (v : json) (k : string) (default : json) : result json :=
  match v with
  | JObj kvs => inl (match lookup k kvs with Some x => x | None => default end)
  | _ => raise AttributeError "object has no attribute 'get'"
  end.

(** *** Equality [a == b]

    Numbers ([bool], [int], [float]) compare by value, containers
    structurally, dictionaries regardless of order. *)

Definition float_eq_Z (f : spec_float) (z : Z) : bool :=
  match f with
  | S754_zero _ => z =? 0
  | S754_finite s m e =>
      let sm := if s then Z.neg m else Z.pos m in
      if 0 <=? e then sm * 2 ^ e =? z else sm =? z * 2 ^ (- e)
  | _ => false
  end.

Definition float_eq (f g : spec_float) : bool :=
  match f, g with
  | S754_zero _, S754_zero _ => true
  | S754_infinity s, S754_infinity t => Bool.eqb s t
  | S754_finite s m e, S754_finite t n d =>
      Bool.eqb s t &&
      (if e <=? d then Z.pos m =? Z.pos n * 2 ^ (d - e)
       else Z.pos m * 2 ^ (e - d) =? Z.pos n)
  | _, _ => false
  end.

Definition Z_of_bool (b : bool) : Z := if b then 1 else 0.

Fixpoint eq (a b : json) {struct a} : bool :=
  match a, b with
  | JNull, JNull => true
  | JBool x, JBool y => Bool.eqb x y
  | JBool x, JInt y => Z_of_bool x =? y
  | JBool x, JFloat g => float_eq_Z g (Z_of_bool x)
  | JInt x, JBool y => x =? Z_of_bool y
  | JInt x, JInt y => x =? y
  | JInt x, JFloat g => float_eq_Z g x
  | JFloat f, JBool y => float_eq_Z f (Z_of_bool y)
  | JFloat f, JInt y => float_eq_Z f y
  | JFloat f, JFloat g => float_eq f g
  | JStr s, JStr t => String.eqb s t
  | JList xs, JList ys =>
      (fix all2 (xs ys : list json) : bool :=
         match xs, ys with
         | [], [] => true
         | x :: xs', y :: ys' => eq x y && all2 xs' ys'
         | _, _ => false
         end) xs ys
  | JObj kvs, JObj kws =>
      (length kvs =? length kws)%nat &&
      (fix sub (kvs : list (string * json)) : bool :=
         match kvs with
         | [] => true
         | (k, v) :: rest =>
             match lookup k kws with
             | Some w => eq v w && sub rest
             | None => false
             end
         end) kvs
  | _, _ => false
  end.

(** Substring test, [s in t] on two [str]. *)
Fixpoint prefix (s t : string) : bool :=
  match s, t with
  | EmptyString, _ => true
  | String a s', String b t' => Ascii.eqb a b && prefix s' t'
  | String _ _, EmptyString => false
  end.

Fixpoint contains (t s : string) : bool :=
  prefix s t || match t with
                | EmptyString => false
                | String _ t' => contains t' s
                end.

(** [x in c]. A [list] or a [dict] key cannot be hashed. *)
Definition in_ (c x : json) : result bool :=
  match c with
  | JObj kvs =>
      match x with
      | JStr s => inl (match lookup s kvs with Some _ => true | None => false end)
      | JList _ | JObj _ => raise TypeError "unhashable type"
      | _ => inl false
      end
  | JList xs => inl (existsb (eq x) xs)
  | JStr t =>
      match x with
      | JStr s => inl (contains t s)
      | _ => raise TypeError "'in <string>' requires string as left operand"
      end
  | _ => raise TypeError "argument is not iterable"
  end.

(** [c[k]]. *)
Definition index_of (i : Z) (n : nat) : option nat :=
  if (0 <=? i) && (i <? Z.of_nat n) then Some (Z.to_nat i)
  else if (i <? 0) && (- Z.of_nat n <=? i) then Some (Z.to_nat (Z.of_nat n + i))
  else None.

Definition getitem_seq {A} (xs : list A) (k : json) : result A :=
  let at_ (i : Z) :=
    match index_of i (length xs) with
    | Some n => match nth_error xs n with
                | Some x => inl x
                | None => raise (OtherError "IndexError") "index out of range"
                end
    | None => raise (OtherError "IndexError") "index out of range"
    end in
  match k with
  | JInt i => at_ i
  | JBool b => at_ (Z_of_bool b)
  | _ => raise TypeError "indices must be integers"
  end.

Definition getitem (c k : json) : result json :=
  match c with
  | JObj kvs =>
      match k with
      | JStr s => match lookup s kvs with
                  | Some v => inl v
                  | None => raise KeyError ("'" ++ s ++ "'")
                  end
      | JList _ | JObj _ => raise TypeError "unhashable type"
      | _ => raise KeyError "key"
      end
  | JList xs => getitem_seq xs k
  | JStr t =>
      match getitem_seq (list_ascii_of_string t) k with
      | inl a => inl (JStr (String a EmptyString))
      | inr e => inr e
      end
  | _ => raise TypeError "object is not subscriptable"
  end.

(** *** [int(v)] *)

(** ASCII characters for which [str.isspace] holds. *)
Definition is_space (c : ascii) : bool :=
  let n := nat_of_ascii c in
  ((9 <=? n) && (n <=? 13) || (28 <=? n) && (n <=? 32))%nat.

Definition is_digit (c : ascii) : bool :=
  let n := nat_of_ascii c in ((48 <=? n) && (n <=? 57))%nat.

Definition digit_val (c : ascii) : Z := Z.of_nat (nat_of_ascii c) - 48.

Fixpoint lstrip (s : list ascii) : list ascii :=
  match s with
  | c :: s' => if is_space c then lstrip s' else s
  | [] => []
  end.

Definition strip (s : list ascii) : list ascii :=
  rev (lstrip (rev (lstrip s))).

(** Decimal digits, single underscores allowed between two digits;
    [after_digit] tells whether the previous character was a digit. *)
Fixpoint int_digits (s : list ascii) (acc : Z) (after_digit : bool) : option Z :=
  match s with
  | [] => if after_digit then Some acc else None
  | c :: s' =>
      if is_digit c then int_digits s' (10 * acc + digit_val c) true
      else if Ascii.eqb c "_" && after_digit then int_digits s' acc false
      else None
  end.

(** [int(s)] for a [str], base 10: [None] is [ValueError].  Covers ASCII
    input; Python also accepts non-ASCII decimal digits and white space,
    and refuses literals of more than 4300 digits. *)
Definition int_of_str (s : string) : option Z :=
  match strip (list_ascii_of_string s) with
  | "-"%char :: ds => option_map Z.opp (int_digits ds 0 false)
  | "+"%char :: ds => int_digits ds 0 false
  | ds => int_digits ds 0 false
  end.

(** [int(f)] for a [float]: truncation toward zero. *)
Definition int_of_float (f : spec_float) : result Z :=
  match f with
  | S754_zero _ => inl 0
  | S754_finite s m e =>
      let a := if 0 <=? e then Z.pos m * 2 ^ e else Z.pos m / 2 ^ (- e) in
      inl (if s then - a else a)
  | S754_infinity _ => raise OverflowError "cannot convert float infinity to integer"
  | S754_nan => raise ValueError "cannot convert float NaN to integer"
  end.

Definition int (v : json) : result Z :=
  match v with
  | JInt z => inl z
  | JBool b => inl (Z_of_bool b)
  | JFloat f => int_of_float f
  | JStr s =>
      match int_of_str s with
      | Some z => inl z
      | None => raise ValueError ("invalid literal for int() with base 10: '" ++ s ++ "'")
      end
  | _ => raise TypeError "int() argument must be a string, a bytes-like object or a real number"
  end.

(** [str(z)] for an [int]. *)
Definition str_of_Z (z : Z) : string := NilZero.string_of_int (Z.to_int z).

(** [float(z)] for an [int]: nearest binary64, [OverflowError] beyond
    the range. *)
Definition float_of_Z (z : Z) : result spec_float :=
  match binary_normalize 53 1024 z 0 false with
  | S754_infinity _ => raise OverflowError "int too large to convert to float"
  | f => inl f
  end.

(** [sep.join(xs)]. *)
Fixpoint join (sep : string) (xs : list string) : string :=
  match xs with
  | [] => ""
  | [x] => x
  | x :: rest => x ++ sep ++ join sep rest
  end.

End Py.

(** ** The world outside the handlers *)

(** The disk: the directories that exist, the paths at which the operating
    system refuses to create a directory, to write a file or to remove
    one, the text artifacts of the projects and the JSON documents. *)
Record fs : Type := mk_fs {
  fs_dirs : gset string;
  fs_denied : gset string;
  fs_text : gmap string string;
  fs_docs : gmap string json
}.

(** The functions of the generation library that a route delegates to. *)
Inductive ext_fn : Type :=
| Novel_architecture_generate
| Chapter_blueprint_generate
| generate_chapter_draft
| finalize_chapter
| clear_vector_store
| check_consistency.

(** One call into the generation library with its outcome. *)
Record event : Type := mk_event {
  ev_fn : ext_fn;
  ev_args : list json;
  ev_kwargs : list (string * json);
  ev_result : Py.result json
}.

(** [app.config]. *)
Record app_config : Type := mk_app_config {
  CONFIG_FILE_OVERRIDE : option string;
  PROJECTS_BASE_PATH_OVERRIDE : option string
}.

Record world : Type := mk_world {
  w_config : app_config;
  w_fs : fs;
  w_log : list event
}.

(** What [app.py] imports and this development takes as given: the
    collaborators ([config_manager], [utils], [novel_generator],
    [consistency_checker]) as functions of their arguments and the disk,
    and the two text conversions of Python floats and containers that the
    handlers only pass through. *)
Record externals : Type := mk_externals {
  load_config : string -> fs -> Py.result json;
  save_config : json -> string -> fs -> Py.result json * fs;
  read_file : string -> fs -> Py.result string;
  ext_call : ext_fn -> list json -> list (string * json) -> fs -> Py.result json * fs;
  float_of_str : string -> option spec_float;
  repr : json -> string
}.

(** ** Computations: state and exceptions *)

Definition M (A : Type) : Type := world -> Py.result A * world.

Definition ret {A} (a : A) : M A := fun w => (inl a, w).

Definition bind {A B} (m : M A) (k : A -> M B) : M B :=
  fun w => match m w with
           | (inl a, w') => k a w'
           | (inr e, w') => (inr e, w')
           end.

Definition lift {A} (r : Py.result A) : M A := fun w => (r, w).

Definition raise {A} (c : Py.exn_class) (msg : string) : M A :=
  lift (Py.raise c msg).

Notation "'let!' x ':=' m 'in' k" := (bind m (fun x => k))
  (at level 10, x pattern, m at level 100, k at level 200,
   format "'[v' 'let!'  x  ':='  m  'in' '/' k ']'").

(** [try: m  except c1 as e: h1 e  except c2 as e: h2 e ...]: the first
    clause whose class the exception is an instance of handles it. *)
Fixpoint dispatch {A} (hs : list (Py.exn_class * (Py.exn -> M A))) (e : Py.exn) : M A :=
  match hs with
  | [] => lift (inr e)
  | (c, h) :: rest =>
      if Py.issubclass (Py.exn_cls e) c then h e else dispatch rest e
  end.

Definition try_except {A} (m : M A) (hs : list (Py.exn_class * (Py.exn -> M A))) : M A :=
  fun w => match m w with
           | (inl a, w') => (inl a, w')
           | (inr e, w') => dispatch hs e w'
           end.

(** A [try] whose body falls through to the rest of the function: the
    caught exception is handed to the continuation. *)
Definition attempt {A} (m : M A) (c : Py.exn_class) : M (A + Py.exn) :=
  try_except (let! a := m in ret (inl a)) [(c, fun e => ret (inr e))].

(** ** HTTP responses *)

Record response : Type := mk_response { status : Z; body : json }.

(** [jsonify(v)] and [jsonify(v), code]. *)
Definition jsonify (v : json) : response := mk_response 200 v.
Definition jsonify_code (v : json) (code : Z) : response := mk_response code v.

(** The recurring [{"status": "error", "message": ...}] shape. *)
Definition error_body (msg : string) : json :=
  JObj [("status", JStr "error"); ("message", JStr msg)].

(** ** [os] and [os.path] (POSIX) *)

Fixpoint ends_with_slash (a : string) : bool :=
  match a with
  | EmptyString => false
  | String c EmptyString => Ascii.eqb c "/"
  | String _ a' => ends_with_slash a'
  end.

(** [posixpath.join(a, b)]: an absolute [b] replaces [a]; otherwise the
    two are joined by exactly one separator. *)
Definition posix_join (a b : string) : string :=
  if Py.prefix "/" b then b
  else if String.eqb a "" || ends_with_slash a then a ++ b
  else a ++ "/" ++ b.

(** [os.path.join(a, p)] where [p] came out of a JSON document: anything
    but a [str] is refused. *)
Definition os_path_join (a : string) (p : json) : Py.result string :=
  match p with
  | JStr b => inl (posix_join a b)
  | _ => Py.raise Py.TypeError "expected str, bytes or os.PathLike object"
  end.

Definition has_nul (s : string) : bool :=
  existsb (Ascii.eqb Ascii.zero) (list_ascii_of_string s).

Fixpoint all_slashes (s : string) : bool :=
  match s with
  | EmptyString => true
  | String c s' => Ascii.eqb c "/" && all_slashes s'
  end.

(** The directories above [pre ++ rest] that lie below [pre], outermost
    first: the heads that [os.path.split] gives when it is applied again
    and again, as the recursion of [os.makedirs] does.  A head is what
    stands before a separator, without trailing separators; the root and
    the path itself (with or without trailing separators) are none. *)
Fixpoint ancestors_from (pre rest : string) : list string :=
  match rest with
  | EmptyString => []
  | String c rest' =>
      (if Ascii.eqb c "/" && negb (String.eqb pre "") && negb (ends_with_slash pre)
          && negb (all_slashes rest)
       then [pre] else [])
      ++ ancestors_from (pre ++ String c EmptyString) rest'
  end.

Definition ancestors (path : string) : list string := ancestors_from "" path.

(** [os.mkdir] along a chain of paths, outermost first: a directory that
    exists is left alone, a refusal of the operating system ends the walk
    and leaves what was made before it. *)
Fixpoint mkdirs (chain : list string) (d : fs) : Py.result unit * fs :=
  match chain with
  | [] => (inl tt, d)
  | q :: rest =>
      if bool_decide (q ∈ fs_dirs d) then mkdirs rest d
      else if bool_decide (q ∈ fs_denied d) then
        (Py.raise Py.OSError ("[Errno 13] Permission denied: '" ++ q ++ "'"), d)
      else mkdirs rest (mk_fs ({[q]} ∪ fs_dirs d) (fs_denied d) (fs_text d) (fs_docs d))
  end.

(** [os.makedirs(path, exist_ok=True)]: a directory that exists is
    accepted as it is; otherwise the missing directories above [path] are
    made, outermost first, and then [path] itself.  Paths are names: [..]
    and symbolic links are not resolved, a directory is known under the
    names it was made with. *)
Definition os_makedirs (path : string) : M unit :=
  fun w =>
    let d := w_fs w in
    if has_nul path then (Py.raise Py.ValueError "embedded null byte", w)
    else if String.eqb path "" then
      (Py.raise Py.FileNotFoundError "[Errno 2] No such file or directory: ''", w)
    else if bool_decide (path ∈ fs_dirs d) then (inl tt, w)
    else
      let '(r, d') := mkdirs (ancestors path ++ [path]) d in
      (r, mk_world (w_config w) d' (w_log w)).

Definition os_path_isdir (path : string) : M bool :=
  fun w => (inl (bool_decide (path ∈ fs_dirs (w_fs w))), w).

(** ** [app.py] *)

(** The parsed JSON body of the request, as [request.json] and
    [request.get_json()] both return it.  A request whose body the
    framework cannot parse never yields a value here and is not modelled. *)
Record request : Type := mk_request { req_json : json }.

Section App.

Variable E : externals.

(** *** Calls out of the module *)

Definition call_load_config (path : string) : M json :=
  fun w => (load_config E path (w_fs w), w).

Definition call_save_config (data : json) (path : string) : M json :=
  fun w => let '(r, d) := save_config E data path (w_fs w) in
           (r, mk_world (w_config w) d (w_log w)).

Definition call_read_file (path : string) : M string :=
  fun w => (read_file E path (w_fs w), w).

(** A call into the generation library: the disk may change, and the call
    is appended to the trace together with its outcome. *)
Definition call (f : ext_fn) (args : list json) (kwargs : list (string * json)) : M json :=
  fun w => let '(r, d) := ext_call E f args kwargs (w_fs w) in
           (r, mk_world (w_config w) d (w_log w ++ [mk_event f args kwargs r])).

(** *** Builtins that need the text conversions *)

(** [str(v)], as an f-string field formats it. *)
Definition str (v : json) : string :=
  match v with
  | JStr s => s
  | JInt z => Py.str_of_Z z
  | JBool b => if b then "True" else "False"
  | JNull => "None"
  | _ => repr E v
  end.

(** [float(v)]. *)
Definition float (v : json) : Py.result spec_float :=
  match v with
  | JFloat f => inl f
  | JInt z => Py.float_of_Z z
  | JBool b => Py.float_of_Z (Py.Z_of_bool b)
  | JStr s =>
      match float_of_str E s with
      | Some f => inl f
      | None => Py.raise Py.ValueError ("could not convert string to float: '" ++ s ++ "'")
      end
  | _ => Py.raise Py.TypeError "float() argument must be a string or a real number"
  end.

(** *** Configuration access *)

Definition get_config_file_path : M string :=
  fun w => (inl (default "config.json" (CONFIG_FILE_OVERRIDE (w_config w))), w).

Definition get_projects_base_path : M string :=
  fun w => (inl (default "novel_projects" (PROJECTS_BASE_PATH_OVERRIDE (w_config w))), w).

(** The filter of the list comprehensions:
    [key not in cfg or not cfg[key]]. *)
Definition key_missing (cfg : json) (key : string) : Py.result bool :=
  match Py.in_ cfg (JStr key) with
  | inr e => inr e
  | inl false => inl true
  | inl true =>
      match Py.getitem cfg (JStr key) with
      | inr e => inr e
      | inl v => inl (negb (Py.truthy v))
      end
  end.

(** [[key for key in keys if key_missing cfg key]]. *)
Fixpoint missing_keys_of (cfg : json) (keys : list string) : Py.result (list string) :=
  match keys with
  | [] => inl []
  | key :: rest =>
      match key_missing cfg key with
      | inr e => inr e
      | inl b =>
          match missing_keys_of cfg rest with
          | inr e => inr e
          | inl ks => inl (if b then key :: ks else ks)
          end
      end
  end.

Definition llm_required_keys (last_llm_interface : json) : list string :=
  (["api_key"; "model_name"; "temperature"; "max_tokens"; "timeout"]
   ++ (if Py.eq last_llm_interface (JStr "OpenAI") then ["base_url"] else []))%list.

(** Returns the triple [(current_llm_config, last_llm_interface,
    error_msg)], two of whose components are [None]. *)
Definition get_llm_config : M (json * json * json) :=
  let! path := get_config_file_path in
  let! config := call_load_config path in
  if negb (Py.truthy config) then
    ret (JNull, JNull, JStr "Config file not found or empty.")
  else
  let! last_llm_interface := lift (Py.get config "last_interface_format" (JStr "OpenAI")) in
  let! llm_configs := lift (Py.get config "llm_configs" (JObj [])) in
  let! present := lift (Py.in_ llm_configs last_llm_interface) in
  if negb present then
    ret (JNull, JNull,
         JStr ("Configuration for '" ++ str last_llm_interface ++ "' not found in llm_configs."))
  else
  let! current_llm_config := lift (Py.getitem llm_configs last_llm_interface) in
  let required_keys := llm_required_keys last_llm_interface in
  let! missing_keys := lift (missing_keys_of current_llm_config required_keys) in
  match missing_keys with
  | _ :: _ =>
      ret (JNull, JNull,
           JStr ("LLM configuration for '" ++ str last_llm_interface
                 ++ "' is missing or has empty values for required keys: "
                 ++ Py.join ", " missing_keys ++ "."))
  | [] => ret (current_llm_config, last_llm_interface, JNull)
  end.

Definition get_embedding_config : M (json * json * json) :=
  let! path := get_config_file_path in
  let! config := call_load_config path in
  if negb (Py.truthy config) then
    ret (JNull, JNull, JStr "Config file not found or empty.")
  else
  let! last_embedding_interface :=
    lift (Py.get config "last_embedding_interface_format" (JStr "OpenAI")) in
  let! embedding_configs := lift (Py.get config "embedding_configs" (JObj [])) in
  let! present := lift (Py.in_ embedding_configs last_embedding_interface) in
  if negb present then
    ret (JNull, JNull,
         JStr ("Configuration for '" ++ str last_embedding_interface
               ++ "' not found in embedding_configs."))
  else
  let! current_embedding_config := lift (Py.getitem embedding_configs last_embedding_interface) in
  let required_keys := ["api_key"; "model_name"] in
  let! missing_keys := lift (missing_keys_of current_embedding_config required_keys) in
  match missing_keys with
  | _ :: _ =>
      ret (JNull, JNull,
           JStr ("Embedding configuration for '" ++ str last_embedding_interface
                 ++ "' is missing or has empty values for required keys: "
                 ++ Py.join ", " missing_keys ++ "."))
  | [] => ret (current_embedding_config, last_embedding_interface, JNull)
  end.

(** *** Routes *)

Definition error (msg : string) (code : Z) : M response :=
  ret (jsonify_code (error_body msg) code).

(** The arguments every generator receives from the LLM configuration, in
    the order in which the call evaluates them: [cfg["api_key"]],
    [cfg.get("base_url")], [cfg["model_name"]],
    [float(cfg["temperature"])], [int(cfg["max_tokens"])],
    [int(cfg["timeout"])]. *)
Record llm_args : Type := mk_llm_args {
  la_api_key : json;
  la_base_url : json;
  la_model_name : json;
  la_temperature : json;
  la_max_tokens : json;
  la_timeout : json
}.

Definition eval_llm_args (llm_config : json) : M llm_args :=
  let! api_key := lift (Py.getitem llm_config (JStr "api_key")) in
  let! base_url := lift (Py.get llm_config "base_url" JNull) in
  let! model_name := lift (Py.getitem llm_config (JStr "model_name")) in
  let! temperature_v := lift (Py.getitem llm_config (JStr "temperature")) in
  let! temperature := lift (float temperature_v) in
  let! max_tokens_v := lift (Py.getitem llm_config (JStr "max_tokens")) in
  let! max_tokens := lift (Py.int max_tokens_v) in
  let! timeout_v := lift (Py.getitem llm_config (JStr "timeout")) in
  let! timeout := lift (Py.int timeout_v) in
  ret (mk_llm_args api_key base_url model_name (JFloat temperature)
                   (JInt max_tokens) (JInt timeout)).

(** [embedding_config["api_key"]], [embedding_config.get("base_url")] and
    [embedding_config["model_name"]]; the caller evaluates the first two
    before the interface name and the third after it. *)
Definition eval_embedding_key_url (embedding_config : json) : M (json * json) :=
  let! api_key := lift (Py.getitem embedding_config (JStr "api_key")) in
  let! url := lift (Py.get embedding_config "base_url" JNull) in
  ret (api_key, url).

(** [POST /api/novel/architecture] *)
Definition generate_architecture_api (req : request) : M response :=
  let! project_name := lift (Py.get (req_json req) "project_name" (JStr "default_project")) in
  let! base := get_projects_base_path in
  let! filepath := lift (os_path_join base project_name) in
  let! made := attempt (os_makedirs filepath) Py.OSError in
  match made with
  | inr e => error ("Could not create project directory: " ++ Py.exn_str e) 500
  | inl _ =>
  let! (llm_config, interface_format, error_msg) := get_llm_config in
  if Py.truthy error_msg then error ("LLM Config Error: " ++ str error_msg) 500 else
  let data := req_json req in
  if negb (Py.truthy data) then error "Request body must be JSON." 400 else
  let! topic := lift (Py.get data "topic" (JStr "A grand adventure")) in
  let! genre := lift (Py.get data "genre" (JStr "Fantasy")) in
  let! num_chapters_v := lift (Py.get data "num_chapters" (JInt 10)) in
  let! num_chapters := lift (Py.int num_chapters_v) in
  let! word_number_v := lift (Py.get data "word_number" (JInt 3000)) in
  let! word_number := lift (Py.int word_number_v) in
  let! user_guidance := lift (Py.get data "user_guidance" (JStr "")) in
  try_except
    (let! a := eval_llm_args llm_config in
     let! _ := call Novel_architecture_generate []
       [("interface_format", interface_format); ("api_key", la_api_key a);
        ("base_url", la_base_url a); ("llm_model", la_model_name a);
        ("temperature", la_temperature a); ("max_tokens", la_max_tokens a);
        ("timeout", la_timeout a); ("topic", topic); ("genre", genre);
        ("number_of_chapters", JInt num_chapters); ("word_number", JInt word_number);
        ("filepath", JStr filepath); ("user_guidance", user_guidance)] in
     ret (jsonify (JObj [("status", JStr "success");
                         ("message", JStr "Novel architecture generated.");
                         ("filepath", JStr filepath)])))
    [(Py.KeyError, fun e => error ("Missing key in LLM configuration: " ++ Py.exn_str e) 500);
     (Py.ValueError, fun e => error ("Invalid value in LLM configuration: " ++ Py.exn_str e) 500);
     (Py.Exception, fun e => error ("Error generating novel architecture: " ++ Py.exn_str e) 500)]
  end.

(** [GET /api/config] *)
Definition get_config_api (req : request) : M response :=
  try_except
    (let! path := get_config_file_path in
     let! config_data := call_load_config path in
     ret (jsonify config_data))
    [(Py.Exception, fun e => error ("Error loading configuration: " ++ Py.exn_str e) 500)].

(** [isinstance(v, dict)] *)
Definition is_dict (v : json) : bool :=
  match v with JObj _ => true | _ => false end.

(** [POST /api/config] *)
Definition save_config_api (req : request) : M response :=
  let new_config_data := req_json req in
  if negb (is_dict new_config_data) then
    error "Invalid configuration format. Must be a JSON object." 400
  else
  try_except
    (let! path := get_config_file_path in
     let! saved := call_save_config new_config_data path in
     if Py.truthy saved then
       ret (jsonify (JObj [("status", JStr "success"); ("message", JStr "Configuration saved.")]))
     else error "Failed to save configuration." 500)
    [(Py.Exception, fun e => error ("Error saving configuration: " ++ Py.exn_str e) 500)].

(** [try: v = int(v)  except ValueError: ...], the caught error handed on. *)
Definition int_or_ValueError (v : json) : M (Z + Py.exn) :=
  attempt (lift (Py.int v)) Py.ValueError.

(** [v is None] *)
Definition is_None (v : json) : bool :=
  match v with JNull => true | _ => false end.

(** [POST /api/novel/blueprint] *)
Definition generate_blueprint_api (req : request) : M response :=
  let! project_name := lift (Py.get (req_json req) "project_name" (JStr "default_project")) in
  let! base := get_projects_base_path in
  let! filepath := lift (os_path_join base project_name) in
  let! made := attempt (os_makedirs filepath) Py.OSError in
  match made with
  | inr e => error ("Could not create project directory: " ++ Py.exn_str e) 500
  | inl _ =>
  let! (llm_config, interface_format, error_msg) := get_llm_config in
  if Py.truthy error_msg then error ("LLM Config Error: " ++ str error_msg) 500 else
  let data := req_json req in
  if negb (Py.truthy data) then error "Request body must be JSON." 400 else
  let! num_chapters_v := lift (Py.get data "num_chapters" JNull) in
  if is_None num_chapters_v then error "Missing 'num_chapters' in request." 400 else
  let! converted := int_or_ValueError num_chapters_v in
  match converted with
  | inr _ => error "'num_chapters' must be an integer." 400
  | inl num_chapters =>
  let! user_guidance := lift (Py.get data "user_guidance" (JStr "")) in
  try_except
    (let! a := eval_llm_args llm_config in
     let! _ := call Chapter_blueprint_generate []
       [("interface_format", interface_format); ("api_key", la_api_key a);
        ("base_url", la_base_url a); ("llm_model", la_model_name a);
        ("temperature", la_temperature a); ("max_tokens", la_max_tokens a);
        ("timeout", la_timeout a); ("filepath", JStr filepath);
        ("number_of_chapters", JInt num_chapters); ("user_guidance", user_guidance)] in
     ret (jsonify (JObj [("status", JStr "success");
                         ("message", JStr "Novel blueprint generated.");
                         ("filepath", JStr filepath)])))
    [(Py.FileNotFoundError,
      fun e => error ("Prerequisite file not found: " ++ Py.exn_str e ++ ".") 400);
     (Py.KeyError, fun e => error ("Missing key in LLM configuration: " ++ Py.exn_str e) 500);
     (Py.ValueError,
      fun e => error ("Invalid value in LLM configuration or request: " ++ Py.exn_str e) 500);
     (Py.Exception, fun e => error ("Error generating novel blueprint: " ++ Py.exn_str e) 500)]
  end
  end.

(** [try: a = int(x); b = int(y)  except ValueError: ...] *)
Definition int_pair_or_ValueError (x y : json) : M (Z * Z + Py.exn) :=
  attempt (let! a := lift (Py.int x) in
           let! b := lift (Py.int y) in
           ret (a, b)) Py.ValueError.

(** [POST /api/novel/chapter_draft] *)
Definition generate_chapter_draft_api (req : request) : M response :=
  let! project_name := lift (Py.get (req_json req) "project_name" (JStr "default_project")) in
  let! base := get_projects_base_path in
  let! filepath := lift (os_path_join base project_name) in
  let! made := attempt (os_makedirs filepath) Py.OSError in
  match made with
  | inr e => error ("Could not create project directory: " ++ Py.exn_str e) 500
  | inl _ =>
  let! (llm_config, llm_interface_format, llm_error_msg) := get_llm_config in
  if Py.truthy llm_error_msg then error ("LLM Config Error: " ++ str llm_error_msg) 500 else
  let! (embedding_config, embedding_interface_format, embedding_error_msg) :=
    get_embedding_config in
  if Py.truthy embedding_error_msg then
    error ("Embedding Config Error: " ++ str embedding_error_msg) 500
  else
  let data := req_json req in
  if negb (Py.truthy data) then error "Request body must be JSON." 400 else
  let! novel_number_str := lift (Py.get data "novel_number" JNull) in
  let! word_number_str := lift (Py.get data "word_number" JNull) in
  if is_None novel_number_str || is_None word_number_str then
    error "Missing 'novel_number' or 'word_number'." 400
  else
  let! converted := int_pair_or_ValueError novel_number_str word_number_str in
  match converted with
  | inr _ => error "'novel_number' and 'word_number' must be integers." 400
  | inl (novel_number, word_number) =>
  let! user_guidance := lift (Py.get data "user_guidance" (JStr "")) in
  let! characters_involved := lift (Py.get data "characters_involved" (JStr "")) in
  let! key_items := lift (Py.get data "key_items" (JStr "")) in
  let! scene_location := lift (Py.get data "scene_location" (JStr "")) in
  let! time_constraint := lift (Py.get data "time_constraint" (JStr "")) in
  let! k_converted :=
    attempt (let! k := lift (Py.get data "embedding_retrieval_k" (JStr "4")) in
             lift (Py.int k)) Py.ValueError in
  match k_converted with
  | inr _ => error "'embedding_retrieval_k' must be an integer." 400
  | inl embedding_retrieval_k =>
  let! custom_prompt_text := lift (Py.get data "custom_prompt_text" JNull) in
  try_except
    (let! a := eval_llm_args llm_config in
     let! (embedding_api_key, embedding_url) := eval_embedding_key_url embedding_config in
     let! embedding_model_name := lift (Py.getitem embedding_config (JStr "model_name")) in
     let! draft_text := call generate_chapter_draft []
       [("api_key", la_api_key a); ("base_url", la_base_url a);
        ("model_name", la_model_name a); ("temperature", la_temperature a);
        ("interface_format", llm_interface_format);
        ("max_tokens", la_max_tokens a); ("timeout", la_timeout a);
        ("embedding_api_key", embedding_api_key); ("embedding_url", embedding_url);
        ("embedding_interface_format", embedding_interface_format);
        ("embedding_model_name", embedding_model_name);
        ("embedding_retrieval_k", JInt embedding_retrieval_k);
        ("filepath", JStr filepath); ("novel_number", JInt novel_number);
        ("word_number", JInt word_number); ("user_guidance", user_guidance);
        ("characters_involved", characters_involved); ("key_items", key_items);
        ("scene_location", scene_location); ("time_constraint", time_constraint);
        ("custom_prompt_text", custom_prompt_text)] in
     if Py.truthy draft_text then
       ret (jsonify (JObj [("status", JStr "success");
                           ("message", JStr ("Chapter " ++ Py.str_of_Z novel_number
                                             ++ " draft generated."));
                           ("filepath", JStr filepath);
                           ("draft_text", draft_text)]))
     else error "Chapter draft generation resulted in empty content." 500)
    [(Py.FileNotFoundError,
      fun e => error ("Prerequisite file not found: " ++ Py.exn_str e ++ ".") 400);
     (Py.KeyError,
      fun e => error ("Missing key in LLM or Embedding configuration: " ++ Py.exn_str e) 500);
     (Py.ValueError,
      fun e => error ("Invalid value in configuration or request parameters: "
                      ++ Py.exn_str e) 500);
     (Py.Exception, fun e => error ("Error generating chapter draft: " ++ Py.exn_str e) 500)]
  end
  end
  end.

(** [POST /api/novel/finalize_chapter] *)
Definition finalize_chapter_api (req : request) : M response :=
  let! project_name := lift (Py.get (req_json req) "project_name" (JStr "default_project")) in
  let! base := get_projects_base_path in
  let! filepath := lift (os_path_join base project_name) in
  let! (llm_config, llm_interface_format, llm_error_msg) := get_llm_config in
  if Py.truthy llm_error_msg then error ("LLM Config Error: " ++ str llm_error_msg) 500 else
  let! (embedding_config, embedding_interface_format, embedding_error_msg) :=
    get_embedding_config in
  if Py.truthy embedding_error_msg then
    error ("Embedding Config Error: " ++ str embedding_error_msg) 500
  else
  let data := req_json req in
  if negb (Py.truthy data) then error "Request body must be JSON." 400 else
  let! novel_number_str := lift (Py.get data "novel_number" JNull) in
  let! word_number_str := lift (Py.get data "word_number" JNull) in
  if is_None novel_number_str || is_None word_number_str then
    error "Missing 'novel_number' or 'word_number'." 400
  else
  let! converted := int_pair_or_ValueError novel_number_str word_number_str in
  match converted with
  | inr _ => error "Invalid 'novel_number' or 'word_number', must be integers." 400
  | inl (novel_number, word_number) =>
  try_except
    (let! a := eval_llm_args llm_config in
     let! (embedding_api_key, embedding_url) := eval_embedding_key_url embedding_config in
     let! embedding_model_name := lift (Py.getitem embedding_config (JStr "model_name")) in
     let! _ := call finalize_chapter []
       [("api_key", la_api_key a); ("base_url", la_base_url a);
        ("model_name", la_model_name a); ("temperature", la_temperature a);
        ("interface_format", llm_interface_format);
        ("max_tokens", la_max_tokens a); ("timeout", la_timeout a);
        ("embedding_api_key", embedding_api_key); ("embedding_url", embedding_url);
        ("embedding_interface_format", embedding_interface_format);
        ("embedding_model_name", embedding_model_name);
        ("filepath", JStr filepath); ("novel_number", JInt novel_number);
        ("word_number", JInt word_number)] in
     ret (jsonify (JObj [("status", JStr "success");
                         ("message",
                          JStr ("Chapter " ++ Py.str_of_Z novel_number
                                ++ " finalized. Summaries, character states, and vector store updated."));
                         ("filepath", JStr filepath)])))
    [(Py.FileNotFoundError,
      fun e => error ("Required file not found: " ++ Py.exn_str e ++ ".") 400);
     (Py.KeyError,
      fun e => error ("Missing key in LLM or Embedding configuration: " ++ Py.exn_str e) 500);
     (Py.ValueError,
      fun e => error ("Invalid value in configuration or request parameters: "
                      ++ Py.exn_str e) 500);
     (Py.Exception, fun e => error ("Error finalizing chapter: " ++ Py.exn_str e) 500)]
  end.

(** [POST /api/vectorstore/clear] *)
Definition clear_vectorstore_api (req : request) : M response :=
  let data := req_json req in
  if negb (Py.truthy data) then error "Request body must be JSON." 400 else
  let! project_name := lift (Py.get data "project_name" (JStr "default_project")) in
  let! base := get_projects_base_path in
  let! filepath := lift (os_path_join base project_name) in
  let! is_dir := os_path_isdir filepath in
  if negb is_dir then error ("Project directory '" ++ filepath ++ "' not found.") 404 else
  try_except
    (let! cleared := call clear_vector_store [JStr filepath] [] in
     if Py.truthy cleared then
       ret (jsonify (JObj [("status", JStr "success");
                           ("message", JStr ("Vector store for project '" ++ str project_name
                                             ++ "' cleared."))]))
     else error ("Failed to clear vector store for project '" ++ str project_name
                 ++ "'. The 'vectorstore' directory may still exist or be partially deleted.") 500)
    [(Py.Exception, fun e => error ("Error clearing vector store: " ++ Py.exn_str e) 500)].

(** The texts the consistency check works on, as the first [try] block of
    [check_consistency_api] leaves them in its local variables. *)
Record project_texts : Type := mk_project_texts {
  novel_setting_text : string;
  character_state_text : string;
  global_summary_text : string;
  chapter_text_content : string;
  plot_arcs_text : string
}.

(** [if not text: raise FileNotFoundError(msg)] after [text = read_file(path)]. *)
Definition read_nonempty (path msg : string) : M string :=
  let! text := call_read_file path in
  if String.eqb text "" then raise Py.FileNotFoundError msg else ret text.

Definition read_project_texts (filepath : string) (chapter_number : Z) : M project_texts :=
  let novel_setting_path := posix_join filepath "Novel_architecture.txt" in
  let! novel_setting_text :=
    read_nonempty novel_setting_path
      ("Novel_architecture.txt not found or empty in '" ++ filepath ++ "'") in
  let character_state_path := posix_join filepath "character_state.txt" in
  let! character_state_text :=
    read_nonempty character_state_path
      ("character_state.txt not found or empty in '" ++ filepath ++ "'") in
  let global_summary_path := posix_join filepath "global_summary.txt" in
  let! global_summary_text :=
    read_nonempty global_summary_path
      ("global_summary.txt not found or empty in '" ++ filepath ++ "'") in
  let chapter_file_path :=
    posix_join (posix_join filepath "chapters")
               ("chapter_" ++ Py.str_of_Z chapter_number ++ ".txt") in
  let! chapter_text_content :=
    read_nonempty chapter_file_path
      ("Chapter file '" ++ chapter_file_path ++ "' not found or empty.") in
  let! plot_arcs_text := call_read_file (posix_join filepath "plot_arcs.txt") in
  ret (mk_project_texts novel_setting_text character_state_text global_summary_text
                        chapter_text_content plot_arcs_text).

(** [POST /api/novel/check_consistency] *)
Definition check_consistency_api (req : request) : M response :=
  let data := req_json req in
  if negb (Py.truthy data) then error "Request body must be JSON." 400 else
  let! project_name := lift (Py.get data "project_name" (JStr "default_project")) in
  let! base := get_projects_base_path in
  let! filepath := lift (os_path_join base project_name) in
  let! chapter_number_str := lift (Py.get data "chapter_number" JNull) in
  if is_None chapter_number_str then error "Missing 'chapter_number'." 400 else
  let! converted := int_or_ValueError chapter_number_str in
  match converted with
  | inr _ => error "Invalid 'chapter_number', must be an integer." 400
  | inl chapter_number =>
  let! (llm_config, llm_interface_format, llm_error_msg) := get_llm_config in
  if Py.truthy llm_error_msg then error ("LLM Config Error: " ++ str llm_error_msg) 500 else
  let! texts :=
    try_except
      (let! t := read_project_texts filepath chapter_number in ret (inl t))
      [(Py.FileNotFoundError,
        fun e => ret (inr (jsonify_code
                             (error_body ("Required file issue: " ++ Py.exn_str e)) 404)));
       (Py.Exception,
        fun e => ret (inr (jsonify_code
                             (error_body ("Error reading project files: " ++ Py.exn_str e)) 500)))] in
  match texts with
  | inr resp => ret resp
  | inl t =>
  try_except
    (let! a := eval_llm_args llm_config in
     let! report := call check_consistency []
       [("novel_setting", JStr (novel_setting_text t));
        ("character_state", JStr (character_state_text t));
        ("global_summary", JStr (global_summary_text t));
        ("chapter_text", JStr (chapter_text_content t));
        ("api_key", la_api_key a); ("base_url", la_base_url a);
        ("model_name", la_model_name a); ("temperature", la_temperature a);
        ("interface_format", llm_interface_format);
        ("max_tokens", la_max_tokens a); ("timeout", la_timeout a);
        ("plot_arcs", JStr (plot_arcs_text t))] in
     ret (jsonify (JObj [("status", JStr "success"); ("consistency_report", report)])))
    [(Py.Exception, fun e => error ("Error during consistency check: " ++ Py.exn_str e) 500)]
  end
  end.

End App.

(** * Predicates on computations *)

(** [wp m Q w]: running [m] from [w] ends in a result and a world that
    satisfy [Q]. *)
Definition wp {A} (m : M A) (Q : Py.result A -> world -> Prop) (w : world) : Prop :=
  Q (fst (m w)) (snd (m w)).

(** A computation that only looks at the world. *)
Definition readonly {A} (m : M A) : Prop := forall w, snd (m w) = w.

(** * What the claims are stated with *)

(** The response of a run, when the view function returned one. *)
Definition responded {A} (run : Py.result A * world) (r : A) : Prop := fst run = inl r.

(** The run made no call into the generation library. *)
Definition no_call (w : world) (run : Py.result response * world) : Prop :=
  w_log (snd run) = w_log w.

(** The run made exactly the call [ev]. *)
Definition called (w : world) (run : Py.result response * world) (ev : event) : Prop :=
  w_log (snd run) = (w_log w ++ [ev])%list.

(** [<projects_base>/<project_name>] for the world's [app.config]. *)
Definition project_path (w : world) (project_name : string) : string :=
  posix_join (default "novel_projects" (PROJECTS_BASE_PATH_OVERRIDE (w_config w))) project_name.

(** The body is a JSON object whose ["project_name"], when present, is a
    string. *)
Definition names_project (body : json) (pn : string) : Prop :=
  Py.get body "project_name" (JStr "default_project") = inl (JStr pn).

(** The keyword argument [name] of the call is a non-empty string. *)
Definition nonempty_text (ev : event) (name : string) : Prop :=
  exists s, Py.lookup name (ev_kwargs ev) = Some (JStr s) /\ s <> "".

(** The configuration passes [get_llm_config] / [get_embedding_config]. *)
Definition llm_config_valid (E : externals) (w : world) : Prop :=
  exists cfg ifc err,
    get_llm_config E w = (inl (cfg, ifc, err), w) /\ Py.truthy err = false.

Definition embedding_config_valid (E : externals) (w : world) : Prop :=
  exists cfg ifc err,
    get_embedding_config E w = (inl (cfg, ifc, err), w) /\ Py.truthy err = false.

(** The three ways in which the LLM configuration is missing: the document
    is empty; the selected interface has no entry in ["llm_configs"]; a
    required key of the entry is absent or falsy, ["base_url"] being
    required exactly for the interface ["OpenAI"]. *)
Inductive llm_config_missing : json -> Prop :=
| config_empty config :
    Py.truthy config = false -> llm_config_missing config
| interface_absent kvs name lcs :
    kvs <> [] ->
    Py.get (JObj kvs) "last_interface_format" (JStr "OpenAI") = inl (JStr name) ->
    Py.get (JObj kvs) "llm_configs" (JObj []) = inl (JObj lcs) ->
    Py.lookup name lcs = None ->
    llm_config_missing (JObj kvs)
| key_absent_or_falsy kvs name lcs entry key :
    kvs <> [] ->
    Py.get (JObj kvs) "last_interface_format" (JStr "OpenAI") = inl (JStr name) ->
    Py.get (JObj kvs) "llm_configs" (JObj []) = inl (JObj lcs) ->
    Py.lookup name lcs = Some (JObj entry) ->
    In key ["api_key"; "model_name"; "temperature"; "max_tokens"; "timeout"]
    \/ (key = "base_url" /\ name = "OpenAI") ->
    Py.lookup key entry = None
    \/ (exists v, Py.lookup key entry = Some v /\ Py.truthy v = false) ->
    llm_config_missing (JObj kvs).

(** The document that [load_config] returns in this world is missing the
    LLM configuration. *)
Definition llm_config_missing_in (E : externals) (w : world) : Prop :=
  exists config,
    load_config E (default "config.json" (CONFIG_FILE_OVERRIDE (w_config w))) (w_fs w)
      = inl config
    /\ llm_config_missing config.

(** The files [check_consistency_api] insists on, by name and by path. *)
Definition required_files (filepath : string) (chapter_number : Z) : list (string * string) :=
  [("Novel_architecture.txt", posix_join filepath "Novel_architecture.txt");
   ("character_state.txt", posix_join filepath "character_state.txt");
   ("global_summary.txt", posix_join filepath "global_summary.txt");
   ("chapter_" ++ Py.str_of_Z chapter_number ++ ".txt",
    posix_join (posix_join filepath "chapters")
               ("chapter_" ++ Py.str_of_Z chapter_number ++ ".txt"))].

(** The body carries a ["chapter_number"] that [int()] accepts. *)
Definition chapter_number_is (body : json) (n : Z) : Prop :=
  exists v, Py.get body "chapter_number" JNull = inl v
            /\ is_None v = false /\ Py.int v = inl n.

(** ** The configuration store

    Modelled from the spec: [config_manager.load_config] and
    [config_manager.save_config] are imported by [app.py] and are not among
    the sources.  The spec has the configuration document "round-tripped
    to disk verbatim": saving writes the document at the path and reports
    success, or reports failure and leaves the disk alone where the path
    cannot be written; loading returns the document at the path, and the
    empty document when there is none. *)
Definition cm_load_config (path : string) (d : fs) : Py.result json :=
  inl (default (JObj []) (fs_docs d !! path)).

(** Modelled from the spec: see [cm_load_config]. *)
Definition cm_save_config (data : json) (path : string) (d : fs) : Py.result json * fs :=
  if bool_decide (path ∈ fs_denied d) then (inl (JBool false), d)
  else (inl (JBool true),
        mk_fs (fs_dirs d) (fs_denied d) (fs_text d) (<[path := data]> (fs_docs d))).

(** The collaborators [E] with the configuration store above. *)
Definition with_config_manager (E : externals) : externals :=
  mk_externals cm_load_config cm_save_config (read_file E) (ext_call E)
               (float_of_str E) (repr E).

(** ** Claims as the specification words them

    Each is the reading of one sentence of the specification at a given
    request and world; the code is compared with it below. *)

(** "Every text passed to the consistency checker is non-empty." *)
Definition texts_nonempty_spec (E : externals) (req : request) (w : world) : Prop :=
  forall ev, called w (check_consistency_api E req w) ev ->
    Forall (nonempty_text ev)
      ["novel_setting"; "character_state"; "global_summary"; "chapter_text"; "plot_arcs"].

(** "A JSON-object body without num_chapters gets a 400 from the blueprint
    route." *)
Definition blueprint_missing_field_spec (E : externals) (kvs : list (string * json))
    (w : world) : Prop :=
  Py.lookup "num_chapters" kvs = None ->
  exists resp, responded (generate_blueprint_api E (mk_request (JObj kvs)) w) resp
               /\ status resp = 400.

(** "An LLM-using endpoint answers 500 with an LLM Config Error when the
    configuration is missing", at the consistency-check route. *)
Definition consistency_missing_config_spec (E : externals) (req : request) (w : world) : Prop :=
  llm_config_missing_in E w ->
  exists msg, responded (check_consistency_api E req w) (jsonify_code (error_body msg) 500)
              /\ Py.contains msg "LLM Config Error" = true.

(** "For a JSON-object body: 404 when the project directory does not
    exist; otherwise 200 exactly when clear_vector_store returns a truthy
    value, and 500 otherwise." *)
Definition clear_status_spec (E : externals) (kvs : list (string * json)) (w : world) : Prop :=
  forall pn, names_project (JObj kvs) pn ->
  exists resp, responded (clear_vectorstore_api E (mk_request (JObj kvs)) w) resp /\
    if bool_decide (project_path w pn ∈ fs_dirs (w_fs w)) then
      match fst (ext_call E clear_vector_store [JStr (project_path w pn)] [] (w_fs w)) with
      | inl v => status resp = if Py.truthy v then 200 else 500
      | inr _ => status resp = 500
      end
    else status resp = 404.

(** "The project directory exists after the response, whatever the
    response." *)
Definition directory_created_spec (handler : request -> M response)
    (req : request) (w : world) : Prop :=
  forall pn, names_project (req_json req) pn ->
    project_path w pn ∈ fs_dirs (w_fs (snd (handler req w))).

(** * Concrete worlds *)

Module Sample.

(** The configuration document of [test_app.py]; [0.5] is [2^52 * 2^-53]. *)
Definition llm_entry : json :=
  JObj [("api_key", JStr "test_key"); ("base_url", JStr "http://localhost/test");
        ("model_name", JStr "test_model");
        ("temperature", JFloat (S754_finite false 4503599627370496 (-53)));
        ("max_tokens", JInt 100); ("timeout", JInt 60)].

Definition dummy_config_data : json :=
  JObj [("last_interface_format", JStr "TestLLM");
        ("llm_configs", JObj [("TestLLM", llm_entry)]);
        ("last_embedding_interface_format", JStr "TestEmbed");
        ("embedding_configs",
         JObj [("TestEmbed", JObj [("api_key", JStr "embed_key");
                                   ("model_name", JStr "embed_model")])]);
        ("other_params", JObj [])].

(** [bad_config_data] of [test_generate_architecture_missing_llm_config]. *)
Definition bad_config_data : json :=
  JObj [("last_interface_format", JStr "TestLLM");
        ("llm_configs", JObj []);
        ("last_embedding_interface_format", JStr "TestEmbed");
        ("embedding_configs",
         JObj [("TestEmbed", JObj [("api_key", JStr "embed_key");
                                   ("model_name", JStr "embed_model")])]);
        ("other_params", JObj [])].

(** Collaborators: the configuration store above, a [read_file] that
    returns the text on disk and the empty text for a missing file, and a
    generation library whose every function has the outcome [r]. *)
Definition env (r : Py.result json) : externals :=
  mk_externals cm_load_config cm_save_config
    (fun path d => inl (default "" (fs_text d !! path)))
    (fun _ _ _ d => (r, d))
    (fun _ => None)
    (fun _ => "<repr>").

Definition app : app_config := mk_app_config None None.

Definition disk (config : json) (dirs denied : list string)
    (texts : list (string * string)) : fs :=
  mk_fs (list_to_set dirs) (list_to_set denied) (list_to_map texts)
        {["config.json" := config]}.

(** A project ["p"] with its directory and a valid configuration, no
    artifacts yet. *)
Definition fresh : world :=
  mk_world app (disk dummy_config_data ["novel_projects/p"] [] []) [].

(** No project directory, valid configuration. *)
Definition bare : world := mk_world app (disk dummy_config_data [] [] []) [].

(** The project directory cannot be created. *)
Definition locked : world :=
  mk_world app (disk dummy_config_data [] ["novel_projects/p"] []) [].

(** No usable LLM configuration. *)
Definition unconfigured : world :=
  mk_world app (disk bad_config_data ["novel_projects/p"] [] []) [].

(** The project after chapter 1 was written, [plot_arcs.txt] not yet. *)
Definition drafted : world :=
  mk_world app
    (disk dummy_config_data ["novel_projects/p"] []
       [("novel_projects/p/Novel_architecture.txt", "setting");
        ("novel_projects/p/character_state.txt", "state");
        ("novel_projects/p/global_summary.txt", "summary");
        ("novel_projects/p/chapters/chapter_1.txt", "chapter one")]) [].

(** The same without the character state. *)
Definition half_drafted : world :=
  mk_world app
    (disk dummy_config_data ["novel_projects/p"] []
       [("novel_projects/p/Novel_architecture.txt", "setting");
        ("novel_projects/p/global_summary.txt", "summary");
        ("novel_projects/p/chapters/chapter_1.txt", "chapter one")]) [].

Definition post (fields : list (string * json)) : request :=
  mk_request (JObj (("project_name", JStr "p") :: fields)).

(** The first call a run made. *)
Definition first_call (run : Py.result response * world) : event :=
  hd (mk_event check_consistency [] [] (inl JNull)) (w_log (snd run)).

Definition file_not_found : Py.exn :=
  Py.mk_exn Py.FileNotFoundError "Novel_directory.txt".

Definition timed_out : Py.exn := Py.mk_exn (Py.OtherError "TimeoutError") "timed out".

End Sample.

(** * The remaining routes of [app.py] *)

(** ** [allowed_file] *)

Definition ALLOWED_EXTENSIONS : list string := ["txt"].

(** [str.lower] on the ASCII letters.  Of the characters outside ASCII
    none lowers to a letter of an allowed extension, so the comparison
    with [ALLOWED_EXTENSIONS] comes out the same. *)
Definition lower_char (c : ascii) : ascii :=
  let n := nat_of_ascii c in
  if ((65 <=? n) && (n <=? 90))%nat then ascii_of_nat (n + 32) else c.

Fixpoint lower (s : string) : string :=
  match s with
  | EmptyString => EmptyString
  | String c s' => String (lower_char c) (lower s')
  end.

(** The cut at the last ['.'] of [s], when there is one. *)
Fixpoint last_dot (s : string) : option (string * string) :=
  match s with
  | EmptyString => None
  | String c s' =>
      match last_dot s' with
      | Some (a, b) => Some (String c a, b)
      | None => if Ascii.eqb c "." then Some (EmptyString, s') else None
      end
  end.

(** [s.rsplit('.', 1)] *)
Definition rsplit_dot (s : string) : list string :=
  match last_dot s with
  | Some (a, b) => [a; b]
  | None => [s]
  end.

(** [xs[1]] on a list of strings. *)
Definition item1 (xs : list string) : Py.result string :=
  match xs with
  | _ :: x :: _ => inl x
  | _ => Py.raise (Py.OtherError "IndexError") "list index out of range"
  end.

(** ['.' in filename and filename.rsplit('.', 1)[1].lower() in
    ALLOWED_EXTENSIONS] *)
Definition allowed_file (filename : string) : Py.result bool :=
  if Py.contains filename "." then
    match item1 (rsplit_dot filename) with
    | inl ext => inl (existsb (String.eqb (lower ext)) ALLOWED_EXTENSIONS)
    | inr e => inr e
    end
  else inl false.

(** ** [GET /api/novel/plot_arcs] *)

(** [d.get(key, default)] on the string-valued multi-dicts [request.args]
    and [request.form]. *)
Fixpoint field_get (fields : list (string * string)) (key default : string) : string :=
  match fields with
  | [] => default
  | (k, v) :: rest => if String.eqb key k then v else field_get rest key default
  end.

(** A request read through its query string. *)
Record query_request : Type := mk_query_request { req_args : list (string * string) }.

Definition get_plot_arcs_api (E : externals) (req : query_request) : M response :=
  let project_name := field_get (req_args req) "project_name" "default_project" in
  let! base := get_projects_base_path in
  let filepath := posix_join base project_name in
  let plot_arcs_file_path := posix_join filepath "plot_arcs.txt" in
  try_except
    (let! plot_arcs_text := call_read_file E plot_arcs_file_path in
     ret (jsonify (JObj [("status", JStr "success");
                         ("project_name", JStr project_name);
                         ("plot_arcs_text", JStr plot_arcs_text)])))
    [(Py.Exception,
      fun e => error ("Error reading plot arcs file: " ++ Py.exn_str e) 500)].

(** ** [POST /api/knowledge/import] *)

(** An uploaded file, as [werkzeug]'s [FileStorage] shows it. *)
Record file_storage : Type := mk_file_storage { filename : string; stream : string }.

(** A multipart request. *)
Record upload_request : Type := mk_upload_request {
  req_files : list (string * file_storage);
  req_form : list (string * string)
}.

(** What the import route takes as given besides [externals]:
    [werkzeug]'s [secure_filename] and [FileStorage.save],
    [tempfile.gettempdir()] as evaluated when the module was loaded, and
    [novel_generator.knowledge.import_knowledge_file]. *)
Record upload_externals : Type := mk_upload_externals {
  secure_filename : string -> string;
  UPLOAD_FOLDER_TEMP : string;
  file_save : file_storage -> string -> fs -> Py.result unit * fs;
  import_knowledge_file : list (string * json) -> fs -> Py.result json * fs
}.

(** [request.files[key]], when [key in request.files]. *)
Fixpoint files_get (files : list (string * file_storage)) (key : string) : option file_storage :=
  match files with
  | [] => None
  | (k, f) :: rest => if String.eqb key k then Some f else files_get rest key
  end.

(** [os.path.exists(path)]: a directory, a text file or a document. *)
Definition exists_on (d : fs) (path : string) : bool :=
  bool_decide (path ∈ fs_dirs d)
  || bool_decide (is_Some (fs_text d !! path))
  || bool_decide (is_Some (fs_docs d !! path)).

Definition os_path_exists (path : string) : M bool :=
  fun w => (inl (exists_on (w_fs w) path), w).

(** [os.remove(path)]: removes a file unless the operating system refuses
    ([PermissionError], an [OSError]; the file stays); a directory is
    refused as well. *)
Definition os_remove (path : string) : M unit :=
  fun w =>
    let d := w_fs w in
    if bool_decide (is_Some (fs_text d !! path)) || bool_decide (is_Some (fs_docs d !! path))
    then
      if bool_decide (path ∈ fs_denied d) then
        (Py.raise Py.OSError ("[Errno 13] Permission denied: '" ++ path ++ "'"), w)
      else
        (inl tt,
         mk_world (w_config w)
                  (mk_fs (fs_dirs d) (fs_denied d) (delete path (fs_text d))
                         (delete path (fs_docs d)))
                  (w_log w))
    else if bool_decide (path ∈ fs_dirs d) then
      (Py.raise Py.OSError ("[Errno 21] Is a directory: '" ++ path ++ "'"), w)
    else
      (Py.raise Py.FileNotFoundError
         ("[Errno 2] No such file or directory: '" ++ path ++ "'"), w).

(** [try: m  finally: f]: [f] runs whatever [m] did; what [f] raises
    replaces the outcome of [m]. *)
Definition finally {A} (m : M A) (f : M unit) : M A :=
  fun w => match m w with
           | (r, w1) => match f w1 with
                        | (inl _, w2) => (r, w2)
                        | (inr e, w2) => (inr e, w2)
                        end
           end.

Definition call_file_save (U : upload_externals) (file : file_storage) (path : string) : M unit :=
  fun w => let '(r, d) := file_save U file path (w_fs w) in
           (r, mk_world (w_config w) d (w_log w)).

(** The call of [import_knowledge_file].  The trace of a world keeps the
    calls of the functions of [ext_fn]; this one changes the disk only. *)
Definition call_import (U : upload_externals) (kwargs : list (string * json)) : M json :=
  fun w => let '(r, d) := import_knowledge_file U kwargs (w_fs w) in
           (r, mk_world (w_config w) d (w_log w)).

(** The path of the temporary copy of an upload. *)
Definition temp_path (U : upload_externals) (file : file_storage) : string :=
  posix_join (UPLOAD_FOLDER_TEMP U) (secure_filename U (filename file)).

Definition import_knowledge_api (E : externals) (U : upload_externals)
    (req : upload_request) : M response :=
  match files_get (req_files req) "knowledge_file" with
  | None => error "No file part in the request." 400
  | Some file =>
  if String.eqb (filename file) "" then error "No selected file." 400 else
  (* [file and allowed_file(file.filename)]; [bool(file)] is
     [bool(file.filename)] *)
  let file_truthy := negb (String.eqb (filename file) "") in
  let! allowed :=
    (if file_truthy then lift (allowed_file (filename file)) else ret false) in
  if allowed then
    let filename_ := secure_filename U (filename file) in
    let temp_file_path := posix_join (UPLOAD_FOLDER_TEMP U) filename_ in
    finally
      (try_except
         (let! _ := call_file_save U file temp_file_path in
          let project_name := field_get (req_form req) "project_name" "default_project" in
          let! base := get_projects_base_path in
          let filepath := posix_join base project_name in
          let! _ := os_makedirs filepath in
          let! (embedding_config, embedding_interface_format, embedding_error_msg) :=
            get_embedding_config E in
          if Py.truthy embedding_error_msg then
            error ("Embedding Config Error: " ++ str E embedding_error_msg) 500
          else
          let! (embedding_api_key, embedding_url) := eval_embedding_key_url embedding_config in
          let! embedding_model_name := lift (Py.getitem embedding_config (JStr "model_name")) in
          let! _ := call_import U
            [("embedding_api_key", embedding_api_key); ("embedding_url", embedding_url);
             ("embedding_interface_format", embedding_interface_format);
             ("embedding_model_name", embedding_model_name);
             ("file_path", JStr temp_file_path); ("filepath", JStr filepath)] in
          ret (jsonify (JObj [("status", JStr "success");
                              ("message",
                               JStr ("Knowledge file '" ++ filename_
                                     ++ "' imported successfully to project '"
                                     ++ project_name ++ "'."))])))
         [(Py.Exception,
           fun e => error ("Error importing knowledge file: " ++ Py.exn_str e) 500)])
      (let! present := os_path_exists temp_file_path in
       if present then os_remove temp_file_path else ret tt)
  else error "File type not allowed. Only .txt files are accepted." 400
  end.

(** ** What the further properties are stated with *)

(** The embedding configuration is missing, in the three ways of
    [llm_config_missing]; its required keys are ["api_key"] and
    ["model_name"]. *)
Inductive embedding_config_missing : json -> Prop :=
| embedding_empty config :
    Py.truthy config = false -> embedding_config_missing config
| embedding_interface_absent kvs name ecs :
    kvs <> [] ->
    Py.get (JObj kvs) "last_embedding_interface_format" (JStr "OpenAI") = inl (JStr name) ->
    Py.get (JObj kvs) "embedding_configs" (JObj []) = inl (JObj ecs) ->
    Py.lookup name ecs = None ->
    embedding_config_missing (JObj kvs)
| embedding_key_absent_or_falsy kvs name ecs entry key :
    kvs <> [] ->
    Py.get (JObj kvs) "last_embedding_interface_format" (JStr "OpenAI") = inl (JStr name) ->
    Py.get (JObj kvs) "embedding_configs" (JObj []) = inl (JObj ecs) ->
    Py.lookup name ecs = Some (JObj entry) ->
    In key ["api_key"; "model_name"] ->
    Py.lookup key entry = None
    \/ (exists v, Py.lookup key entry = Some v /\ Py.truthy v = false) ->
    embedding_config_missing (JObj kvs).

Definition embedding_config_missing_in (E : externals) (w : world) : Prop :=
  exists config,
    load_config E (default "config.json" (CONFIG_FILE_OVERRIDE (w_config w))) (w_fs w)
      = inl config
    /\ embedding_config_missing config.

(** Every key of [keys] is bound to a truthy value in the object [cfg]. *)
Definition has_truthy (cfg : json) (keys : list string) : Prop :=
  exists entry,
    cfg = JObj entry
    /\ Forall (fun key => exists v, Py.lookup key entry = Some v /\ Py.truthy v = true) keys.

(** The exception escaped the view function. *)
Definition escaped {A} (run : Py.result A * world) (e : Py.exn) : Prop := fst run = inr e.

(** Two disks that differ at most in their directories. *)
Definition same_files (d d' : fs) : Prop :=
  fs_denied d' = fs_denied d /\ fs_text d' = fs_text d /\ fs_docs d' = fs_docs d.

(** [path] is not a file of the disk. *)
Definition not_a_file (d : fs) (path : string) : Prop :=
  fs_text d !! path = None /\ fs_docs d !! path = None.

(** The classes that [int()] and [float()] raise. *)
Definition conversion_errors : list Py.exn_class :=
  [Py.ValueError; Py.TypeError; Py.OverflowError].

(** [int(v)] raises a [ValueError]: a string that is no integer literal,
    or the float [nan]. *)
Definition not_an_integer (v : json) : Prop :=
  exists e, Py.int v = inr e /\ Py.exn_cls e = Py.ValueError.

(** [int(v)] raises [e], which no [except ValueError] catches: a
    [TypeError] for a list or an object, an [OverflowError] for an
    infinite float. *)
Definition int_raises_other (v : json) (e : Py.exn) : Prop :=
  Py.int v = inr e /\ Py.exn_cls e <> Py.ValueError.

(** [int(a)] then [int(b)]: the first of the two conversions that fails
    raises a [ValueError]. *)
Definition pair_not_integers (a b : json) : Prop :=
  not_an_integer a \/ ((exists z, Py.int a = inl z) /\ not_an_integer b).

(** [isinstance(v, str)] *)
Definition is_str (v : json) : bool :=
  match v with JStr _ => true | _ => false end.

(** The body [kvs] with the value of its field [k] replaced by [v]. *)
Fixpoint set_field (k : string) (v : json) (kvs : list (string * json))
    : list (string * json) :=
  match kvs with
  | [] => []
  | (k', v') :: rest =>
      if String.eqb k k' then (k', v) :: rest else (k', v') :: set_field k v rest
  end.

(** The fields of the request body that each route hands to [int()]. *)
Definition integer_fields (E : externals)
    : list ((request -> M response) * list string) :=
  [(generate_architecture_api E, ["num_chapters"; "word_number"]);
   (generate_blueprint_api E, ["num_chapters"]);
   (generate_chapter_draft_api E, ["novel_number"; "word_number"; "embedding_retrieval_k"]);
   (finalize_chapter_api E, ["novel_number"; "word_number"]);
   (check_consistency_api E, ["chapter_number"])].

(** ** Further sample data *)

Module Sample2.

(** [FileStorage.save]: the upload is written as text; a directory in
    the way is an [IsADirectoryError], a refusal of the operating system a
    [PermissionError], both [OSError]s. *)
Definition save_as_text (file : file_storage) (path : string) (d : fs)
    : Py.result unit * fs :=
  if bool_decide (path ∈ fs_dirs d) then
    (Py.raise Py.OSError ("[Errno 21] Is a directory: '" ++ path ++ "'"), d)
  else if bool_decide (path ∈ fs_denied d) then
    (Py.raise Py.OSError ("[Errno 13] Permission denied: '" ++ path ++ "'"), d)
  else
    (inl tt, mk_fs (fs_dirs d) (fs_denied d) (<[path := stream file]> (fs_text d))
                   (fs_docs d)).

(** [werkzeug] stand-ins: names are kept. *)
Definition uploads : upload_externals :=
  mk_upload_externals
    (fun name => name) "/tmp"
    save_as_text
    (fun _ d => (inl JNull, d)).

(** The same with an import that fails. *)
Definition failing_uploads : upload_externals :=
  mk_upload_externals
    (fun name => name) "/tmp"
    save_as_text
    (fun _ d => (inr Sample.timed_out, d)).

Definition notes : upload_request :=
  mk_upload_request [("knowledge_file", mk_file_storage "notes.TXT" "lore")]
                    [("project_name", "p")].

(** A disk on which the temporary path of [notes] is a directory. *)
Definition tmp_is_directory : world :=
  mk_world Sample.app
    (Sample.disk Sample.dummy_config_data ["novel_projects/p"; "/tmp/notes.TXT"] [] []) [].

(** A disk with a stale copy at the temporary path of [notes] that may be
    neither overwritten nor removed. *)
Definition tmp_is_protected : world :=
  mk_world Sample.app
    (Sample.disk Sample.dummy_config_data ["novel_projects/p"] ["/tmp/notes.TXT"]
       [("/tmp/notes.TXT", "stale")]) [].

(** A configuration without the embedding entry. *)
Definition no_embedding_config : json :=
  JObj [("last_interface_format", JStr "TestLLM");
        ("llm_configs", JObj [("TestLLM", Sample.llm_entry)]);
        ("last_embedding_interface_format", JStr "TestEmbed");
        ("embedding_configs", JObj [])].

Definition no_embedding : world :=
  mk_world Sample.app (Sample.disk no_embedding_config ["novel_projects/p"] [] []) [].

(** Collaborators whose [read_file] raises. *)
Definition unreadable (e : Py.exn) : externals :=
  mk_externals cm_load_config cm_save_config
    (fun _ _ => inr e)
    (fun _ _ _ d => (inl JNull, d))
    (fun _ => None)
    (fun _ => "<repr>").

End Sample2.

(** * Reasoning about computations *)

Lemma wp_run {A} (m : M A) Q w r w' : wp m Q w -> m w = (r, w') -> Q r w'.
Proof. unfold wp. intros H Heq. rewrite Heq in H. exact H. Qed.

Lemma wp_intro {A} (m : M A) (Q : Py.result A -> world -> Prop) w :
  (forall r w', m w = (r, w') -> Q r w') -> wp m Q w.
Proof. intros H. unfold wp. apply H. apply surjective_pairing. Qed.

Lemma wp_ret {A} (a : A) Q w : Q (inl a) w -> wp (ret a) Q w.
Proof. exact (fun H => H). Qed.

Lemma wp_lift {A} (r : Py.result A) Q w : Q r w -> wp (lift r) Q w.
Proof. exact (fun H => H). Qed.

Lemma wp_bind {A B} (m : M A) (k : A -> M B) Q w :
  wp m (fun r w' => match r with
                    | inl a => wp (k a) Q w'
                    | inr e => Q (inr e) w'
                    end) w ->
  wp (bind m k) Q w.
Proof.
  unfold wp, bind. destruct (m w) as [[a | e] w1]; simpl; intros H; exact H.
Qed.

Lemma wp_try_except {A} (m : M A) hs Q w :
  wp m (fun r w' => match r with
                    | inl a => Q (inl a) w'
                    | inr e => wp (dispatch hs e) Q w'
                    end) w ->
  wp (try_except m hs) Q w.
Proof.
  unfold wp, try_except. destruct (m w) as [[a | e] w1]; simpl; intros H; exact H.
Qed.

Lemma wp_attempt {A} (m : M A) c Q w :
  wp m (fun r w' => match r with
                    | inl a => Q (inl (inl a)) w'
                    | inr e => if Py.issubclass (Py.exn_cls e) c
                               then Q (inl (inr e)) w' else Q (inr e) w'
                    end) w ->
  wp (attempt m c) Q w.
Proof.
  unfold wp, attempt, try_except, bind, ret.
  destruct (m w) as [[a | e] w1]; simpl; [exact (fun H => H) |].
  destruct (Py.issubclass (Py.exn_cls e) c); exact (fun H => H).
Qed.

Lemma wp_readonly {A} (m : M A) Q w :
  readonly m -> (forall r, m w = (r, w) -> Q r w) -> wp m Q w.
Proof.
  intros Hro H. unfold wp. rewrite Hro. apply H.
  rewrite <- (Hro w) at 3. apply surjective_pairing.
Qed.

Lemma readonly_ret {A} (a : A) : readonly (ret a).
Proof. intros w. reflexivity. Qed.

Lemma readonly_lift {A} (r : Py.result A) : readonly (lift r).
Proof. intros w. reflexivity. Qed.

Lemma readonly_bind {A B} (m : M A) (k : A -> M B) :
  readonly m -> (forall a, readonly (k a)) -> readonly (bind m k).
Proof.
  intros Hm Hk w. unfold bind. specialize (Hm w).
  destruct (m w) as [[a | e] w1]; simpl in *; subst; [apply Hk | reflexivity].
Qed.

Lemma readonly_if {A} (b : bool) (m1 m2 : M A) :
  readonly m1 -> readonly m2 -> readonly (if b then m1 else m2).
Proof. destruct b; auto. Qed.

Section AppFacts.

Variable E : externals.

Lemma readonly_load_config path : readonly (call_load_config E path).
Proof. intros w. reflexivity. Qed.

Lemma readonly_config_file_path : readonly get_config_file_path.
Proof. intros w. reflexivity. Qed.

Ltac readonly_tac :=
  repeat first
    [ apply readonly_ret | apply readonly_lift | apply readonly_load_config
    | apply readonly_config_file_path
    | apply readonly_bind; [| intros ?]
    | apply readonly_if
    | match goal with
      | |- readonly (match ?x with _ => _ end) => destruct x
      end ].

Lemma readonly_get_llm_config : readonly (get_llm_config E).
Proof. unfold get_llm_config. readonly_tac. Qed.

Lemma readonly_get_embedding_config : readonly (get_embedding_config E).
Proof. unfold get_embedding_config. readonly_tac. Qed.

Lemma readonly_eval_llm_args cfg : readonly (eval_llm_args E cfg).
Proof. unfold eval_llm_args. readonly_tac. Qed.

Lemma readonly_eval_embedding_key_url cfg : readonly (eval_embedding_key_url cfg).
Proof. unfold eval_embedding_key_url. readonly_tac. Qed.

End AppFacts.

(** ** State-changing primitives *)

(** [mkdirs] changes nothing but the set of directories, which grows by
    members of the chain only. *)
Lemma mkdirs_frame chain d r d' :
  mkdirs chain d = (r, d') ->
  fs_denied d' = fs_denied d /\ fs_text d' = fs_text d /\ fs_docs d' = fs_docs d
  /\ (forall q, q ∈ fs_dirs d -> q ∈ fs_dirs d')
  /\ (forall q, q ∈ fs_dirs d' -> q ∈ fs_dirs d \/ In q chain).
Proof.
  revert d. induction chain as [| q0 chain IH]; intros d Hrun; cbn [mkdirs] in Hrun.
  - injection Hrun as <- <-. repeat split; auto.
  - destruct (bool_decide (q0 ∈ fs_dirs d)) eqn:Hin.
    + destruct (IH _ Hrun) as (Hd & Ht & Hj & Hup & Hnew).
      repeat split; auto. intros q Hq. destruct (Hnew q Hq); [left | right; right]; auto.
    + destruct (bool_decide (q0 ∈ fs_denied d)) eqn:Hden.
      * injection Hrun as <- <-. repeat split; auto.
      * destruct (IH _ Hrun) as (Hd & Ht & Hj & Hup & Hnew).
        cbn [fs_denied fs_text fs_docs fs_dirs] in *.
        repeat split; auto.
        -- intros q Hq. apply Hup. apply elem_of_union. right. exact Hq.
        -- intros q Hq. destruct (Hnew q Hq) as [Hold | Hch]; [| right; right; exact Hch].
           apply elem_of_union in Hold as [Hq0 | Hold]; [| left; exact Hold].
           apply elem_of_singleton in Hq0. right. left. symmetry. exact Hq0.
Qed.

(** When [mkdirs] returns, every member of the chain is a directory. *)
Lemma mkdirs_made chain d u d' :
  mkdirs chain d = (inl u, d') -> forall q, In q chain -> q ∈ fs_dirs d'.
Proof.
  revert d. induction chain as [| q0 chain IH]; intros d Hrun q Hq; [destruct Hq |].
  cbn [mkdirs] in Hrun.
  destruct (bool_decide (q0 ∈ fs_dirs d)) eqn:Hin.
  - destruct Hq as [<- | Hq]; [| eapply IH; eassumption].
    apply bool_decide_eq_true_1 in Hin.
    destruct (mkdirs_frame _ _ _ _ Hrun) as (_ & _ & _ & Hup & _). auto.
  - destruct (bool_decide (q0 ∈ fs_denied d)) eqn:Hden; [discriminate Hrun |].
    destruct Hq as [<- | Hq]; [| eapply IH; eassumption].
    destruct (mkdirs_frame _ _ _ _ Hrun) as (_ & _ & _ & Hup & _).
    apply Hup. cbn [fs_dirs]. apply elem_of_union. left. apply elem_of_singleton. reflexivity.
Qed.

(** When [mkdirs] is refused, the error is an [OSError] and the last
    member of the chain has not been made. *)
Lemma mkdirs_refused pre p d e d' :
  mkdirs (pre ++ [p]) d = (inr e, d') ->
  Py.exn_cls e = Py.OSError
  /\ (~ In p pre -> p ∈ fs_dirs d' -> p ∈ fs_dirs d).
Proof.
  revert d. induction pre as [| q0 pre IH]; intros d Hrun.
  - cbn [app mkdirs] in Hrun.
    destruct (bool_decide (p ∈ fs_dirs d)); [discriminate Hrun |].
    destruct (bool_decide (p ∈ fs_denied d)); [| discriminate Hrun].
    injection Hrun as <- <-. split; [reflexivity | auto].
  - change ((q0 :: pre) ++ [p])%list with (q0 :: (pre ++ [p]))%list in Hrun.
    cbn [mkdirs] in Hrun.
    destruct (bool_decide (q0 ∈ fs_dirs d)).
    + destruct (IH _ Hrun) as [Hc Hp]. split; [exact Hc |].
      intros Hn. apply Hp. intros Hin. apply Hn. right. exact Hin.
    + destruct (bool_decide (q0 ∈ fs_denied d)).
      * injection Hrun as <- <-. split; [reflexivity | auto].
      * destruct (IH _ Hrun) as [Hc Hp]. split; [exact Hc |].
        intros Hn Hin. cbn [fs_dirs] in Hp.
        assert (Hin' : p ∈ {[q0]} ∪ fs_dirs d).
        { apply Hp; [| exact Hin]. intros Hpre. apply Hn. right. exact Hpre. }
        apply elem_of_union in Hin' as [Hq0 | Hold]; [| exact Hold].
        apply elem_of_singleton in Hq0. exfalso. apply Hn. left. symmetry. exact Hq0.
Qed.

Lemma length_append (a b : string) :
  String.length (a ++ b) = (String.length a + String.length b)%nat.
Proof.
  induction a as [| c a IH]; [reflexivity |].
  change (String c a ++ b) with (String c (a ++ b)). cbn [String.length]. now rewrite IH.
Qed.

Lemma append_assoc (a b c : string) : (a ++ b) ++ c = a ++ (b ++ c).
Proof.
  induction a as [| x a IH]; [reflexivity |].
  change (String x a ++ b) with (String x (a ++ b)).
  change (String x (a ++ b) ++ c) with (String x ((a ++ b) ++ c)).
  change (String x a ++ (b ++ c)) with (String x (a ++ (b ++ c))).
  now rewrite IH.
Qed.

(** An ancestor of a path is what stands before one of its separators. *)
Lemma ancestors_from_prefix pre rest q :
  In q (ancestors_from pre rest) -> exists below, pre ++ rest = q ++ "/" ++ below.
Proof.
  revert pre. induction rest as [| c rest IH]; intros pre Hq; [destruct Hq |].
  cbn [ancestors_from] in Hq. apply in_app_or in Hq as [Hq | Hq].
  - destruct (Ascii.eqb c "/") eqn:Hc; cbn [andb] in Hq; [| destruct Hq].
    apply Ascii.eqb_eq in Hc. subst c.
    destruct (negb (String.eqb pre "") && negb (ends_with_slash pre)
              && negb (all_slashes (String "/" rest))); [| destruct Hq].
    destruct Hq as [<- | []]. exists rest. reflexivity.
  - destruct (IH _ Hq) as [below Hb]. exists below. rewrite <- Hb.
    rewrite append_assoc. reflexivity.
Qed.

Lemma ancestors_prefix path q :
  In q (ancestors path) -> exists below, path = q ++ "/" ++ below.
Proof. intros Hq. exact (ancestors_from_prefix "" path q Hq). Qed.

(** A path is none of its ancestors. *)
Lemma not_own_ancestor path : ~ In path (ancestors path).
Proof.
  intros Hin. apply ancestors_prefix in Hin as [below Hb].
  apply (f_equal String.length) in Hb. rewrite !length_append in Hb.
  cbn [String.length] in Hb. lia.
Qed.

Lemma wp_makedirs path Q w :
  (forall r w', os_makedirs path w = (r, w') ->
                w_log w' = w_log w -> w_config w' = w_config w ->
                (forall u, r = inl u -> path ∈ fs_dirs (w_fs w')) ->
                Q r w') ->
  wp (os_makedirs path) Q w.
Proof.
  intros H. apply wp_intro. intros r w' Hrun. apply H; [exact Hrun | | |];
    unfold os_makedirs in Hrun;
    destruct (has_nul path); [injection Hrun as <- <-; try reflexivity; discriminate | |
                              injection Hrun as <- <-; try reflexivity; discriminate | |
                              injection Hrun as <- <-; try reflexivity; discriminate |];
    (destruct (String.eqb path ""); [injection Hrun as <- <-; try reflexivity; discriminate |]);
    (destruct (bool_decide (path ∈ fs_dirs (w_fs w))) eqn:Hin;
     [injection Hrun as <- <-; try reflexivity;
      intros _ _; eapply bool_decide_eq_true_1; exact Hin |]);
    (destruct (mkdirs (ancestors path ++ [path]) (w_fs w)) as [r0 d0] eqn:Hmk;
     injection Hrun as <- <-; try reflexivity).
  intros u ->. cbn [w_fs].
  apply (mkdirs_made _ _ _ _ Hmk). apply in_or_app. right. left. reflexivity.
Qed.

Lemma wp_call E f args kwargs Q w :
  (forall r d, ext_call E f args kwargs (w_fs w) = (r, d) ->
               Q r (mk_world (w_config w) d (w_log w ++ [mk_event f args kwargs r]))) ->
  wp (call E f args kwargs) Q w.
Proof.
  intros H. unfold wp, call.
  destruct (ext_call E f args kwargs (w_fs w)) as [r d] eqn:Hc. simpl. apply H. reflexivity.
Qed.

Lemma wp_read_file E path Q w :
  (forall r, read_file E path (w_fs w) = r -> Q r w) -> wp (call_read_file E path) Q w.
Proof. intros H. unfold wp, call_read_file. simpl. apply H. reflexivity. Qed.

Lemma wp_isdir path Q w :
  Q (inl (bool_decide (path ∈ fs_dirs (w_fs w)))) w -> wp (os_path_isdir path) Q w.
Proof. exact (fun H => H). Qed.

Lemma wp_projects_base_path Q w :
  Q (inl (default "novel_projects" (PROJECTS_BASE_PATH_OVERRIDE (w_config w)))) w ->
  wp get_projects_base_path Q w.
Proof. exact (fun H => H). Qed.

Lemma wp_raise {A} c msg (Q : Py.result A -> world -> Prop) w :
  Q (inr (Py.mk_exn c msg)) w -> wp (raise c msg) Q w.
Proof. exact (fun H => H). Qed.

Lemma log_not_grown {A} (l : list A) x : l = (l ++ [x])%list -> False.
Proof.
  intros H. apply (f_equal (@length A)) in H. rewrite length_app in H. simpl in H. lia.
Qed.

(** ** Symbolic execution of a handler *)

Ltac wp_step :=
  lazymatch goal with
  | |- wp (bind _ _) _ _ => apply wp_bind
  | |- wp (ret _) _ _ => apply wp_ret
  | |- wp (error _ _) _ _ => apply wp_ret
  | |- wp (lift _) _ _ => apply wp_lift
  | |- wp (raise _ _) _ _ => apply wp_raise
  | |- wp (try_except _ _) _ _ => apply wp_try_except
  | |- wp (attempt _ _) _ _ => apply wp_attempt
  | |- wp (int_or_ValueError _) _ _ => apply wp_attempt
  | |- wp (int_pair_or_ValueError _ _) _ _ => apply wp_attempt
  | |- wp (os_makedirs _) _ _ => apply wp_makedirs; intros ? ? ? ? ? ?
  | |- wp (os_path_isdir _) _ _ => apply wp_isdir
  | |- wp (call _ _ _ _) _ _ => apply wp_call; intros ? ? ?
  | |- wp (call_read_file _ _) _ _ => apply wp_read_file; intros ? ?
  | |- wp (read_nonempty _ _ _) _ _ => unfold read_nonempty
  | |- wp (read_project_texts _ _ _) _ _ => unfold read_project_texts
  | |- wp get_projects_base_path _ _ => apply wp_projects_base_path
  | |- wp (get_llm_config _) _ _ =>
      apply wp_readonly; [apply readonly_get_llm_config | intros ? ?]
  | |- wp (get_embedding_config _) _ _ =>
      apply wp_readonly; [apply readonly_get_embedding_config | intros ? ?]
  | |- wp (eval_llm_args _ _) _ _ =>
      apply wp_readonly; [apply readonly_eval_llm_args | intros ? ?]
  | |- wp (eval_embedding_key_url _) _ _ =>
      apply wp_readonly; [apply readonly_eval_embedding_key_url | intros ? ?]
  | |- wp (dispatch _ _) _ _ => cbn [dispatch]
  | |- wp (if Py.issubclass (Py.exn_cls (Py.mk_exn ?c _)) ?d then _ else _) _ _ =>
      let b := eval compute in (Py.issubclass c d) in
      change (Py.issubclass (Py.exn_cls (Py.mk_exn c _)) d) with b; cbv iota
  | |- match inl _ with _ => _ end => cbv beta iota
  | |- match inr _ with _ => _ end => cbv beta iota
  | |- wp (match ?x with _ => _ end) _ _ => destruct x eqn:?
  | |- match ?x with _ => _ end => destruct x eqn:?
  end.

(** From [handler w = (r, w')] and a goal about [r] and [w'] to a [wp]. *)
Ltac wp_of_run H :=
  lazymatch type of H with
  | _ = (?r, ?w') => pattern r, w'; eapply wp_run; [| exact H]; clear H
  end.

(** Name the run of a handler and turn the goal into a [wp]. *)
Ltac wp_run_of m :=
  let r := fresh "out" in
  let w' := fresh "w'" in
  let H := fresh "Hrun" in
  destruct m as [r w'] eqn:H; cbn [fst snd] in *; wp_of_run H.

(** A leaf at which the trace is the one the handler started from. *)
Ltac trace_rewrite H :=
  cbn [w_log w_fs w_config fst snd] in H;
  repeat match goal with
         | Hl : w_log _ = w_log _ |- _ => rewrite Hl in H
         end.

Ltac leaf_without_call :=
  match goal with
  | H : _ = (_ ++ [_])%list |- _ =>
      exfalso; trace_rewrite H; apply log_not_grown in H; exact H
  end.

Ltac leaf_after_call :=
  match goal with
  | H : _ = (_ ++ [_])%list |- _ =>
      trace_rewrite H; apply app_inj_tail in H; destruct H as [_ <-];
      cbn [ev_fn ev_args ev_kwargs ev_result] in *
  end.

(** ** Substrings *)

Lemma prefix_append s b : Py.prefix s (s ++ b) = true.
Proof.
  induction s as [| c s IH]; simpl; [reflexivity |].
  rewrite Ascii.eqb_refl. exact IH.
Qed.

Lemma contains_prefix t s : Py.prefix s t = true -> Py.contains t s = true.
Proof. intros H. destruct t; simpl; rewrite H; reflexivity. Qed.

Lemma contains_append_l a t s : Py.contains t s = true -> Py.contains (a ++ t) s = true.
Proof.
  intros H. induction a as [| c a IH]; simpl; [exact H |].
  rewrite IH. apply orb_true_r.
Qed.

Lemma prefix_append_r s t b : Py.prefix s t = true -> Py.prefix s (t ++ b) = true.
Proof.
  revert t. induction s as [| c s IH]; intros [| d t]; simpl; try easy.
  intros H. apply andb_prop in H as [-> H]. simpl. apply IH, H.
Qed.

Lemma contains_append_r t s b : Py.contains t s = true -> Py.contains (t ++ b) s = true.
Proof.
  induction t as [| c t IH]; simpl.
  - destruct s; simpl; [| discriminate]. intros _. destruct b; reflexivity.
  - intros H. apply orb_prop in H as [H | H].
    + change (Py.prefix s (String c t ++ b) || Py.contains (t ++ b) s = true).
      rewrite (prefix_append_r _ _ _ H). reflexivity.
    + rewrite (IH H). apply orb_true_r.
Qed.

Lemma contains_here s b : Py.contains (s ++ b) s = true.
Proof. apply contains_prefix, prefix_append. Qed.

Lemma contains_end a s : Py.contains (a ++ s) s = true.
Proof.
  apply contains_append_l, contains_prefix.
  induction s as [| c s IH]; simpl; [reflexivity |].
  rewrite Ascii.eqb_refl. exact IH.
Qed.

Lemma contains_posix_join a b : Py.contains (posix_join a b) b = true.
Proof.
  unfold posix_join.
  destruct (Py.prefix "/" b); [| destruct (String.eqb a "" || ends_with_slash a)].
  - rewrite <- (contains_end "" b) at 1. reflexivity.
  - apply contains_end.
  - apply contains_append_l, contains_end.
Qed.

Create HintDb substring.

#[local] Hint Resolve contains_end contains_here contains_append_l
  contains_append_r contains_posix_join : substring.

(** ** Small inversions *)

Lemma os_path_join_str a p s :
  os_path_join a p = inl s -> exists b, p = JStr b /\ s = posix_join a b.
Proof.
  destruct p; simpl; try discriminate. intros H. injection H as <-. eauto.
Qed.

Lemma issubclass_Exception c : Py.issubclass c Py.Exception = true.
Proof. reflexivity. Qed.

(** Path strings in the context become [posix_join] of a string name. *)
Ltac join_inv :=
  repeat match goal with
         | H : os_path_join _ _ = inl _ |- _ =>
             apply os_path_join_str in H; destruct H as (? & -> & ->)
         end.

Ltac no_uncaught :=
  match goal with
  | H : Py.issubclass _ Py.Exception = false |- _ =>
      rewrite issubclass_Exception in H; discriminate H
  end.

(** Use what the context says about the steps of the run: two results of
    the same expression are identified, booleans are read back. *)
Ltac tidy_step :=
  match goal with
  | H : negb _ = true |- _ => apply negb_true_iff in H
  | H : negb _ = false |- _ => apply negb_false_iff in H
  | H : _ || _ = false |- _ => apply orb_false_iff in H; destruct H
  | H : String.eqb _ _ = true |- _ => apply String.eqb_eq in H
  | H : bool_decide _ = true |- _ => apply bool_decide_eq_true_1 in H
  | H : bool_decide _ = false |- _ => apply bool_decide_eq_false_1 in H
  | H1 : ?x = inl _, H2 : ?x = _ |- _ => rewrite H1 in H2
  | H1 : ?x = (_, _), H2 : ?x = _ |- _ => rewrite H1 in H2
  | H1 : ?x = true, H2 : ?x = false |- _ => rewrite H1 in H2; discriminate H2
  | H : Py.issubclass _ Py.Exception = false |- _ =>
      rewrite issubclass_Exception in H; discriminate H
  end.

Ltac tidy :=
  cbn [req_json fst snd w_log w_fs w_config] in *;
  repeat (first [tidy_step | progress simplify_eq]).

(** * The routes and their errors *)

(** C7: once [generate_architecture_api] has called
    [Novel_architecture_generate], an exception [e] from the call becomes a
    500 whose message contains [str(e)], and a normal return becomes the
    200 success body with the project's file path. *)
Theorem architecture_exception_passthrough E req w ev :
  called w (generate_architecture_api E req w) ev ->
  ev_fn ev = Novel_architecture_generate /\
  match ev_result ev with
  | inr e =>
      exists msg,
        responded (generate_architecture_api E req w) (jsonify_code (error_body msg) 500)
        /\ Py.contains msg (Py.exn_str e) = true
  | inl _ =>
      exists pn,
        names_project (req_json req) pn /\
        responded (generate_architecture_api E req w)
          (jsonify (JObj [("status", JStr "success");
                          ("message", JStr "Novel architecture generated.");
                          ("filepath", JStr (project_path w pn))]))
  end.
Proof.
  unfold called, responded, names_project, project_path.
  wp_run_of (generate_architecture_api E req w).
  unfold generate_architecture_api. repeat wp_step.
  all: intros Hev; try leaf_without_call; leaf_after_call; try no_uncaught.
  all: split; [reflexivity |].
  - join_inv. eexists. split; reflexivity.
  - eexists. split; [reflexivity | auto with substring].
  - eexists. split; [reflexivity | auto with substring].
  - eexists. split; [reflexivity | auto with substring].
Qed.

(** A run in which the generator times out. *)
Lemma architecture_exception_passthrough_witness :
  exists msg,
    responded (generate_architecture_api (Sample.env (inr Sample.timed_out))
                 (Sample.post []) Sample.bare)
              (jsonify_code (error_body msg) 500)
    /\ Py.contains msg "timed out" = true.
Proof.
  pose proof (architecture_exception_passthrough
                (Sample.env (inr Sample.timed_out)) (Sample.post []) Sample.bare
                (Sample.first_call
                   (generate_architecture_api (Sample.env (inr Sample.timed_out))
                      (Sample.post []) Sample.bare))) as H.
  apply H. vm_compute. reflexivity.
Defined.

Ltac not_this_exception :=
  match goal with
  | Hr : inl _ = inr _ |- _ => discriminate Hr
  | Hr : inr _ = inr _ |- _ => injection Hr as ->
  end.

(** C6: in the blueprint, chapter-draft and finalize routes a
    [FileNotFoundError] raised by the delegated generator becomes a 400
    whose message contains the exception text. *)
Theorem generator_file_not_found E req w ev e :
  ev_result ev = inr e ->
  Py.exn_cls e = Py.FileNotFoundError ->
  (called w (generate_blueprint_api E req w) ev ->
   exists msg,
     responded (generate_blueprint_api E req w) (jsonify_code (error_body msg) 400)
     /\ Py.contains msg (Py.exn_str e) = true)
  /\ (called w (generate_chapter_draft_api E req w) ev ->
      exists msg,
        responded (generate_chapter_draft_api E req w) (jsonify_code (error_body msg) 400)
        /\ Py.contains msg (Py.exn_str e) = true)
  /\ (called w (finalize_chapter_api E req w) ev ->
      exists msg,
        responded (finalize_chapter_api E req w) (jsonify_code (error_body msg) 400)
        /\ Py.contains msg (Py.exn_str e) = true).
Proof.
  intros Hres Hcls. unfold called, responded. repeat split.
  - wp_run_of (generate_blueprint_api E req w).
    unfold generate_blueprint_api. repeat wp_step.
    all: intros Hev; try leaf_without_call; leaf_after_call; try not_this_exception.
    all: try (eexists; split; [reflexivity | auto with substring]).
    all: exfalso; match goal with
                  | H : Py.issubclass _ Py.FileNotFoundError = false |- _ =>
                      rewrite Hcls in H; discriminate H
                  end.
  - wp_run_of (generate_chapter_draft_api E req w).
    unfold generate_chapter_draft_api. repeat wp_step.
    all: intros Hev; try leaf_without_call; leaf_after_call; try not_this_exception.
    all: try (eexists; split; [reflexivity | auto with substring]).
    all: exfalso; match goal with
                  | H : Py.issubclass _ Py.FileNotFoundError = false |- _ =>
                      rewrite Hcls in H; discriminate H
                  end.
  - wp_run_of (finalize_chapter_api E req w).
    unfold finalize_chapter_api. repeat wp_step.
    all: intros Hev; try leaf_without_call; leaf_after_call; try not_this_exception.
    all: try (eexists; split; [reflexivity | auto with substring]).
    all: exfalso; match goal with
                  | H : Py.issubclass _ Py.FileNotFoundError = false |- _ =>
                      rewrite Hcls in H; discriminate H
                  end.
Qed.

(** The generator misses a prerequisite file in each of the three routes. *)
Lemma generator_file_not_found_witness :
  let E := Sample.env (inr Sample.file_not_found) in
  let fields := [("num_chapters", JInt 3); ("novel_number", JInt 1);
                 ("word_number", JInt 3000)] in
  (exists msg,
     responded (generate_blueprint_api E (Sample.post fields) Sample.fresh)
               (jsonify_code (error_body msg) 400)
     /\ Py.contains msg "Novel_directory.txt" = true)
  /\ (exists msg,
        responded (generate_chapter_draft_api E (Sample.post fields) Sample.fresh)
                  (jsonify_code (error_body msg) 400)
        /\ Py.contains msg "Novel_directory.txt" = true)
  /\ (exists msg,
        responded (finalize_chapter_api E (Sample.post fields) Sample.fresh)
                  (jsonify_code (error_body msg) 400)
        /\ Py.contains msg "Novel_directory.txt" = true).
Proof.
  intros E fields.
  split; [| split].
  - apply (proj1 (generator_file_not_found E (Sample.post fields) Sample.fresh
                    (Sample.first_call
                       (generate_blueprint_api E (Sample.post fields) Sample.fresh))
                    Sample.file_not_found eq_refl eq_refl)).
    vm_compute. reflexivity.
  - apply (proj1 (proj2 (generator_file_not_found E (Sample.post fields) Sample.fresh
                    (Sample.first_call
                       (generate_chapter_draft_api E (Sample.post fields) Sample.fresh))
                    Sample.file_not_found eq_refl eq_refl))).
    vm_compute. reflexivity.
  - apply (proj2 (proj2 (generator_file_not_found E (Sample.post fields) Sample.fresh
                    (Sample.first_call
                       (finalize_chapter_api E (Sample.post fields) Sample.fresh))
                    Sample.file_not_found eq_refl eq_refl))).
    vm_compute. reflexivity.
Defined.

(** * The consistency check *)

Lemma nonempty_text_intro ev name s :
  Py.lookup name (ev_kwargs ev) = Some (JStr s) ->
  String.eqb s "" = false ->
  nonempty_text ev name.
Proof.
  intros Hl Hs. exists s. split; [exact Hl |].
  intros ->. discriminate Hs.
Qed.

Ltac nonempty_texts :=
  cbn [novel_setting_text character_state_text global_summary_text
       chapter_text_content plot_arcs_text];
  repeat (apply List.Forall_cons;
          [eapply nonempty_text_intro; [reflexivity | eassumption] |]);
  apply List.Forall_nil.

(** C1, as the code has it: the four texts [novel_setting],
    [character_state], [global_summary] and [chapter_text] handed to
    [check_consistency] are non-empty strings; [plot_arcs] is the string
    that [read_file] returned for [plot_arcs.txt], whatever it is. *)
Theorem consistency_texts E req w ev :
  called w (check_consistency_api E req w) ev ->
  ev_fn ev = check_consistency
  /\ Forall (nonempty_text ev)
       ["novel_setting"; "character_state"; "global_summary"; "chapter_text"]
  /\ exists pn s,
       names_project (req_json req) pn
       /\ read_file E (posix_join (project_path w pn) "plot_arcs.txt") (w_fs w) = inl s
       /\ Py.lookup "plot_arcs" (ev_kwargs ev) = Some (JStr s).
Proof.
  unfold called, names_project, project_path.
  wp_run_of (check_consistency_api E req w).
  unfold check_consistency_api. repeat wp_step.
  all: intros Hev; try leaf_without_call; leaf_after_call.
  all: join_inv; (split; [reflexivity |]); (split; [nonempty_texts |]).
  all: do 2 eexists; split; [reflexivity |]; split; [eassumption | reflexivity].
Qed.

(** The project after its first chapter, checked for consistency. *)
Lemma consistency_texts_witness :
  let run := check_consistency_api (Sample.env (inl (JStr "No conflicts.")))
               (Sample.post [("chapter_number", JInt 1)]) Sample.drafted in
  Forall (nonempty_text (Sample.first_call run))
    ["novel_setting"; "character_state"; "global_summary"; "chapter_text"].
Proof.
  intros run.
  apply (consistency_texts (Sample.env (inl (JStr "No conflicts.")))
           (Sample.post [("chapter_number", JInt 1)]) Sample.drafted
           (Sample.first_call run)).
  reflexivity.
Defined.

(** C1 as worded fails: [plot_arcs.txt] is read without a check, so a
    project that has no plot arcs yet reaches the checker with the empty
    text for [plot_arcs]. *)
Lemma plot_arcs_may_be_empty :
  ~ texts_nonempty_spec (Sample.env (inl (JStr "No conflicts.")))
      (Sample.post [("chapter_number", JInt 1)]) Sample.drafted.
Proof.
  intros Hspec.
  specialize (Hspec (Sample.first_call
                       (check_consistency_api (Sample.env (inl (JStr "No conflicts.")))
                          (Sample.post [("chapter_number", JInt 1)]) Sample.drafted))
                    eq_refl).
  repeat match goal with
         | H : Forall _ (_ :: _) |- _ => inversion H; subst; clear H
         end.
  match goal with
  | H : nonempty_text _ "plot_arcs" |- _ => destruct H as (s & Hs & Hne)
  end.
  vm_compute in Hs. injection Hs as <-. apply Hne. reflexivity.
Qed.

(** * The project directory *)

Lemma not_isdir path w :
  fst (os_path_isdir path w) = inl false -> path ∉ fs_dirs (w_fs w).
Proof.
  unfold os_path_isdir. cbn [fst]. intros H. injection H as H.
  apply bool_decide_eq_false_1 in H. exact H.
Qed.

Lemma names_project_functional body pn pn' :
  names_project body pn -> names_project body pn' -> pn = pn'.
Proof. unfold names_project. congruence. Qed.

Ltac makedirs_ok Hmk :=
  match goal with
  | H : os_makedirs _ _ = (inr _, _) |- _ =>
      rewrite H in Hmk; discriminate Hmk
  end.

Lemma attempt_makedirs_refused path w e w1 :
  os_makedirs path w = (inr e, w1) ->
  Py.issubclass (Py.exn_cls e) Py.OSError = true ->
  attempt (os_makedirs path) Py.OSError w = (inl (inr e), w1).
Proof.
  intros Hmk Hsub. unfold attempt, try_except, bind, ret. rewrite Hmk.
  cbn [dispatch]. rewrite Hsub. reflexivity.
Qed.

(** When [os.makedirs] raises, the trace and the configuration are the
    ones it started from and, for an [OSError], the directory it was asked
    for has not been made. *)
Lemma os_makedirs_refused path w e w1 :
  os_makedirs path w = (inr e, w1) ->
  w_log w1 = w_log w
  /\ w_config w1 = w_config w
  /\ (Py.issubclass (Py.exn_cls e) Py.OSError = true ->
      path <> "" -> path ∉ fs_dirs (w_fs w1)).
Proof.
  unfold os_makedirs. intros Hrun.
  destruct (has_nul path).
  { injection Hrun as <- <-. repeat split. intros Hsub. discriminate Hsub. }
  destruct (String.eqb path "") eqn:Hempty.
  { injection Hrun as <- <-. repeat split. intros _ Hne.
    apply String.eqb_eq in Hempty. contradiction. }
  destruct (bool_decide (path ∈ fs_dirs (w_fs w))) eqn:Hin; [discriminate Hrun |].
  destruct (mkdirs (ancestors path ++ [path]) (w_fs w)) as [r d] eqn:Hmk.
  injection Hrun as -> <-. repeat split. intros _ _ Hafter. cbn [w_fs] in Hafter.
  apply bool_decide_eq_false_1 in Hin. apply Hin.
  apply (proj2 (mkdirs_refused _ _ _ _ _ Hmk)); [apply not_own_ancestor | exact Hafter].
Qed.

Ltac refused_by_makedirs Hnp Hmk Hsub :=
  cbv beta delta [bind lift get_projects_base_path];
  rewrite Hnp; cbv beta iota; cbn [os_path_join];
  rewrite (attempt_makedirs_refused _ _ _ _ Hmk Hsub); reflexivity.



Example blueprint_refused_on_bare_disk :
  fst (generate_blueprint_api (Sample.env (inl JNull)) (Sample.post []) Sample.bare)
  = inl (jsonify_code (error_body "Missing 'num_chapters' in request.") 400)
  /\ "novel_projects/p" ∉ fs_dirs (w_fs Sample.bare).
Proof.
  split; [vm_compute; reflexivity |].
  apply not_isdir. vm_compute. reflexivity.
Qed.


Example makedirs_refused_is_500 :
  fst (generate_architecture_api (Sample.env (inl JNull)) (Sample.post []) Sample.locked)
  = inl (jsonify_code
           (error_body ("Could not create project directory: "
                        ++ "[Errno 13] Permission denied: 'novel_projects/p'")) 500).
Proof. vm_compute. reflexivity. Qed.

(** * Clearing the vector store *)

(** C8, as the code has it: the empty JSON object is answered with 400
    without a look at the disk.  For a non-empty JSON object whose project
    name is a string, a missing project directory gives 404 without a
    call; otherwise [clear_vector_store(filepath)] is called and the status
    is 200 when it returns a truthy value and 500 when it returns a falsy
    one or raises. *)
Theorem clear_vectorstore_status E kvs pn w :
  names_project (JObj kvs) pn ->
  let run := clear_vectorstore_api E (mk_request (JObj kvs)) w in
  let outcome := fst (ext_call E clear_vector_store [JStr (project_path w pn)] [] (w_fs w)) in
  exists resp,
    responded run resp /\
    match kvs with
    | [] =>
        resp = jsonify_code (error_body "Request body must be JSON.") 400
        /\ snd run = w
    | _ :: _ =>
        if bool_decide (project_path w pn ∈ fs_dirs (w_fs w)) then
          called w run (mk_event clear_vector_store [JStr (project_path w pn)] [] outcome)
          /\ match outcome with
             | inl v => status resp = if Py.truthy v then 200 else 500
             | inr _ => status resp = 500
             end
        else status resp = 404 /\ no_call w run
    end.
Proof.
  intros Hnp run outcome. subst run outcome.
  destruct kvs as [| kv kvs].
  { eexists. split; [reflexivity | split; reflexivity]. }
  assert (Hne : kv :: kvs <> []) by discriminate.
  revert Hne Hnp. generalize (kv :: kvs). clear kv kvs. intros kvs Hne Hnp.
  unfold responded, called, no_call, names_project, project_path in *.
  wp_run_of (clear_vectorstore_api E (mk_request (JObj kvs)) w).
  unfold clear_vectorstore_api. repeat wp_step.
  all: join_inv; tidy.
  all: try (destruct kvs; [congruence | discriminate]).
  all: try match goal with
           | H : ext_call _ _ _ _ _ = _ |- _ => rewrite H
           end.
  all: eexists; (split; [reflexivity |]).
  all: try (rewrite bool_decide_eq_true_2 by assumption).
  all: try (rewrite bool_decide_eq_false_2 by assumption).
  all: cbn [fst status jsonify jsonify_code];
       repeat match goal with
              | H : Py.truthy _ = _ |- _ => rewrite H
              end; auto.
Qed.

(** The project exists and the store reports that nothing could be
    cleared; the empty object is refused. *)
Lemma clear_vectorstore_status_witness :
  (exists resp,
     responded (clear_vectorstore_api (Sample.env (inl (JBool false)))
                  (Sample.post []) Sample.fresh) resp
     /\ status resp = 500)
  /\ (exists resp,
        responded (clear_vectorstore_api (Sample.env (inl (JBool false)))
                     (mk_request (JObj [])) Sample.fresh) resp
        /\ status resp = 400).
Proof.
  split.
  - destruct (clear_vectorstore_status (Sample.env (inl (JBool false)))
                [("project_name", JStr "p")] "p" Sample.fresh) as (resp & Hr & Hs).
    + reflexivity.
    + exists resp. split; [exact Hr |].
      vm_compute in Hs. destruct Hs as [_ Hs]. exact Hs.
  - destruct (clear_vectorstore_status (Sample.env (inl (JBool false)))
                [] "default_project" Sample.fresh) as (resp & Hr & Hs).
    + reflexivity.
    + exists resp. split; [exact Hr |].
      cbv iota in Hs. destruct Hs as [-> _]. reflexivity.
Defined.

(** C8 as worded fails: the empty JSON object is refused with 400 before
    the project directory is looked at. *)
Lemma empty_object_is_400_not_404 :
  ~ clear_status_spec (Sample.env (inl (JBool true))) [] Sample.bare.
Proof.
  intros Hspec. destruct (Hspec "default_project" eq_refl) as (resp & Hr & Hs).
  vm_compute in Hr. injection Hr as <-. vm_compute in Hs. discriminate Hs.
Qed.

(** * Missing project files *)

Lemma required_files_reads E w filepath n :
  Forall (fun f => exists s, read_file E (snd f) (w_fs w) = inl s) (required_files filepath n) ->
  exists s1 s2 s3 s4,
    read_file E (posix_join filepath "Novel_architecture.txt") (w_fs w) = inl s1
    /\ read_file E (posix_join filepath "character_state.txt") (w_fs w) = inl s2
    /\ read_file E (posix_join filepath "global_summary.txt") (w_fs w) = inl s3
    /\ read_file E (posix_join (posix_join filepath "chapters")
                      ("chapter_" ++ Py.str_of_Z n ++ ".txt")) (w_fs w) = inl s4.
Proof.
  unfold required_files. intros H.
  repeat match goal with
         | H : Forall _ (_ :: _) |- _ => apply Forall_cons_1 in H; destruct H as [[? ?] H]
         end.
  cbn [snd] in *. eauto 10.
Qed.



(** * Request validation *)

Lemma get_absent kvs key dflt :
  Py.lookup key kvs = None -> Py.get (JObj kvs) key dflt = inl dflt.
Proof. intros H. unfold Py.get. rewrite H. reflexivity. Qed.

Lemma get_present kvs key dflt v :
  Py.lookup key kvs = Some v -> Py.get (JObj kvs) key dflt = inl v.
Proof. intros H. unfold Py.get. rewrite H. reflexivity. Qed.

Ltac answer_400 :=
  cbn [is_None] in *; tidy;
  try (split; [eexists; reflexivity | congruence]).

(** C3, as the code has it: each route answers 400, without calling the
    generator, to a JSON-object body that lacks a required field, once the
    request has come as far as the validation of its body: the project
    name is a string, the project directory was created (blueprint,
    chapter draft) and the configuration is valid (blueprint, chapter
    draft, finalize).  The consistency check validates the body first. *)
Theorem missing_field_is_400 E kvs pn w :
  names_project (JObj kvs) pn ->
  let req := mk_request (JObj kvs) in
  let made := os_makedirs (project_path w pn) w in
  let refused (run : Py.result response * world) :=
    (exists msg, responded run (jsonify_code (error_body msg) 400)) /\ no_call w run in
  (fst made = inl tt -> llm_config_valid E (snd made) ->
   Py.lookup "num_chapters" kvs = None ->
   refused (generate_blueprint_api E req w))
  /\ (fst made = inl tt -> llm_config_valid E (snd made) ->
      embedding_config_valid E (snd made) ->
      Py.lookup "novel_number" kvs = None \/ Py.lookup "word_number" kvs = None ->
      refused (generate_chapter_draft_api E req w))
  /\ (llm_config_valid E w -> embedding_config_valid E w ->
      Py.lookup "novel_number" kvs = None \/ Py.lookup "word_number" kvs = None ->
      refused (finalize_chapter_api E req w))
  /\ (Py.lookup "chapter_number" kvs = None ->
      refused (check_consistency_api E req w)).
Proof.
  intros Hnp req made refused. subst req made refused.
  unfold responded, no_call, names_project, project_path, llm_config_valid,
    embedding_config_valid in *.
  destruct (os_makedirs
              (posix_join (default "novel_projects" (PROJECTS_BASE_PATH_OVERRIDE (w_config w)))
                          pn) w) as [r1 w1] eqn:Hmk.
  cbn [fst snd].
  split; [| split; [| split]].
  - intros -> (cfg & ifc & err & Hcfg & Herr) Habs.
    apply (get_absent _ _ JNull) in Habs.
    wp_run_of (generate_blueprint_api E (mk_request (JObj kvs)) w).
    unfold generate_blueprint_api. repeat wp_step.
    all: join_inv; answer_400.
  - intros -> (cfg & ifc & err & Hcfg & Herr) (cfg' & ifc' & err' & Hcfg' & Herr') Habs.
    wp_run_of (generate_chapter_draft_api E (mk_request (JObj kvs)) w).
    unfold generate_chapter_draft_api. repeat wp_step.
    all: join_inv; destruct Habs as [Habs | Habs]; apply (get_absent _ _ JNull) in Habs;
      answer_400.
  - intros (cfg & ifc & err & Hcfg & Herr) (cfg' & ifc' & err' & Hcfg' & Herr') Habs.
    wp_run_of (finalize_chapter_api E (mk_request (JObj kvs)) w).
    unfold finalize_chapter_api. repeat wp_step.
    all: join_inv; destruct Habs as [Habs | Habs]; apply (get_absent _ _ JNull) in Habs;
      answer_400.
  - intros Habs. apply (get_absent _ _ JNull) in Habs.
    wp_run_of (check_consistency_api E (mk_request (JObj kvs)) w).
    unfold check_consistency_api. repeat wp_step.
    all: join_inv; answer_400.
Qed.

Ltac config_valid := do 3 eexists; split; vm_compute; reflexivity.

(** A body that only names the project, on a configured disk. *)
Lemma missing_field_is_400_witness :
  let E := Sample.env (inl JNull) in
  let req := Sample.post [] in
  (exists msg, responded (generate_blueprint_api E req Sample.bare)
                         (jsonify_code (error_body msg) 400))
  /\ (exists msg, responded (generate_chapter_draft_api E req Sample.bare)
                            (jsonify_code (error_body msg) 400))
  /\ (exists msg, responded (finalize_chapter_api E req Sample.bare)
                            (jsonify_code (error_body msg) 400))
  /\ (exists msg, responded (check_consistency_api E req Sample.bare)
                            (jsonify_code (error_body msg) 400)).
Proof.
  intros E req.
  destruct (missing_field_is_400 E [("project_name", JStr "p")] "p" Sample.bare eq_refl)
    as (Hb & Hd & Hf & Hc).
  split; [| split; [| split]].
  - apply Hb; [vm_compute; reflexivity | config_valid | reflexivity].
  - apply Hd; [vm_compute; reflexivity | config_valid | config_valid | left; reflexivity].
  - apply Hf; [config_valid | config_valid | left; reflexivity].
  - apply Hc. reflexivity.
Defined.

(** C3 as worded fails: the blueprint route looks at the configuration
    before the body, so without a usable configuration a body that lacks
    [num_chapters] gets the 500 of the configuration error. *)
Lemma missing_field_behind_config_error :
  ~ blueprint_missing_field_spec (Sample.env (inl JNull))
      [("project_name", JStr "p")] Sample.unconfigured.
Proof.
  intros Hspec. destruct (Hspec eq_refl) as (resp & Hr & Hs).
  vm_compute in Hr. injection Hr as <-. vm_compute in Hs. discriminate Hs.
Qed.

(** * Missing configuration *)

Lemma missing_keys_of_obj entry keys :
  missing_keys_of (JObj entry) keys
  = inl (List.filter (fun key => match Py.lookup key entry with
                                 | Some v => negb (Py.truthy v)
                                 | None => true
                                 end) keys).
Proof.
  induction keys as [| key keys IH]; [reflexivity |].
  cbn [missing_keys_of key_missing Py.in_ Py.getitem List.filter]. rewrite IH.
  destruct (Py.lookup key entry) as [v |]; [destruct (negb (Py.truthy v)) |]; reflexivity.
Qed.

Lemma required_key_listed name key :
  In key ["api_key"; "model_name"; "temperature"; "max_tokens"; "timeout"]
  \/ (key = "base_url" /\ name = "OpenAI") ->
  In key (llm_required_keys (JStr name)).
Proof.
  unfold llm_required_keys. intros [H | [-> ->]]; apply in_or_app; [left; exact H |].
  right. left. reflexivity.
Qed.

(** ["base_url"] is required exactly for the interface ["OpenAI"]. *)
Lemma base_url_required_iff name :
  In "base_url" (llm_required_keys (JStr name)) <-> name = "OpenAI".
Proof.
  unfold llm_required_keys. cbn [Py.eq]. split.
  - intros H. apply in_app_or in H as [H | H].
    + repeat (destruct H as [H | H]; [discriminate H |]). destruct H.
    + destruct (String.eqb name "OpenAI") eqn:Heq; [apply String.eqb_eq, Heq | destruct H].
  - intros ->. apply in_or_app. right. left. reflexivity.
Qed.

Lemma truthy_obj kvs : kvs <> [] -> Py.truthy (JObj kvs) = true.
Proof. destruct kvs; [congruence | reflexivity]. Qed.

(** What [get_llm_config] returns for a missing configuration. *)
Lemma llm_config_missing_error E w :
  llm_config_missing_in E w ->
  exists txt,
    get_llm_config E w = (inl (JNull, JNull, JStr txt), w)
    /\ Py.truthy (JStr txt) = true.
Proof.
  intros (config & Hload & Hmissing).
  unfold get_llm_config, bind, get_config_file_path, call_load_config, lift, ret.
  rewrite Hload.
  destruct Hmissing as [config Hfalsy | kvs name lcs Hne Hlast Hcfgs Habs
                       | kvs name lcs entry key Hne Hlast Hcfgs Hentry Hkey Hbad].
  - rewrite Hfalsy. cbn [negb]. eexists. split; reflexivity.
  - rewrite (truthy_obj _ Hne), Hlast, Hcfgs. cbn [negb Py.in_]. rewrite Habs.
    cbn [negb str]. eexists. split; reflexivity.
  - rewrite (truthy_obj _ Hne), Hlast, Hcfgs. cbn [negb Py.in_ Py.getitem].
    rewrite Hentry. cbn [negb]. rewrite missing_keys_of_obj.
    match goal with
    | |- context [List.filter ?p ?l] =>
        assert (Hin : In key (List.filter p l))
    end.
    { apply filter_In. split; [apply required_key_listed, Hkey |].
      destruct Hbad as [-> | (v & -> & ->)]; reflexivity. }
    match goal with
    | |- context [List.filter ?p ?l] => destruct (List.filter p l) as [| k ks]
    end; [destruct Hin |].
    cbn [str]. eexists. split; reflexivity.
Qed.

Ltac answer_config_error :=
  cbn [is_None str] in *; tidy;
  try (split; [reflexivity | congruence]).

(** C4, as the code has it: once a request has come as far as
    [get_llm_config] (the project name is a string; in the architecture,
    blueprint and chapter-draft routes the project directory was created;
    in the consistency check the body carries a chapter number that
    [int()] accepts), a missing LLM configuration is answered with 500 and
    the message "LLM Config Error: " followed by the text of
    [get_llm_config], and the generation library is not called. *)
Theorem missing_llm_config_is_500 E req pn w :
  names_project (req_json req) pn ->
  let made := os_makedirs (project_path w pn) w in
  let refused (w0 : world) (run : Py.result response * world) :=
    exists txt,
      get_llm_config E w0 = (inl (JNull, JNull, JStr txt), w0)
      /\ responded run (jsonify_code (error_body ("LLM Config Error: " ++ txt)) 500)
      /\ no_call w run in
  (fst made = inl tt -> llm_config_missing_in E (snd made) ->
   refused (snd made) (generate_architecture_api E req w)
   /\ refused (snd made) (generate_blueprint_api E req w)
   /\ refused (snd made) (generate_chapter_draft_api E req w))
  /\ (llm_config_missing_in E w ->
      refused w (finalize_chapter_api E req w)
      /\ (Py.truthy (req_json req) = true ->
          (exists n, chapter_number_is (req_json req) n) ->
          refused w (check_consistency_api E req w))).
Proof.
  intros Hnp made refused. subst made refused.
  unfold responded, no_call, names_project, project_path in *.
  destruct (os_makedirs
              (posix_join (default "novel_projects" (PROJECTS_BASE_PATH_OVERRIDE (w_config w)))
                          pn) w) as [r1 w1] eqn:Hmk.
  cbn [fst snd].
  split.
  - intros -> Hmissing.
    destruct (llm_config_missing_error E w1 Hmissing) as (txt & Hcfg & Htxt).
    split; [| split]; exists txt; (split; [exact Hcfg |]).
    + wp_run_of (generate_architecture_api E req w).
      unfold generate_architecture_api. repeat wp_step.
      all: join_inv; answer_config_error.
    + wp_run_of (generate_blueprint_api E req w).
      unfold generate_blueprint_api. repeat wp_step.
      all: join_inv; answer_config_error.
    + wp_run_of (generate_chapter_draft_api E req w).
      unfold generate_chapter_draft_api. repeat wp_step.
      all: join_inv; answer_config_error.
  - intros Hmissing.
    destruct (llm_config_missing_error E w Hmissing) as (txt & Hcfg & Htxt).
    split; [| intros Hbody (n & v & Hv & Hnone & Hint)]; exists txt; (split; [exact Hcfg |]).
    + wp_run_of (finalize_chapter_api E req w).
      unfold finalize_chapter_api. repeat wp_step.
      all: join_inv; answer_config_error.
    + wp_run_of (check_consistency_api E req w).
      unfold check_consistency_api. repeat wp_step.
      all: join_inv; answer_config_error.
Qed.

Lemma unconfigured_is_missing :
  llm_config_missing_in (Sample.env (inl JNull)) Sample.unconfigured.
Proof.
  exists Sample.bad_config_data. split; [vm_compute; reflexivity |].
  apply (interface_absent _ "TestLLM" []); [discriminate | reflexivity ..].
Qed.

(** The configuration of [test_generate_architecture_missing_llm_config],
    in which the entry of the selected interface was deleted. *)
Lemma missing_llm_config_is_500_witness :
  let E := Sample.env (inl JNull) in
  let req := Sample.post [("chapter_number", JInt 1)] in
  let resp :=
    jsonify_code
      (error_body "LLM Config Error: Configuration for 'TestLLM' not found in llm_configs.")
      500 in
  responded (generate_architecture_api E req Sample.unconfigured) resp
  /\ responded (generate_blueprint_api E req Sample.unconfigured) resp
  /\ responded (generate_chapter_draft_api E req Sample.unconfigured) resp
  /\ responded (finalize_chapter_api E req Sample.unconfigured) resp
  /\ responded (check_consistency_api E req Sample.unconfigured) resp.
Proof.
  intros E req resp.
  destruct (missing_llm_config_is_500 E req "p" Sample.unconfigured eq_refl) as [Hmade Hhere].
  destruct Hmade as (Ha & Hb & Hd);
    [vm_compute; reflexivity | exact unconfigured_is_missing |].
  destruct (Hhere unconfigured_is_missing) as (Hf & Hc).
  specialize (Hc eq_refl (ex_intro _ 1 (ex_intro _ (JInt 1) (conj eq_refl (conj eq_refl eq_refl))))).
  destruct Ha as (ta & Ha & Hra & _). vm_compute in Ha. injection Ha as <-.
  destruct Hb as (tb & Hb & Hrb & _). vm_compute in Hb. injection Hb as <-.
  destruct Hd as (td & Hd & Hrd & _). vm_compute in Hd. injection Hd as <-.
  destruct Hf as (tf & Hf & Hrf & _). vm_compute in Hf. injection Hf as <-.
  destruct Hc as (tc & Hc & Hrc & _). vm_compute in Hc. injection Hc as <-.
  repeat split; assumption.
Defined.

(** C4 as worded fails: the consistency check validates the body before
    the configuration, so a body without [chapter_number] gets 400 even
    when the configuration is missing. *)
Lemma body_checked_before_config :
  ~ consistency_missing_config_spec (Sample.env (inl JNull))
      (Sample.post []) Sample.unconfigured.
Proof.
  intros Hspec. destruct (Hspec unconfigured_is_missing) as (msg & Hr & _).
  vm_compute in Hr. discriminate Hr.
Qed.

(** * Conversions outside [try] *)

(** C10: in the architecture route [int()] runs outside any [try], so a
    [num_chapters] (or [word_number]) string that [int()] rejects ends the
    handler with an unhandled [ValueError], where the blueprint route
    answers 400 to the same [num_chapters]. *)
Theorem architecture_int_unhandled E kvs pn s w :
  names_project (JObj kvs) pn ->
  fst (os_makedirs (project_path w pn) w) = inl tt ->
  llm_config_valid E (snd (os_makedirs (project_path w pn) w)) ->
  Py.int_of_str s = None ->
  let req := mk_request (JObj kvs) in
  let unhandled (run : Py.result response * world) :=
    exists e, fst run = inr e /\ Py.exn_cls e = Py.ValueError in
  (Py.lookup "num_chapters" kvs = Some (JStr s) ->
   unhandled (generate_architecture_api E req w)
   /\ responded (generate_blueprint_api E req w)
        (jsonify_code (error_body "'num_chapters' must be an integer.") 400))
  /\ (Py.lookup "word_number" kvs = Some (JStr s) ->
      (exists z, Py.int (default (JInt 10) (Py.lookup "num_chapters" kvs)) = inl z) ->
      unhandled (generate_architecture_api E req w)).
Proof.
  intros Hnp Hmk (cfg & ifc & err & Hcfg & Herr) Hs req unhandled. subst req unhandled.
  unfold responded, names_project, project_path in *.
  destruct (os_makedirs
              (posix_join (default "novel_projects" (PROJECTS_BASE_PATH_OVERRIDE (w_config w)))
                          pn) w) as [r1 w1] eqn:Hmade.
  cbn [fst snd] in *. subst r1.
  assert (Hbad : Py.int (JStr s)
                 = inr (Py.mk_exn Py.ValueError
                          ("invalid literal for int() with base 10: '" ++ s ++ "'"))).
  { unfold Py.int. rewrite Hs. reflexivity. }
  split.
  - intros Hn. pose proof (get_present _ _ (JInt 10) _ Hn) as Hget.
    pose proof (get_present _ _ JNull _ Hn) as Hget'.
    assert (Hbody : Py.truthy (JObj kvs) = true) by (destruct kvs; [discriminate Hn | reflexivity]).
    split.
    + wp_run_of (generate_architecture_api E (mk_request (JObj kvs)) w).
      unfold generate_architecture_api. repeat wp_step.
      all: join_inv; tidy.
      all: try (rewrite Hbad in *; tidy).
      all: eexists; split; reflexivity.
    + wp_run_of (generate_blueprint_api E (mk_request (JObj kvs)) w).
      unfold generate_blueprint_api. repeat wp_step.
      all: join_inv; cbn [is_None] in *; tidy.
      all: try (rewrite Hbad in *; tidy).
      all: try reflexivity.
      all: match goal with
           | H : Py.issubclass _ _ = false |- _ => vm_compute in H; discriminate H
           end.
  - intros Hw (z & Hz).
    pose proof (get_present _ _ (JInt 3000) _ Hw) as Hget.
    assert (Hbody : Py.truthy (JObj kvs) = true) by (destruct kvs; [discriminate Hw | reflexivity]).
    assert (Hn : Py.get (JObj kvs) "num_chapters" (JInt 10)
                 = inl (default (JInt 10) (Py.lookup "num_chapters" kvs))).
    { unfold Py.get. destruct (Py.lookup "num_chapters" kvs); reflexivity. }
    wp_run_of (generate_architecture_api E (mk_request (JObj kvs)) w).
    unfold generate_architecture_api. repeat wp_step.
    all: join_inv; tidy.
    all: try (rewrite Hbad in *; tidy).
    all: eexists; split; reflexivity.
Qed.

(** The body [{"project_name": "p", "num_chapters": "abc"}]. *)
Lemma architecture_int_unhandled_witness :
  let E := Sample.env (inl JNull) in
  let req := Sample.post [("num_chapters", JStr "abc")] in
  (exists e, fst (generate_architecture_api E req Sample.fresh) = inr e
             /\ Py.exn_cls e = Py.ValueError)
  /\ responded (generate_blueprint_api E req Sample.fresh)
       (jsonify_code (error_body "'num_chapters' must be an integer.") 400).
Proof.
  intros E req.
  apply (architecture_int_unhandled E
           [("project_name", JStr "p"); ("num_chapters", JStr "abc")] "p" "abc" Sample.fresh).
  - reflexivity.
  - vm_compute. reflexivity.
  - config_valid.
  - reflexivity.
  - reflexivity.
Defined.

(** * The configuration document *)

(** C2: with the configuration store of the specification, a document
    that [POST /api/config] accepted with status 200 is what the next
    [GET /api/config] returns. *)
Theorem config_round_trip E d w resp :
  let E' := with_config_manager E in
  responded (save_config_api E' (mk_request d) w) resp ->
  status resp = 200 ->
  forall req,
    responded (get_config_api E' req (snd (save_config_api E' (mk_request d) w)))
              (jsonify d).
Proof.
  intros E' Hresp Hstatus req. subst E'. revert Hresp.
  unfold responded, save_config_api, get_config_api, try_except, bind, lift, ret, error,
    get_config_file_path, call_save_config, call_load_config.
  cbn [req_json with_config_manager save_config load_config fst snd].
  destruct (is_dict d); cbn [negb fst snd].
  - unfold cm_save_config, cm_load_config.
    destruct (bool_decide _); cbn [fst snd Py.truthy w_fs w_config fs_docs].
    + intros H. injection H as <-. discriminate Hstatus.
    + intros _. rewrite lookup_insert_eq. reflexivity.
  - intros H. injection H as <-. discriminate Hstatus.
Qed.

(** Saving the configuration of [test_save_config] and reading it back. *)
Lemma config_round_trip_witness :
  let E := with_config_manager (Sample.env (inl JNull)) in
  responded (get_config_api E (mk_request JNull)
               (snd (save_config_api E (mk_request Sample.dummy_config_data) Sample.bare)))
            (jsonify Sample.dummy_config_data).
Proof.
  intros E.
  apply (config_round_trip (Sample.env (inl JNull)) Sample.dummy_config_data Sample.bare
           (jsonify (JObj [("status", JStr "success");
                           ("message", JStr "Configuration saved.")]))).
  - vm_compute. reflexivity.
  - reflexivity.
Defined.

(** * The cases of [test_app.py] *)

(** [test_get_config]: the document on disk comes back with status 200. *)
Example test_get_config :
  fst (get_config_api (Sample.env (inl JNull)) (mk_request JNull) Sample.fresh)
  = inl (jsonify Sample.dummy_config_data).
Proof. vm_compute. reflexivity. Qed.

(** [test_generate_architecture_success]: status 200, the project path in
    the body, and one call that received the same path. *)
Example test_generate_architecture_success :
  let run := generate_architecture_api (Sample.env (inl JNull))
               (Sample.post [("topic", JStr "Test Topic"); ("genre", JStr "Test Genre");
                             ("num_chapters", JInt 3); ("word_number", JInt 100);
                             ("user_guidance", JStr "Test guidance")]) Sample.fresh in
  fst run = inl (jsonify (JObj [("status", JStr "success");
                                ("message", JStr "Novel architecture generated.");
                                ("filepath", JStr "novel_projects/p")]))
  /\ length (w_log (snd run)) = 1%nat
  /\ Py.lookup "filepath" (ev_kwargs (Sample.first_call run)) = Some (JStr "novel_projects/p").
Proof. vm_compute. repeat split. Qed.

(** An interface other than ["OpenAI"] needs no ["base_url"]; a
    temperature of [0] counts as missing. *)
Example base_url_optional_for_other_interfaces :
  missing_keys_of
    (JObj [("api_key", JStr "k"); ("model_name", JStr "m"); ("temperature", JInt 1);
           ("max_tokens", JInt 100); ("timeout", JInt 60)])
    (llm_required_keys (JStr "Gemini")) = inl []
  /\ missing_keys_of
       (JObj [("api_key", JStr "k"); ("model_name", JStr "m"); ("temperature", JInt 0);
              ("max_tokens", JInt 100); ("timeout", JInt 60)])
       (llm_required_keys (JStr "OpenAI")) = inl ["temperature"; "base_url"].
Proof. split; reflexivity. Qed.

(** [int()] on the strings a client may send. *)
Example int_of_str_cases :
  Py.int_of_str " 1_000 " = Some 1000
  /\ Py.int_of_str "-7" = Some (-7)
  /\ Py.int_of_str "abc" = None
  /\ Py.int_of_str "3.5" = None
  /\ Py.int_of_str "1__0" = None
  /\ Py.int_of_str "" = None.
Proof. repeat split. Qed.

(** * Further steps *)

Ltac tidy_more :=
  cbn [req_json fst snd w_log w_fs w_config is_None] in *;
  repeat (first
            [ tidy_step
            | match goal with
              | H1 : ?x = inr _, H2 : ?x = _ |- _ => rewrite H1 in H2
              end
            | progress simplify_eq ]).

Lemma issubclass_ValueError c :
  Py.issubclass c Py.ValueError = true <-> c = Py.ValueError.
Proof. destruct c; cbn; split; congruence. Qed.

(** The [except ValueError] of a leaf agrees or not with what is known of
    the class of the exception. *)
Ltac class_leaf :=
  match goal with
  | Hc : Py.exn_cls ?e = Py.ValueError, H : Py.issubclass (Py.exn_cls ?e) _ = false |- _ =>
      rewrite Hc in H; discriminate H
  | Hc : Py.exn_cls ?e <> Py.ValueError,
    H : Py.issubclass (Py.exn_cls ?e) Py.ValueError = true |- _ =>
      apply issubclass_ValueError in H; contradiction
  end.


(** * Uploads: [allowed_file] *)

Lemma contains_dot_cons c s :
  Py.contains (String c s) "." = Ascii.eqb c "." || Py.contains s ".".
Proof.
  cbn [Py.contains Py.prefix]. rewrite (Ascii.eqb_sym "."%char c).
  destruct s; rewrite andb_true_r; reflexivity.
Qed.

Lemma last_dot_none s : last_dot s = None <-> Py.contains s "." = false.
Proof.
  induction s as [| c s IH].
  - split; reflexivity.
  - rewrite contains_dot_cons. cbn [last_dot].
    destruct (last_dot s) as [[a b] |].
    + split; [discriminate |]. intros H. apply orb_false_elim in H as [_ H].
      apply IH in H. discriminate H.
    + destruct (Ascii.eqb c "."); cbn [orb]; split; try discriminate; try reflexivity.
      intros _. apply IH. reflexivity.
Qed.

Lemma last_dot_some s a b :
  last_dot s = Some (a, b) <-> s = a ++ "." ++ b /\ Py.contains b "." = false.
Proof.
  revert a. induction s as [| c s IH]; intros a.
  - split; [discriminate |]. intros [H _]. destruct a; discriminate H.
  - cbn [last_dot]. destruct (last_dot s) as [[a' b'] |] eqn:Hs.
    + split.
      * intros H. injection H as <- <-. destruct (proj1 (IH a') eq_refl) as [-> Hb].
        split; [reflexivity | exact Hb].
      * intros [H Hb]. destruct a as [| c' a]; simpl in H; injection H as Hc Hrest.
        -- change (s = b) in Hrest. rewrite <- Hrest in Hb.
           apply last_dot_none in Hb. rewrite Hb in Hs. discriminate Hs.
        -- change (s = a ++ "." ++ b) in Hrest. subst c'. assert (Hab : Some (a', b') = Some (a, b)) by (apply IH; auto).
           injection Hab as -> ->. reflexivity.
    + apply last_dot_none in Hs. split.
      * destruct (Ascii.eqb c ".") eqn:Hc; [| discriminate].
        intros H. injection H as <- <-. apply Ascii.eqb_eq in Hc. subst c.
        split; [reflexivity | exact Hs].
      * intros [H Hb]. destruct a as [| c' a]; simpl in H; injection H as Hc Hrest.
        -- change (s = b) in Hrest. rewrite Hc, Hrest. reflexivity.
        -- change (s = a ++ String "." b) in Hrest. rewrite Hrest in Hs. exfalso. clear -Hs.
           induction a as [| x a IHa].
           ++ cbn in Hs. discriminate Hs.
           ++ change (String x a ++ String "." b) with (String x (a ++ String "." b)) in Hs.
              rewrite contains_dot_cons in Hs. apply orb_false_elim in Hs as [_ Hs].
              apply IHa, Hs.
Qed.

(** X1: [allowed_file] never fails on its index (the test for a dot
    guards it), and it accepts exactly the names whose part after the last
    dot is [txt] in any mix of upper and lower case. *)
Theorem allowed_file_spec name :
  exists b,
    allowed_file name = inl b
    /\ (b = true <->
        exists stem ext,
          name = stem ++ "." ++ ext /\ Py.contains ext "." = false /\ lower ext = "txt").
Proof.
  unfold allowed_file, rsplit_dot.
  destruct (Py.contains name ".") eqn:Hdot.
  - destruct (last_dot name) as [[a b] |] eqn:Hcut.
    + cbn [item1 ALLOWED_EXTENSIONS existsb]. eexists. split; [reflexivity |].
      apply last_dot_some in Hcut as [-> Hb]. rewrite orb_false_r. split.
      * intros H. apply String.eqb_eq in H. eauto.
      * intros (stem & ext & Heq & Hext & Hlow).
        assert (Hcut : last_dot (a ++ "." ++ b) = Some (stem, ext))
          by (apply last_dot_some; auto).
        assert (Hcut' : last_dot (a ++ "." ++ b) = Some (a, b))
          by (apply last_dot_some; auto).
        rewrite Hcut' in Hcut. injection Hcut as -> ->. apply String.eqb_eq, Hlow.
    + apply last_dot_none in Hcut. rewrite Hcut in Hdot. discriminate Hdot.
  - exists false. split; [reflexivity |]. split; [discriminate |].
    intros (stem & ext & -> & Hext & _). exfalso.
    assert (Hcut : last_dot (stem ++ "." ++ ext) = Some (stem, ext))
      by (apply last_dot_some; auto).
    apply last_dot_none in Hdot. rewrite Hdot in Hcut. discriminate Hcut.
Qed.

Example allowed_file_cases :
  allowed_file "notes.TXT" = inl true
  /\ allowed_file "archive.txt.zip" = inl false
  /\ allowed_file "txt" = inl false
  /\ allowed_file ".txt" = inl true
  /\ allowed_file "a.b.Txt" = inl true.
Proof. repeat split. Qed.

(** * The configuration helpers *)

(** Steps of the routes and helpers that the claims did not need. *)
Ltac wp_more :=
  lazymatch goal with
  | |- wp (call_load_config _ _) _ _ =>
      apply wp_readonly; [apply readonly_load_config | intros ? ?]
  | |- wp get_config_file_path _ _ =>
      apply wp_readonly; [apply readonly_config_file_path | intros ? ?]
  | _ => wp_step
  end.

Lemma key_missing_false cfg key :
  key_missing cfg key = inl false ->
  exists entry v, cfg = JObj entry /\ Py.lookup key entry = Some v /\ Py.truthy v = true.
Proof.
  unfold key_missing. destruct cfg as [| b | z | f | s | xs | kvs]; cbn [Py.in_];
    try discriminate.
  - destruct (Py.contains s key); discriminate.
  - destruct (existsb (Py.eq (JStr key)) xs); discriminate.
  - cbn [Py.getitem]. destruct (Py.lookup key kvs) as [v |] eqn:Hv; [| discriminate].
    intros H. injection H as H. apply negb_false_iff in H. eauto.
Qed.

Lemma missing_keys_of_nil cfg keys :
  keys <> [] -> missing_keys_of cfg keys = inl [] -> has_truthy cfg keys.
Proof.
  intros Hne Hnil.
  assert (Hall : Forall (fun key => key_missing cfg key = inl false) keys).
  { clear Hne. revert Hnil. induction keys as [| key keys IH]; [constructor |].
    cbn [missing_keys_of].
    destruct (key_missing cfg key) as [b | e] eqn:Hk; [| discriminate].
    destruct (missing_keys_of cfg keys) as [ks | e] eqn:Hks; [| discriminate].
    destruct b; [discriminate |]. intros H. injection H as ->.
    constructor; [exact Hk | apply IH; reflexivity]. }
  destruct keys as [| key keys]; [congruence |].
  pose proof (List.Forall_inv Hall) as Hkey.
  apply key_missing_false in Hkey as (entry & _ & -> & _).
  exists entry. split; [reflexivity |].
  eapply List.Forall_impl; [| exact Hall]. cbn beta. intros k Hk.
  apply key_missing_false in Hk as (entry' & v & Heq & Hv & Ht).
  injection Heq as <-. eauto.
Qed.

Lemma literal_prefix_nonempty c s t : String c s ++ t <> "".
Proof. discriminate. Qed.

Ltac error_triple :=
  right; eexists; split; [reflexivity |]; split; [discriminate | split; reflexivity].

(** X2: [get_llm_config] only reads, and what it returns is one of two
    things: no error message together with a configuration object in which
    every required key is bound to a truthy value, or a non-empty error
    message together with [None] for the configuration and the interface. *)
Theorem get_llm_config_result E w cfg ifc err w' :
  get_llm_config E w = (inl (cfg, ifc, err), w') ->
  w' = w
  /\ ((err = JNull /\ has_truthy cfg (llm_required_keys ifc))
      \/ (exists msg, err = JStr msg /\ msg <> "" /\ cfg = JNull /\ ifc = JNull)).
Proof.
  intros Hrun.
  pose proof (readonly_get_llm_config E w) as Hro. rewrite Hrun in Hro. cbn in Hro.
  split; [exact Hro |]. clear Hro. revert Hrun.
  generalize (@eq_refl _ (inl (cfg, ifc, err) : Py.result (json * json * json))).
  generalize (inl (cfg, ifc, err) : Py.result (json * json * json)) at 1 3.
  intros out Hout Hrun. revert Hout. wp_of_run Hrun.
  unfold get_llm_config. repeat wp_more.
  all: intros Hout; try discriminate Hout; injection Hout as <- <- <-.
  all: try error_triple.
  left. split; [reflexivity |].
  apply missing_keys_of_nil; [unfold llm_required_keys; discriminate | assumption].
Qed.

(** X3: the same for [get_embedding_config], whose required keys are
    [api_key] and [model_name]. *)
Theorem get_embedding_config_result E w cfg ifc err w' :
  get_embedding_config E w = (inl (cfg, ifc, err), w') ->
  w' = w
  /\ ((err = JNull /\ has_truthy cfg ["api_key"; "model_name"])
      \/ (exists msg, err = JStr msg /\ msg <> "" /\ cfg = JNull /\ ifc = JNull)).
Proof.
  intros Hrun.
  pose proof (readonly_get_embedding_config E w) as Hro. rewrite Hrun in Hro. cbn in Hro.
  split; [exact Hro |]. clear Hro. revert Hrun.
  generalize (@eq_refl _ (inl (cfg, ifc, err) : Py.result (json * json * json))).
  generalize (inl (cfg, ifc, err) : Py.result (json * json * json)) at 1 3.
  intros out Hout Hrun. revert Hout. wp_of_run Hrun.
  unfold get_embedding_config. repeat wp_more.
  all: intros Hout; try discriminate Hout; injection Hout as <- <- <-.
  all: try error_triple.
  left. split; [reflexivity |].
  apply missing_keys_of_nil; [discriminate | assumption].
Qed.

Lemma get_llm_config_result_witness :
  has_truthy Sample.llm_entry (llm_required_keys (JStr "TestLLM")).
Proof.
  destruct (get_llm_config_result (Sample.env (inl JNull)) Sample.fresh
              Sample.llm_entry (JStr "TestLLM") JNull Sample.fresh)
    as [_ [[_ H] | (msg & Hm & _)]];
    [vm_compute; reflexivity | exact H | discriminate Hm].
Defined.

Lemma get_embedding_config_result_witness :
  exists msg,
    JStr "Configuration for 'TestEmbed' not found in embedding_configs." = JStr msg
    /\ msg <> "".
Proof.
  destruct (get_embedding_config_result (Sample.env (inl JNull)) Sample2.no_embedding
              JNull JNull
              (JStr "Configuration for 'TestEmbed' not found in embedding_configs.")
              Sample2.no_embedding)
    as [_ [[H _] | (msg & Hm & Hne & _)]];
    [vm_compute; reflexivity | discriminate H | exists msg; split; assumption].
Defined.

Lemma int_raises v e : Py.int v = inr e -> In (Py.exn_cls e) conversion_errors.
Proof.
  unfold conversion_errors.
  destruct v as [| b | z | f | s | xs | kvs]; cbn [Py.int]; try discriminate.
  - intros H. injection H as <-. cbn. auto.
  - destruct f; cbn [Py.int_of_float]; try discriminate;
      intros H; injection H as <-; cbn; auto.
  - destruct (Py.int_of_str s); [discriminate |]. intros H. injection H as <-. cbn. auto.
  - intros H. injection H as <-. cbn. auto.
  - intros H. injection H as <-. cbn. auto.
Qed.

Lemma float_of_Z_raises z e :
  Py.float_of_Z z = inr e -> Py.exn_cls e = Py.OverflowError.
Proof.
  unfold Py.float_of_Z. destruct (binary_normalize 53 1024 z 0 false); try discriminate.
  intros H. injection H as <-. reflexivity.
Qed.

Lemma float_raises E v e : float E v = inr e -> In (Py.exn_cls e) conversion_errors.
Proof.
  unfold conversion_errors.
  destruct v as [| b | z | f | s | xs | kvs]; cbn [float]; try discriminate.
  - intros H. injection H as <-. cbn. auto.
  - intros H. apply float_of_Z_raises in H. rewrite H. cbn. auto.
  - intros H. apply float_of_Z_raises in H. rewrite H. cbn. auto.
  - destruct (float_of_str E s); [discriminate |]. intros H. injection H as <-. cbn. auto.
  - intros H. injection H as <-. cbn. auto.
  - intros H. injection H as <-. cbn. auto.
Qed.

Lemma has_truthy_lookup cfg keys key :
  has_truthy cfg keys -> In key keys ->
  exists entry v, cfg = JObj entry /\ Py.lookup key entry = Some v /\ Py.truthy v = true.
Proof.
  intros (entry & -> & Hall) Hin.
  rewrite List.Forall_forall in Hall. destruct (Hall key Hin) as (v & Hv & Ht). eauto.
Qed.

Lemma required_base ifc key :
  In key ["api_key"; "model_name"; "temperature"; "max_tokens"; "timeout"] ->
  In key (llm_required_keys ifc).
Proof. intros H. unfold llm_required_keys. apply in_or_app. left. exact H. Qed.

(** X4: on a configuration that [get_llm_config] accepted, evaluating the
    arguments of a generator call never fails on a lookup: whatever it
    raises comes from [float()] or [int()] and is a [ValueError], a
    [TypeError] or an [OverflowError]. *)
Theorem validated_args_fail_in_conversion E cfg ifc w e :
  has_truthy cfg (llm_required_keys ifc) ->
  escaped (eval_llm_args E cfg w) e ->
  In (Py.exn_cls e) conversion_errors.
Proof.
  intros Hcfg.
  destruct (has_truthy_lookup _ _ "api_key" Hcfg) as (entry & v1 & -> & H1 & _);
    [apply required_base; cbn; auto |].
  destruct (has_truthy_lookup _ _ "model_name" Hcfg) as (? & v2 & Heq & H2 & _);
    [apply required_base; cbn; auto |]. injection Heq as <-.
  destruct (has_truthy_lookup _ _ "temperature" Hcfg) as (? & v3 & Heq & H3 & _);
    [apply required_base; cbn; auto 6 |]. injection Heq as <-.
  destruct (has_truthy_lookup _ _ "max_tokens" Hcfg) as (? & v4 & Heq & H4 & _);
    [apply required_base; cbn; auto 6 |]. injection Heq as <-.
  destruct (has_truthy_lookup _ _ "timeout" Hcfg) as (? & v5 & Heq & H5 & _);
    [apply required_base; cbn; auto 6 |]. injection Heq as <-.
  unfold escaped, eval_llm_args, bind, lift, ret.
  cbn [Py.getitem Py.get]. rewrite H1, H2, H3, H4, H5. cbn [fst snd].
  destruct (float E v3) as [f | e3] eqn:Hf; cbn [fst].
  - destruct (Py.int v4) as [m | e4] eqn:Hm; cbn [fst].
    + destruct (Py.int v5) as [t | e5] eqn:Ht; cbn [fst]; [discriminate |].
      intros H. injection H as <-. eapply int_raises, Ht.
    + intros H. injection H as <-. eapply int_raises, Hm.
  - intros H. injection H as <-. eapply float_raises, Hf.
Qed.

(** A configuration whose temperature is the string ["hot"]. *)
Lemma validated_args_fail_in_conversion_witness :
  let cfg := JObj [("api_key", JStr "k"); ("model_name", JStr "m");
                   ("temperature", JStr "hot"); ("max_tokens", JInt 100);
                   ("timeout", JInt 60)] in
  In Py.ValueError conversion_errors.
Proof.
  intros cfg.
  apply (validated_args_fail_in_conversion (Sample.env (inl JNull)) cfg (JStr "Gemini")
           Sample.fresh
           (Py.mk_exn Py.ValueError "could not convert string to float: 'hot'")).
  - exists [("api_key", JStr "k"); ("model_name", JStr "m");
            ("temperature", JStr "hot"); ("max_tokens", JInt 100);
            ("timeout", JInt 60)].
    split; [reflexivity |].
    repeat apply List.Forall_cons; try apply List.Forall_nil; eexists; split; reflexivity.
  - reflexivity.
Defined.

(** * What a request does to the world *)

Lemma wp_save_config E data path Q w :
  (forall r d, save_config E data path (w_fs w) = (r, d) ->
               Q r (mk_world (w_config w) d (w_log w))) ->
  wp (call_save_config E data path) Q w.
Proof.
  intros H. unfold wp, call_save_config.
  destruct (save_config E data path (w_fs w)) as [r d] eqn:Hc. cbn [fst snd].
  apply H. reflexivity.
Qed.

Ltac wp_all :=
  lazymatch goal with
  | |- wp (call_save_config _ _ _) _ _ => apply wp_save_config; intros ? ? ?
  | _ => wp_more
  end.

(** A leaf of a run: either the trace is the initial one, or it grew by
    the call just made. *)
Ltac one_call_leaf :=
  first
    [ left; cbn [w_log]; congruence
    | right; eexists; split;
      [cbn [w_log]; repeat match goal with
                           | H : w_log _ = w_log _ |- _ => rewrite H
                           end; reflexivity
      | reflexivity] ].

(** X5: a route calls the generation library at most once in a request,
    and only the function it stands for; the two configuration routes
    never call it. *)
Theorem one_call_per_request E req w :
  let delegates (run : Py.result response * world) (f : ext_fn) :=
    no_call w run \/ exists ev, called w run ev /\ ev_fn ev = f in
  delegates (generate_architecture_api E req w) Novel_architecture_generate
  /\ delegates (generate_blueprint_api E req w) Chapter_blueprint_generate
  /\ delegates (generate_chapter_draft_api E req w) generate_chapter_draft
  /\ delegates (finalize_chapter_api E req w) finalize_chapter
  /\ delegates (check_consistency_api E req w) check_consistency
  /\ delegates (clear_vectorstore_api E req w) clear_vector_store
  /\ no_call w (get_config_api E req w)
  /\ no_call w (save_config_api E req w).
Proof.
  intros delegates. subst delegates. unfold no_call, called.
  repeat apply conj.
  - wp_run_of (generate_architecture_api E req w).
    unfold generate_architecture_api. repeat wp_all. all: one_call_leaf.
  - wp_run_of (generate_blueprint_api E req w).
    unfold generate_blueprint_api. repeat wp_all. all: one_call_leaf.
  - wp_run_of (generate_chapter_draft_api E req w).
    unfold generate_chapter_draft_api. repeat wp_all. all: one_call_leaf.
  - wp_run_of (finalize_chapter_api E req w).
    unfold finalize_chapter_api. repeat wp_all. all: one_call_leaf.
  - wp_run_of (check_consistency_api E req w).
    unfold check_consistency_api. repeat wp_all. all: one_call_leaf.
  - wp_run_of (clear_vectorstore_api E req w).
    unfold clear_vectorstore_api. repeat wp_all. all: one_call_leaf.
  - wp_run_of (get_config_api E req w).
    unfold get_config_api. repeat wp_all. all: reflexivity.
  - wp_run_of (save_config_api E req w).
    unfold save_config_api. repeat wp_all. all: reflexivity.
Qed.

Ltac pure_leaf :=
  first [ left; reflexivity
        | right; eexists; cbn [w_log]; reflexivity ].

(** X6: the finalize, consistency-check and vector-store routes leave the
    world exactly as it was unless they get as far as calling the
    generation library; [GET /api/config] always leaves it as it was. *)
Theorem refused_request_changes_nothing E req w :
  let untouched (run : Py.result response * world) :=
    snd run = w \/ exists ev, called w run ev in
  untouched (finalize_chapter_api E req w)
  /\ untouched (check_consistency_api E req w)
  /\ untouched (clear_vectorstore_api E req w)
  /\ snd (get_config_api E req w) = w.
Proof.
  intros untouched. subst untouched. unfold called.
  repeat apply conj.
  - wp_run_of (finalize_chapter_api E req w).
    unfold finalize_chapter_api. repeat wp_all. all: pure_leaf.
  - wp_run_of (check_consistency_api E req w).
    unfold check_consistency_api. repeat wp_all. all: pure_leaf.
  - wp_run_of (clear_vectorstore_api E req w).
    unfold clear_vectorstore_api. repeat wp_all. all: pure_leaf.
  - wp_run_of (get_config_api E req w).
    unfold get_config_api. repeat wp_all. all: reflexivity.
Qed.

Lemma os_makedirs_world path w r w' :
  os_makedirs path w = (r, w') ->
  w_log w' = w_log w /\ w_config w' = w_config w
  /\ same_files (w_fs w) (w_fs w')
  /\ forall q, q ∈ fs_dirs (w_fs w') ->
               q ∈ fs_dirs (w_fs w) \/ In q (ancestors path ++ [path])%list.
Proof.
  unfold os_makedirs, same_files. intros Hrun.
  destruct (has_nul path); [injection Hrun as <- <-; repeat split; auto |].
  destruct (String.eqb path ""); [injection Hrun as <- <-; repeat split; auto |].
  destruct (bool_decide (path ∈ fs_dirs (w_fs w)));
    [injection Hrun as <- <-; repeat split; auto |].
  destruct (mkdirs (ancestors path ++ [path]) (w_fs w)) as [r0 d] eqn:Hmk.
  injection Hrun as <- <-. cbn [w_log w_config w_fs].
  destruct (mkdirs_frame _ _ _ _ Hmk) as (Hd & Ht & Hj & _ & Hnew).
  repeat split; auto.
Qed.

Ltac created_leaf :=
  first
    [ right; eexists; cbn [w_log];
      repeat match goal with
             | H : w_log _ = w_log _ |- _ => rewrite H
             end; reflexivity
    | left;
      first
        [ (* before os.makedirs ran *)
          split; [reflexivity |]; split; [reflexivity |];
          split; [repeat split |]; intros q Hq; left; exact Hq
        | match goal with
          | H : os_makedirs _ _ = _ |- _ =>
              let Hl := fresh "Hl" in
              let Hc := fresh "Hc" in
              let Hf := fresh "Hf" in
              let Hd := fresh "Hd" in
              let Hin := fresh "Hin" in
              apply os_makedirs_world in H; destruct H as (Hl & Hc & Hf & Hd);
              split; [exact Hl |]; split; [exact Hc |]; split; [exact Hf |];
              intros q Hq; destruct (Hd q Hq) as [Hin | Hin];
              [left; exact Hin
              | right; eexists; split; [first [eassumption | reflexivity] | exact Hin]]
          end ] ].

(** X7: the architecture, blueprint and chapter-draft routes, when they
    do not get as far as calling the generator, change nothing but the set
    of directories, and add to it at most the project path and the
    directories above it, which [os.makedirs] makes on the way. *)
Theorem refused_request_creates_only_directory E req w :
  let bounded (run : Py.result response * world) :=
    (w_log (snd run) = w_log w
     /\ w_config (snd run) = w_config w
     /\ same_files (w_fs w) (w_fs (snd run))
     /\ forall q, q ∈ fs_dirs (w_fs (snd run)) ->
                  q ∈ fs_dirs (w_fs w)
                  \/ exists pn, names_project (req_json req) pn
                                /\ In q (ancestors (project_path w pn)
                                         ++ [project_path w pn])%list)
    \/ exists ev, called w run ev in
  bounded (generate_architecture_api E req w)
  /\ bounded (generate_blueprint_api E req w)
  /\ bounded (generate_chapter_draft_api E req w).
Proof.
  intros bounded. subst bounded. unfold called, names_project, project_path.
  repeat apply conj.
  - wp_run_of (generate_architecture_api E req w).
    unfold generate_architecture_api. repeat wp_all.
    all: join_inv; cbn [w_log w_config w_fs]; created_leaf.
  - wp_run_of (generate_blueprint_api E req w).
    unfold generate_blueprint_api. repeat wp_all.
    all: join_inv; cbn [w_log w_config w_fs]; created_leaf.
  - wp_run_of (generate_chapter_draft_api E req w).
    unfold generate_chapter_draft_api. repeat wp_all.
    all: join_inv; cbn [w_log w_config w_fs]; created_leaf.
Qed.

(** The directories above a path, as [os.makedirs] walks them. *)
Example ancestors_cases :
  ancestors "novel_projects/p" = ["novel_projects"]
  /\ ancestors "a/b/c" = ["a"; "a/b"]
  /\ ancestors "/srv/p" = ["/srv"]
  /\ ancestors "a//b/" = ["a"]
  /\ ancestors "p" = [].
Proof. repeat split. Qed.

(** On a disk without [novel_projects], a refused blueprint request leaves
    both the projects base and the project directory behind. *)
Example refused_blueprint_makes_the_parent :
  let run := generate_blueprint_api (Sample.env (inl JNull)) (Sample.post []) Sample.bare in
  fst (os_path_isdir "novel_projects" Sample.bare) = inl false
  /\ fst (os_path_isdir "novel_projects" (snd run)) = inl true
  /\ fst (os_path_isdir "novel_projects/p" (snd run)) = inl true.
Proof. vm_compute. repeat split. Qed.

(** * Missing embedding configuration *)

Lemma embedding_config_missing_error E w :
  embedding_config_missing_in E w ->
  exists txt,
    get_embedding_config E w = (inl (JNull, JNull, JStr txt), w)
    /\ Py.truthy (JStr txt) = true.
Proof.
  intros (config & Hload & Hmissing).
  unfold get_embedding_config, bind, get_config_file_path, call_load_config, lift, ret.
  rewrite Hload.
  destruct Hmissing as [config Hfalsy | kvs name ecs Hne Hlast Hcfgs Habs
                       | kvs name ecs entry key Hne Hlast Hcfgs Hentry Hkey Hbad].
  - rewrite Hfalsy. cbn [negb]. eexists. split; reflexivity.
  - rewrite (truthy_obj _ Hne), Hlast, Hcfgs. cbn [negb Py.in_]. rewrite Habs.
    cbn [negb str]. eexists. split; reflexivity.
  - rewrite (truthy_obj _ Hne), Hlast, Hcfgs. cbn [negb Py.in_ Py.getitem].
    rewrite Hentry. cbn [negb]. rewrite missing_keys_of_obj.
    match goal with
    | |- context [List.filter ?p ?l] =>
        assert (Hin : In key (List.filter p l))
    end.
    { apply filter_In. split; [exact Hkey |].
      destruct Hbad as [-> | (v & -> & ->)]; reflexivity. }
    match goal with
    | |- context [List.filter ?p ?l] => destruct (List.filter p l) as [| k ks]
    end; [destruct Hin |].
    cbn [str]. eexists. split; reflexivity.
Qed.

(** X8: in the chapter-draft and finalize routes a missing embedding
    configuration (empty document, no entry for the selected embedding
    interface, or [api_key] or [model_name] absent or falsy) is answered,
    once the LLM configuration has passed, with 500 and the message
    "Embedding Config Error: " followed by the text of
    [get_embedding_config]; the generator is not called. *)
Theorem missing_embedding_config_is_500 E req pn w :
  names_project (req_json req) pn ->
  let made := os_makedirs (project_path w pn) w in
  let refused (w0 : world) (run : Py.result response * world) :=
    exists txt,
      get_embedding_config E w0 = (inl (JNull, JNull, JStr txt), w0)
      /\ responded run (jsonify_code (error_body ("Embedding Config Error: " ++ txt)) 500)
      /\ no_call w run in
  (fst made = inl tt -> llm_config_valid E (snd made) ->
   embedding_config_missing_in E (snd made) ->
   refused (snd made) (generate_chapter_draft_api E req w))
  /\ (llm_config_valid E w -> embedding_config_missing_in E w ->
      refused w (finalize_chapter_api E req w)).
Proof.
  intros Hnp made refused. subst made refused.
  unfold responded, no_call, names_project, project_path, llm_config_valid in *.
  destruct (os_makedirs
              (posix_join (default "novel_projects" (PROJECTS_BASE_PATH_OVERRIDE (w_config w)))
                          pn) w) as [r1 w1] eqn:Hmk.
  cbn [fst snd].
  split.
  - intros -> (cfg & ifc & err & Hcfg & Herr) Hmissing.
    destruct (embedding_config_missing_error E w1 Hmissing) as (txt & Hemb & Htxt).
    exists txt. split; [exact Hemb |].
    wp_run_of (generate_chapter_draft_api E req w).
    unfold generate_chapter_draft_api. repeat wp_step.
    all: join_inv; answer_config_error.
  - intros (cfg & ifc & err & Hcfg & Herr) Hmissing.
    destruct (embedding_config_missing_error E w Hmissing) as (txt & Hemb & Htxt).
    exists txt. split; [exact Hemb |].
    wp_run_of (finalize_chapter_api E req w).
    unfold finalize_chapter_api. repeat wp_step.
    all: join_inv; answer_config_error.
Qed.

Lemma no_embedding_is_missing :
  embedding_config_missing_in (Sample.env (inl JNull)) Sample2.no_embedding.
Proof.
  exists Sample2.no_embedding_config. split; [vm_compute; reflexivity |].
  apply (embedding_interface_absent _ "TestEmbed" []); [discriminate | reflexivity ..].
Qed.

(** A configuration whose embedding entry was deleted. *)
Lemma missing_embedding_config_is_500_witness :
  let E := Sample.env (inl JNull) in
  let req := Sample.post [("novel_number", JInt 1); ("word_number", JInt 3000)] in
  let resp :=
    jsonify_code
      (error_body
         "Embedding Config Error: Configuration for 'TestEmbed' not found in embedding_configs.")
      500 in
  responded (generate_chapter_draft_api E req Sample2.no_embedding) resp
  /\ responded (finalize_chapter_api E req Sample2.no_embedding) resp.
Proof.
  intros E req resp.
  destruct (missing_embedding_config_is_500 E req "p" Sample2.no_embedding eq_refl)
    as [Hd Hf].
  destruct Hd as (td & Hd & Hrd & _);
    [vm_compute; reflexivity | config_valid | exact no_embedding_is_missing |].
  destruct Hf as (tf & Hf & Hrf & _); [config_valid | exact no_embedding_is_missing |].
  vm_compute in Hd. injection Hd as <-. vm_compute in Hf. injection Hf as <-.
  split; assumption.
Defined.

(** * Malformed fields *)

(** X9: a numeric field that [int()] rejects with a [ValueError] is
    answered with 400 and no call, once the request has come as far as the
    conversion: [chapter_number] in the consistency check, [novel_number]
    and [word_number] in the finalize and chapter-draft routes. *)
Theorem not_an_integer_is_400 E kvs pn w :
  names_project (JObj kvs) pn ->
  kvs <> [] ->
  let req := mk_request (JObj kvs) in
  let made := os_makedirs (project_path w pn) w in
  let refused (run : Py.result response * world) (msg : string) :=
    responded run (jsonify_code (error_body msg) 400) /\ no_call w run in
  (forall v, Py.lookup "chapter_number" kvs = Some v -> is_None v = false ->
             not_an_integer v ->
             refused (check_consistency_api E req w)
                     "Invalid 'chapter_number', must be an integer.")
  /\ (forall a b,
        Py.lookup "novel_number" kvs = Some a -> is_None a = false ->
        Py.lookup "word_number" kvs = Some b -> is_None b = false ->
        pair_not_integers a b ->
        (llm_config_valid E w -> embedding_config_valid E w ->
         refused (finalize_chapter_api E req w)
                 "Invalid 'novel_number' or 'word_number', must be integers.")
        /\ (fst made = inl tt -> llm_config_valid E (snd made) ->
            embedding_config_valid E (snd made) ->
            refused (generate_chapter_draft_api E req w)
                    "'novel_number' and 'word_number' must be integers.")).
Proof.
  intros Hnp Hne req made refused. subst req made refused.
  pose proof (truthy_obj _ Hne) as Hbody.
  unfold responded, no_call, names_project, project_path, llm_config_valid,
    embedding_config_valid, pair_not_integers, not_an_integer in *.
  split.
  - intros v Hv Hnone (e & Hint & Hcls).
    apply (get_present _ _ JNull) in Hv.
    wp_run_of (check_consistency_api E (mk_request (JObj kvs)) w).
    unfold check_consistency_api. repeat wp_step.
    all: join_inv; tidy_more; try class_leaf.
    all: split; [reflexivity | congruence].
  - intros a b Ha Hna Hb Hnb Hbad.
    apply (get_present _ _ JNull) in Ha. apply (get_present _ _ JNull) in Hb.
    split.
    + intros (cfg & ifc & err & Hcfg & Herr) (cfg' & ifc' & err' & Hcfg' & Herr').
      wp_run_of (finalize_chapter_api E (mk_request (JObj kvs)) w).
      unfold finalize_chapter_api. repeat wp_step.
      all: join_inv; destruct Hbad as [(? & Hint & Hcls) | [(? & Hz) (? & Hint & Hcls)]];
        tidy_more; try class_leaf.
      all: try match goal with
               | H : _ || _ = true |- _ => rewrite Hna, Hnb in H; discriminate H
               end.
      all: split; [reflexivity | congruence].
    + destruct (os_makedirs
                  (posix_join
                     (default "novel_projects" (PROJECTS_BASE_PATH_OVERRIDE (w_config w)))
                     pn) w) as [r1 w1] eqn:Hmk.
      cbn [fst snd].
      intros -> (cfg & ifc & err & Hcfg & Herr) (cfg' & ifc' & err' & Hcfg' & Herr').
      wp_run_of (generate_chapter_draft_api E (mk_request (JObj kvs)) w).
      unfold generate_chapter_draft_api. repeat wp_step.
      all: join_inv; destruct Hbad as [(? & Hint & Hcls) | [(? & Hz) (? & Hint & Hcls)]];
        tidy_more; try class_leaf.
      all: try match goal with
               | H : _ || _ = true |- _ => rewrite Hna, Hnb in H; discriminate H
               end.
      all: split; [reflexivity | congruence].
Qed.

(** An [embedding_retrieval_k]-free body whose numbers are not numbers. *)
Lemma not_an_integer_is_400_witness :
  let E := Sample.env (inl JNull) in
  let req := Sample.post [("chapter_number", JStr "one"); ("novel_number", JInt 1);
                          ("word_number", JStr "many")] in
  responded (check_consistency_api E req Sample.fresh)
    (jsonify_code (error_body "Invalid 'chapter_number', must be an integer.") 400)
  /\ responded (finalize_chapter_api E req Sample.fresh)
       (jsonify_code
          (error_body "Invalid 'novel_number' or 'word_number', must be integers.") 400)
  /\ responded (generate_chapter_draft_api E req Sample.fresh)
       (jsonify_code (error_body "'novel_number' and 'word_number' must be integers.") 400).
Proof.
  intros E req.
  destruct (not_an_integer_is_400 E
              [("project_name", JStr "p"); ("chapter_number", JStr "one");
               ("novel_number", JInt 1); ("word_number", JStr "many")]
              "p" Sample.fresh eq_refl) as [Hc Hp]; [discriminate |].
  destruct (Hp (JInt 1) (JStr "many") eq_refl eq_refl eq_refl eq_refl) as [Hf Hd].
  { right. split; [exists 1; reflexivity |]. eexists. split; reflexivity. }
  split; [| split].
  - apply (Hc (JStr "one") eq_refl eq_refl). eexists. split; reflexivity.
  - apply Hf; config_valid.
  - apply Hd; [vm_compute; reflexivity | config_valid | config_valid].
Defined.

(** X10: what [int()] raises besides [ValueError] (a [TypeError] for a
    list or an object, an [OverflowError] for an infinite float) is caught
    nowhere on the way: it escapes the consistency-check route for
    [chapter_number], the blueprint and architecture routes for
    [num_chapters] and the finalize route for [novel_number], and no call
    is made. *)
Theorem conversion_error_escapes E kvs pn w v e :
  names_project (JObj kvs) pn ->
  kvs <> [] ->
  is_None v = false ->
  int_raises_other v e ->
  let req := mk_request (JObj kvs) in
  let made := os_makedirs (project_path w pn) w in
  let escapes (run : Py.result response * world) := escaped run e /\ no_call w run in
  (Py.lookup "chapter_number" kvs = Some v -> escapes (check_consistency_api E req w))
  /\ (Py.lookup "num_chapters" kvs = Some v ->
      fst made = inl tt -> llm_config_valid E (snd made) ->
      escapes (generate_blueprint_api E req w)
      /\ escapes (generate_architecture_api E req w))
  /\ (Py.lookup "novel_number" kvs = Some v ->
      (exists b, Py.lookup "word_number" kvs = Some b /\ is_None b = false) ->
      llm_config_valid E w -> embedding_config_valid E w ->
      escapes (finalize_chapter_api E req w)).
Proof.
  intros Hnp Hne Hnone [Hint Hcls] req made escapes. subst req made escapes.
  pose proof (truthy_obj _ Hne) as Hbody.
  unfold escaped, no_call, names_project, project_path, llm_config_valid,
    embedding_config_valid in *.
  destruct (os_makedirs
              (posix_join (default "novel_projects" (PROJECTS_BASE_PATH_OVERRIDE (w_config w)))
                          pn) w) as [r1 w1] eqn:Hmk.
  cbn [fst snd].
  split; [| split].
  - intros Hv. apply (get_present _ _ JNull) in Hv.
    wp_run_of (check_consistency_api E (mk_request (JObj kvs)) w).
    unfold check_consistency_api. repeat wp_step.
    all: join_inv; tidy_more; try class_leaf.
    all: split; [reflexivity | congruence].
  - intros Hv -> (cfg & ifc & err & Hcfg & Herr).
    pose proof (get_present _ _ JNull _ Hv) as Hv0.
    pose proof (get_present _ _ (JInt 10) _ Hv) as Hv10.
    split.
    + wp_run_of (generate_blueprint_api E (mk_request (JObj kvs)) w).
      unfold generate_blueprint_api. repeat wp_step.
      all: join_inv; tidy_more; try class_leaf.
      all: split; [reflexivity | congruence].
    + wp_run_of (generate_architecture_api E (mk_request (JObj kvs)) w).
      unfold generate_architecture_api. repeat wp_step.
      all: join_inv; tidy_more; try class_leaf.
      all: split; [reflexivity | congruence].
  - intros Hv (b & Hb & Hnb) (cfg & ifc & err & Hcfg & Herr)
      (cfg' & ifc' & err' & Hcfg' & Herr').
    apply (get_present _ _ JNull) in Hv. apply (get_present _ _ JNull) in Hb.
    wp_run_of (finalize_chapter_api E (mk_request (JObj kvs)) w).
    unfold finalize_chapter_api. repeat wp_step.
    all: join_inv; tidy_more; try class_leaf.
    all: try match goal with
             | H : _ || _ = true |- _ => rewrite Hnone, Hnb in H; discriminate H
             end.
    all: split; [reflexivity | congruence].
Qed.

(** A [chapter_number] and a [num_chapters] sent as the list [[1]]. *)
Lemma conversion_error_escapes_witness :
  let E := Sample.env (inl JNull) in
  let req := Sample.post [("chapter_number", JList [JInt 1]);
                          ("num_chapters", JList [JInt 1])] in
  let e := Py.mk_exn Py.TypeError
             "int() argument must be a string, a bytes-like object or a real number" in
  escaped (check_consistency_api E req Sample.fresh) e
  /\ escaped (generate_blueprint_api E req Sample.fresh) e.
Proof.
  intros E req e.
  destruct (conversion_error_escapes E
              [("project_name", JStr "p"); ("chapter_number", JList [JInt 1]);
               ("num_chapters", JList [JInt 1])]
              "p" Sample.fresh (JList [JInt 1]) e eq_refl)
    as (Hc & Hb & _).
  - discriminate.
  - reflexivity.
  - split; [reflexivity | discriminate].
  - split.
    + apply Hc. reflexivity.
    + apply Hb; [reflexivity | vm_compute; reflexivity | config_valid].
Defined.

(** * Bodies and project names of the wrong type *)

Lemma get_non_dict body key dflt :
  is_dict body = false ->
  Py.get body key dflt = inr (Py.mk_exn Py.AttributeError "object has no attribute 'get'").
Proof. destruct body; cbn; intros H; try discriminate H; reflexivity. Qed.

Lemma os_path_join_non_str base v :
  is_str v = false ->
  os_path_join base v
  = inr (Py.mk_exn Py.TypeError "expected str, bytes or os.PathLike object").
Proof. destruct v; cbn; intros H; try discriminate H; reflexivity. Qed.

Ltac escape_leaf :=
  first [ eexists; split; [reflexivity | split; reflexivity]
        | split; reflexivity
        | reflexivity ].

(** X11: a body that is JSON but not an object meets no JSON error in the
    four generating routes: [request.json.get] raises [AttributeError]
    before anything is done.  The consistency-check and vector-store
    routes answer 400 to a falsy body ([null], [0], [""], [[]]) and raise
    the same [AttributeError] on a truthy one; [POST /api/config] answers
    400.  In every case the world is left as it was. *)
Theorem non_object_body E body w :
  is_dict body = false ->
  let req := mk_request body in
  let no_get (run : Py.result response * world) :=
    exists e, escaped run e /\ Py.exn_cls e = Py.AttributeError /\ snd run = w in
  let not_json (run : Py.result response * world) :=
    responded run (jsonify_code (error_body "Request body must be JSON.") 400)
    /\ snd run = w in
  no_get (generate_architecture_api E req w)
  /\ no_get (generate_blueprint_api E req w)
  /\ no_get (generate_chapter_draft_api E req w)
  /\ no_get (finalize_chapter_api E req w)
  /\ (if Py.truthy body
      then no_get (check_consistency_api E req w) /\ no_get (clear_vectorstore_api E req w)
      else not_json (check_consistency_api E req w)
           /\ not_json (clear_vectorstore_api E req w))
  /\ save_config_api E req w
     = (inl (jsonify_code
               (error_body "Invalid configuration format. Must be a JSON object.") 400),
        w).
Proof.
  intros Hbody req no_get not_json. subst req no_get not_json.
  pose proof (get_non_dict body "project_name" (JStr "default_project") Hbody) as Hget.
  unfold escaped, responded.
  repeat apply conj.
  - wp_run_of (generate_architecture_api E (mk_request body) w).
    unfold generate_architecture_api. repeat wp_step. all: tidy_more; escape_leaf.
  - wp_run_of (generate_blueprint_api E (mk_request body) w).
    unfold generate_blueprint_api. repeat wp_step. all: tidy_more; escape_leaf.
  - wp_run_of (generate_chapter_draft_api E (mk_request body) w).
    unfold generate_chapter_draft_api. repeat wp_step. all: tidy_more; escape_leaf.
  - wp_run_of (finalize_chapter_api E (mk_request body) w).
    unfold finalize_chapter_api. repeat wp_step. all: tidy_more; escape_leaf.
  - destruct (Py.truthy body) eqn:Htruthy; split.
    + wp_run_of (check_consistency_api E (mk_request body) w).
      unfold check_consistency_api. repeat wp_step. all: tidy_more; escape_leaf.
    + wp_run_of (clear_vectorstore_api E (mk_request body) w).
      unfold clear_vectorstore_api. repeat wp_step. all: tidy_more; escape_leaf.
    + wp_run_of (check_consistency_api E (mk_request body) w).
      unfold check_consistency_api. repeat wp_step. all: tidy_more; escape_leaf.
    + wp_run_of (clear_vectorstore_api E (mk_request body) w).
      unfold clear_vectorstore_api. repeat wp_step. all: tidy_more; escape_leaf.
  - unfold save_config_api. cbn [req_json]. rewrite Hbody. reflexivity.
Qed.

(** The body [[1, 2]]. *)
Lemma non_object_body_witness :
  exists e,
    escaped (generate_architecture_api (Sample.env (inl JNull))
               (mk_request (JList [JInt 1; JInt 2])) Sample.bare) e
    /\ Py.exn_cls e = Py.AttributeError
    /\ snd (generate_architecture_api (Sample.env (inl JNull))
              (mk_request (JList [JInt 1; JInt 2])) Sample.bare) = Sample.bare.
Proof.
  apply (non_object_body (Sample.env (inl JNull)) (JList [JInt 1; JInt 2]) Sample.bare).
  reflexivity.
Defined.

(** X12: a [project_name] that is not a string ([null], a number, a list)
    makes [os.path.join] raise a [TypeError] that no route catches; the
    world is left as it was. *)
Theorem non_string_project_name E kvs v w :
  Py.lookup "project_name" kvs = Some v ->
  is_str v = false ->
  let req := mk_request (JObj kvs) in
  let no_path (run : Py.result response * world) :=
    exists e, escaped run e /\ Py.exn_cls e = Py.TypeError /\ snd run = w in
  no_path (generate_architecture_api E req w)
  /\ no_path (generate_blueprint_api E req w)
  /\ no_path (generate_chapter_draft_api E req w)
  /\ no_path (finalize_chapter_api E req w)
  /\ no_path (check_consistency_api E req w)
  /\ no_path (clear_vectorstore_api E req w).
Proof.
  intros Hv Hstr req no_path. subst req no_path.
  assert (Hbody : Py.truthy (JObj kvs) = true) by (destruct kvs; [discriminate Hv | reflexivity]).
  apply (get_present _ _ (JStr "default_project")) in Hv.
  unfold escaped.
  assert (Hjoin : forall base, os_path_join base v
                               = inr (Py.mk_exn Py.TypeError
                                        "expected str, bytes or os.PathLike object"))
    by (intros base; apply os_path_join_non_str, Hstr).
  repeat apply conj.
  - wp_run_of (generate_architecture_api E (mk_request (JObj kvs)) w).
    unfold generate_architecture_api. repeat wp_step.
    all: tidy_more; try rewrite Hjoin in *; tidy_more; escape_leaf.
  - wp_run_of (generate_blueprint_api E (mk_request (JObj kvs)) w).
    unfold generate_blueprint_api. repeat wp_step.
    all: tidy_more; try rewrite Hjoin in *; tidy_more; escape_leaf.
  - wp_run_of (generate_chapter_draft_api E (mk_request (JObj kvs)) w).
    unfold generate_chapter_draft_api. repeat wp_step.
    all: tidy_more; try rewrite Hjoin in *; tidy_more; escape_leaf.
  - wp_run_of (finalize_chapter_api E (mk_request (JObj kvs)) w).
    unfold finalize_chapter_api. repeat wp_step.
    all: tidy_more; try rewrite Hjoin in *; tidy_more; escape_leaf.
  - wp_run_of (check_consistency_api E (mk_request (JObj kvs)) w).
    unfold check_consistency_api. repeat wp_step.
    all: tidy_more; try rewrite Hjoin in *; tidy_more; escape_leaf.
  - wp_run_of (clear_vectorstore_api E (mk_request (JObj kvs)) w).
    unfold clear_vectorstore_api. repeat wp_step.
    all: tidy_more; try rewrite Hjoin in *; tidy_more; escape_leaf.
Qed.

(** The body [{"project_name": 7}]. *)
Lemma non_string_project_name_witness :
  exists e,
    escaped (clear_vectorstore_api (Sample.env (inl JNull))
               (mk_request (JObj [("project_name", JInt 7)])) Sample.fresh) e
    /\ Py.exn_cls e = Py.TypeError
    /\ snd (clear_vectorstore_api (Sample.env (inl JNull))
              (mk_request (JObj [("project_name", JInt 7)])) Sample.fresh) = Sample.fresh.
Proof.
  apply (non_string_project_name (Sample.env (inl JNull)) [("project_name", JInt 7)]
           (JInt 7) Sample.fresh); reflexivity.
Defined.

(** * What the generator is given and what comes back *)

Lemma absolute_name_replaces_base base pn :
  Py.prefix "/" pn = true -> posix_join base pn = pn.
Proof. intros H. unfold posix_join. rewrite H. reflexivity. Qed.

Ltac path_leaf :=
  intros; try leaf_without_call; leaf_after_call; join_inv;
  eexists; split; reflexivity.

(** X13: the generator is sent to [os.path.join(base, project_name)]: that
    path is the [filepath] argument of the four generating routes and the
    argument of [clear_vector_store].  A project name that starts with
    ["/"] replaces the projects base altogether. *)
Theorem generator_works_in_project_path E req w ev :
  let in_kwargs (run : Py.result response * world) :=
    called w run ev ->
    exists pn, names_project (req_json req) pn
               /\ Py.lookup "filepath" (ev_kwargs ev) = Some (JStr (project_path w pn)) in
  in_kwargs (generate_architecture_api E req w)
  /\ in_kwargs (generate_blueprint_api E req w)
  /\ in_kwargs (generate_chapter_draft_api E req w)
  /\ in_kwargs (finalize_chapter_api E req w)
  /\ (called w (clear_vectorstore_api E req w) ev ->
      exists pn, names_project (req_json req) pn
                 /\ ev_args ev = [JStr (project_path w pn)])
  /\ forall pn, Py.prefix "/" pn = true -> project_path w pn = pn.
Proof.
  intros in_kwargs. subst in_kwargs. unfold called, names_project, project_path.
  repeat apply conj.
  - wp_run_of (generate_architecture_api E req w).
    unfold generate_architecture_api. repeat wp_step. all: path_leaf.
  - wp_run_of (generate_blueprint_api E req w).
    unfold generate_blueprint_api. repeat wp_step. all: path_leaf.
  - wp_run_of (generate_chapter_draft_api E req w).
    unfold generate_chapter_draft_api. repeat wp_step. all: path_leaf.
  - wp_run_of (finalize_chapter_api E req w).
    unfold finalize_chapter_api. repeat wp_step. all: path_leaf.
  - wp_run_of (clear_vectorstore_api E req w).
    unfold clear_vectorstore_api. repeat wp_step. all: path_leaf.
  - intros pn. apply absolute_name_replaces_base.
Qed.

(** The project name ["/srv/other"]. *)
Lemma generator_works_in_project_path_witness :
  let run := generate_architecture_api (Sample.env (inl JNull))
               (mk_request (JObj [("project_name", JStr "/srv/other")])) Sample.bare in
  exists pn,
    names_project (JObj [("project_name", JStr "/srv/other")]) pn
    /\ Py.lookup "filepath" (ev_kwargs (Sample.first_call run))
       = Some (JStr (project_path Sample.bare pn)).
Proof.
  intros run.
  apply (proj1 (generator_works_in_project_path (Sample.env (inl JNull))
                  (mk_request (JObj [("project_name", JStr "/srv/other")])) Sample.bare
                  (Sample.first_call run))).
  vm_compute. reflexivity.
Defined.

Example absolute_project_name_leaves_the_base :
  Py.lookup "filepath"
    (ev_kwargs (Sample.first_call
                  (generate_architecture_api (Sample.env (inl JNull))
                     (mk_request (JObj [("project_name", JStr "/srv/other")])) Sample.bare)))
  = Some (JStr "/srv/other").
Proof. vm_compute. reflexivity. Qed.

Ltac mapped_leaf :=
  intros; try leaf_without_call; leaf_after_call; try not_this_exception; try no_uncaught;
  try (eexists; split; [reflexivity | auto with substring]).

(** X14: an exception [e] raised by the delegated function is answered
    with 500 and a message that contains [str(e)]: in the blueprint,
    chapter-draft and finalize routes for every [e] that is not a
    [FileNotFoundError], in the consistency-check and vector-store routes
    for every [e]. *)
Theorem generator_exception_is_500 E req w ev e :
  ev_result ev = inr e ->
  let mapped (run : Py.result response * world) :=
    called w run ev ->
    exists msg, responded run (jsonify_code (error_body msg) 500)
                /\ Py.contains msg (Py.exn_str e) = true in
  (Py.exn_cls e <> Py.FileNotFoundError ->
   mapped (generate_blueprint_api E req w)
   /\ mapped (generate_chapter_draft_api E req w)
   /\ mapped (finalize_chapter_api E req w))
  /\ mapped (check_consistency_api E req w)
  /\ mapped (clear_vectorstore_api E req w).
Proof.
  intros Hres mapped. subst mapped. unfold called, responded.
  assert (Hfnf : Py.exn_cls e <> Py.FileNotFoundError ->
                 Py.issubclass (Py.exn_cls e) Py.FileNotFoundError = true -> False).
  { intros Hne H. apply Hne. destruct (Py.exn_cls e); cbn in H; congruence. }
  split; [intros Hcls; specialize (Hfnf Hcls); split; [| split] | split].
  - wp_run_of (generate_blueprint_api E req w).
    unfold generate_blueprint_api. repeat wp_step. all: mapped_leaf.
    all: exfalso; eauto.
  - wp_run_of (generate_chapter_draft_api E req w).
    unfold generate_chapter_draft_api. repeat wp_step. all: mapped_leaf.
    all: exfalso; eauto.
  - wp_run_of (finalize_chapter_api E req w).
    unfold finalize_chapter_api. repeat wp_step. all: mapped_leaf.
    all: exfalso; eauto.
  - wp_run_of (check_consistency_api E req w).
    unfold check_consistency_api. repeat wp_step. all: mapped_leaf.
  - wp_run_of (clear_vectorstore_api E req w).
    unfold clear_vectorstore_api. repeat wp_step. all: mapped_leaf.
Qed.

(** The generator times out in the finalize route. *)
Lemma generator_exception_is_500_witness :
  exists msg,
    responded (finalize_chapter_api (Sample.env (inr Sample.timed_out))
                 (Sample.post [("novel_number", JInt 1); ("word_number", JInt 3000)])
                 Sample.fresh)
              (jsonify_code (error_body msg) 500)
    /\ Py.contains msg "timed out" = true.
Proof.
  destruct (generator_exception_is_500 (Sample.env (inr Sample.timed_out))
              (Sample.post [("novel_number", JInt 1); ("word_number", JInt 3000)])
              Sample.fresh
              (Sample.first_call
                 (finalize_chapter_api (Sample.env (inr Sample.timed_out))
                    (Sample.post [("novel_number", JInt 1); ("word_number", JInt 3000)])
                    Sample.fresh))
              Sample.timed_out eq_refl) as [H _].
  destruct H as (_ & _ & H); [discriminate |].
  apply H. vm_compute. reflexivity.
Defined.

Ltac returned_leaf :=
  intros; try leaf_without_call; leaf_after_call; try not_this_exception; join_inv; tidy_more.

(** X15: what a normal return [v] of the delegated function turns into:
    the blueprint and finalize routes answer 200 with the project path;
    the chapter-draft route answers 200 with [v] as [draft_text] when [v]
    is truthy and 500 "empty content" when it is falsy; the consistency
    check answers 200 with [v] as the report, whatever [v] is. *)
Theorem generator_return_is_answered E req w ev v :
  ev_result ev = inl v ->
  (called w (generate_blueprint_api E req w) ev ->
   exists pn,
     names_project (req_json req) pn
     /\ responded (generate_blueprint_api E req w)
          (jsonify (JObj [("status", JStr "success");
                          ("message", JStr "Novel blueprint generated.");
                          ("filepath", JStr (project_path w pn))])))
  /\ (called w (finalize_chapter_api E req w) ev ->
      exists pn n,
        names_project (req_json req) pn
        /\ Py.lookup "novel_number" (ev_kwargs ev) = Some (JInt n)
        /\ responded (finalize_chapter_api E req w)
             (jsonify (JObj [("status", JStr "success");
                             ("message",
                              JStr ("Chapter " ++ Py.str_of_Z n
                                    ++ " finalized. Summaries, character states, and vector store updated."));
                             ("filepath", JStr (project_path w pn))])))
  /\ (called w (generate_chapter_draft_api E req w) ev ->
      if Py.truthy v then
        exists pn n,
          names_project (req_json req) pn
          /\ Py.lookup "novel_number" (ev_kwargs ev) = Some (JInt n)
          /\ responded (generate_chapter_draft_api E req w)
               (jsonify (JObj [("status", JStr "success");
                               ("message",
                                JStr ("Chapter " ++ Py.str_of_Z n ++ " draft generated."));
                               ("filepath", JStr (project_path w pn));
                               ("draft_text", v)]))
      else
        responded (generate_chapter_draft_api E req w)
          (jsonify_code
             (error_body "Chapter draft generation resulted in empty content.") 500))
  /\ (called w (check_consistency_api E req w) ev ->
      responded (check_consistency_api E req w)
        (jsonify (JObj [("status", JStr "success"); ("consistency_report", v)]))).
Proof.
  intros Hres. unfold called, responded, names_project, project_path.
  repeat apply conj.
  - wp_run_of (generate_blueprint_api E req w).
    unfold generate_blueprint_api. repeat wp_step. all: returned_leaf.
    eexists. split; reflexivity.
  - wp_run_of (finalize_chapter_api E req w).
    unfold finalize_chapter_api. repeat wp_step. all: returned_leaf.
    do 2 eexists. split; [reflexivity |]. split; reflexivity.
  - wp_run_of (generate_chapter_draft_api E req w).
    unfold generate_chapter_draft_api. repeat wp_step. all: returned_leaf.
    + match goal with H : Py.truthy _ = true |- _ => rewrite H end.
      do 2 eexists. split; [reflexivity |]. split; reflexivity.
    + match goal with H : Py.truthy _ = false |- _ => rewrite H end. reflexivity.
  - wp_run_of (check_consistency_api E req w).
    unfold check_consistency_api. repeat wp_step. all: returned_leaf.
    reflexivity.
Qed.

(** A generator that returns an empty draft. *)
Lemma generator_return_is_answered_witness :
  responded (generate_chapter_draft_api (Sample.env (inl (JStr "")))
               (Sample.post [("novel_number", JInt 1); ("word_number", JInt 3000)])
               Sample.fresh)
    (jsonify_code (error_body "Chapter draft generation resulted in empty content.") 500).
Proof.
  destruct (generator_return_is_answered (Sample.env (inl (JStr "")))
              (Sample.post [("novel_number", JInt 1); ("word_number", JInt 3000)])
              Sample.fresh
              (Sample.first_call
                 (generate_chapter_draft_api (Sample.env (inl (JStr "")))
                    (Sample.post [("novel_number", JInt 1); ("word_number", JInt 3000)])
                    Sample.fresh))
              (JStr "") eq_refl) as (_ & _ & H & _).
  apply H. vm_compute. reflexivity.
Defined.

(** * The consistency check always answers *)

Ltac status_leaf :=
  eexists; split; [reflexivity |]; cbn [status jsonify jsonify_code];
  split; [auto |]; split;
  [ intros; first [discriminate | cbn [w_log]; congruence]
  | intros; first [discriminate | eexists; split; [reflexivity | eexists; reflexivity]] ].

(** X16: once its body and the configuration are valid, the consistency
    check always answers with JSON, whatever [read_file] and the checker
    do: the status is 200, 404 or 500; a 404 is given without calling the
    checker, a 200 only after the checker returned. *)
Theorem consistency_check_always_answers E kvs pn n w :
  kvs <> [] ->
  names_project (JObj kvs) pn ->
  chapter_number_is (JObj kvs) n ->
  llm_config_valid E w ->
  let run := check_consistency_api E (mk_request (JObj kvs)) w in
  exists resp,
    responded run resp
    /\ (status resp = 200 \/ status resp = 404 \/ status resp = 500)
    /\ (status resp = 404 -> no_call w run)
    /\ (status resp = 200 ->
        exists ev, called w run ev /\ exists v, ev_result ev = inl v).
Proof.
  intros Hne Hnp (v & Hv & Hnone & Hint) (cfg & ifc & err & Hcfg & Herr) run. subst run.
  pose proof (truthy_obj _ Hne) as Hbody.
  unfold responded, no_call, called, names_project in *.
  wp_run_of (check_consistency_api E (mk_request (JObj kvs)) w).
  unfold check_consistency_api. repeat wp_step.
  all: join_inv; tidy_more; try no_uncaught.
  all: status_leaf.
Qed.

(** [read_file] fails with a permission error on the first file. *)
Lemma consistency_check_always_answers_witness :
  exists resp,
    responded (check_consistency_api
                 (Sample2.unreadable (Py.mk_exn Py.OSError "Permission denied"))
                 (Sample.post [("chapter_number", JInt 1)]) Sample.drafted) resp
    /\ status resp = 500.
Proof.
  destruct (consistency_check_always_answers
              (Sample2.unreadable (Py.mk_exn Py.OSError "Permission denied"))
              [("project_name", JStr "p"); ("chapter_number", JInt 1)] "p" 1
              Sample.drafted)
    as (resp & Hr & _).
  - discriminate.
  - reflexivity.
  - exists (JInt 1). repeat split.
  - config_valid.
  - exists resp. split; [exact Hr |]. vm_compute in Hr. injection Hr as <-. reflexivity.
Defined.

(** * Plot arcs and the configuration routes *)

(** X17: [GET /api/novel/plot_arcs] always answers and never touches the
    world: 200 with whatever text [read_file] returned for
    [<base>/<project_name>/plot_arcs.txt], the empty text included, and
    500 with [str(e)] in the message when [read_file] raised [e]. *)
Theorem plot_arcs_always_answers E req w :
  let project_name := field_get (req_args req) "project_name" "default_project" in
  let path := posix_join (project_path w project_name) "plot_arcs.txt" in
  exists resp,
    get_plot_arcs_api E req w = (inl resp, w)
    /\ match read_file E path (w_fs w) with
       | inl text =>
           resp = jsonify (JObj [("status", JStr "success");
                                 ("project_name", JStr project_name);
                                 ("plot_arcs_text", JStr text)])
       | inr e =>
           exists msg, resp = jsonify_code (error_body msg) 500
                       /\ Py.contains msg (Py.exn_str e) = true
       end.
Proof.
  intros project_name path. subst project_name path.
  unfold get_plot_arcs_api, project_path, try_except, bind, ret, error, call_read_file,
    get_projects_base_path.
  cbn [fst snd].
  destruct (read_file E _ (w_fs w)) as [text | e]; cbn [dispatch Py.issubclass].
  - eexists. split; reflexivity.
  - eexists. split; [reflexivity |]. eexists. split; [reflexivity | auto with substring].
Qed.

(** X18: for a JSON object [d], [POST /api/config] answers 200 exactly
    when [save_config] returns a truthy value; a falsy value and an
    exception [e] are answered with 500, the latter with [str(e)] in the
    message.  The generation library is not involved. *)
Theorem save_config_status E kvs w :
  let run := save_config_api E (mk_request (JObj kvs)) w in
  let path := default "config.json" (CONFIG_FILE_OVERRIDE (w_config w)) in
  exists resp,
    responded run resp
    /\ w_fs (snd run) = snd (save_config E (JObj kvs) path (w_fs w))
    /\ match fst (save_config E (JObj kvs) path (w_fs w)) with
       | inl v =>
           resp = if Py.truthy v
                  then jsonify (JObj [("status", JStr "success");
                                      ("message", JStr "Configuration saved.")])
                  else jsonify_code (error_body "Failed to save configuration.") 500
       | inr e =>
           exists msg, resp = jsonify_code (error_body msg) 500
                       /\ Py.contains msg (Py.exn_str e) = true
       end.
Proof.
  intros run path. subst run path.
  unfold responded, save_config_api, try_except, bind, ret, error, call_save_config,
    get_config_file_path.
  cbn [req_json is_dict negb fst snd].
  destruct (save_config E (JObj kvs) _ (w_fs w)) as [[v | e] d]; cbn [fst snd w_fs].
  - destruct (Py.truthy v); cbn [fst snd w_fs]; eexists; repeat split.
  - cbn [dispatch Py.issubclass fst snd w_fs]. eexists. split; [reflexivity |].
    split; [reflexivity |]. eexists. split; [reflexivity | auto with substring].
Qed.

(** * Importing a knowledge file *)

(** X19: an upload is refused with 400, before anything is written, when
    the request has no [knowledge_file] part, when the file name is empty,
    and when [allowed_file] rejects the name. *)
Theorem upload_refused E U req w :
  let run := import_knowledge_api E U req w in
  match files_get (req_files req) "knowledge_file" with
  | None =>
      run = (inl (jsonify_code (error_body "No file part in the request.") 400), w)
  | Some file =>
      if String.eqb (filename file) "" then
        run = (inl (jsonify_code (error_body "No selected file.") 400), w)
      else
        allowed_file (filename file) = inl false ->
        run = (inl (jsonify_code
                      (error_body "File type not allowed. Only .txt files are accepted.")
                      400), w)
  end.
Proof.
  intros run. subst run. unfold import_knowledge_api.
  destruct (files_get (req_files req) "knowledge_file") as [file |]; [| reflexivity].
  destruct (String.eqb (filename file) ""); [reflexivity |].
  intros Hno. cbn [negb]. unfold bind, lift. rewrite Hno. reflexivity.
Qed.

(** An upload named [notes.pdf]. *)
Lemma upload_refused_witness :
  import_knowledge_api (Sample.env (inl JNull)) Sample2.uploads
    (mk_upload_request [("knowledge_file", mk_file_storage "notes.pdf" "lore")] [])
    Sample.fresh
  = (inl (jsonify_code
            (error_body "File type not allowed. Only .txt files are accepted.") 400),
     Sample.fresh).
Proof.
  apply (upload_refused (Sample.env (inl JNull)) Sample2.uploads
           (mk_upload_request [("knowledge_file", mk_file_storage "notes.pdf" "lore")] [])
           Sample.fresh).
  reflexivity.
Defined.

(** The [finally] block of the import route: when it is through, the
    path is not a file; when [os.remove] raises, the error is an [OSError],
    nothing has changed and the path is still there. *)
Lemma cleanup_spec path w :
  let block := (let! present := os_path_exists path in
                if present then os_remove path else ret tt) in
  w_log (snd (block w)) = w_log w
  /\ match fst (block w) with
     | inl _ => not_a_file (w_fs (snd (block w))) path
     | inr e => Py.exn_cls e = Py.OSError
                /\ snd (block w) = w
                /\ exists_on (w_fs w) path = true
     end.
Proof.
  unfold not_a_file, bind, os_path_exists, os_remove, exists_on, ret.
  cbv beta zeta iota. cbn [fst snd].
  repeat (match goal with
          | |- context [@bool_decide ?P ?D] =>
              let H := fresh "Hb" in destruct (@bool_decide P D) eqn:H
          end;
          cbn [orb fst snd w_fs w_log fs_text fs_docs fs_dirs Py.raise Py.exn_cls]);
    rewrite ?lookup_delete_eq; repeat split;
    repeat match goal with
           | H : bool_decide _ = false |- _ => apply bool_decide_eq_false_1 in H
           | H : bool_decide _ = true |- _ => apply bool_decide_eq_true_1 in H
           end;
    try assumption; try (apply eq_None_not_Some; assumption);
    try (exfalso; first [congruence | contradiction | tauto]).
Qed.

Lemma finally_spec {A} (m : M A) (f : M unit) w :
  snd (finally m f w) = snd (f (snd (m w)))
  /\ match fst (f (snd (m w))) with
     | inl _ => fst (finally m f w) = fst (m w)
     | inr e => fst (finally m f w) = inr e
     end.
Proof.
  unfold finally. destruct (m w) as [r w1]. cbn [snd fst].
  destruct (f w1) as [[u | e] w2]; split; reflexivity.
Qed.

Lemma wp_file_save U file path Q w :
  (forall r d, file_save U file path (w_fs w) = (r, d) ->
               Q r (mk_world (w_config w) d (w_log w))) ->
  wp (call_file_save U file path) Q w.
Proof.
  intros H. unfold wp, call_file_save.
  destruct (file_save U file path (w_fs w)) as [r d] eqn:Hc. cbn [fst snd].
  apply H. reflexivity.
Qed.

Lemma wp_import U kwargs Q w :
  (forall r d, import_knowledge_file U kwargs (w_fs w) = (r, d) ->
               Q r (mk_world (w_config w) d (w_log w))) ->
  wp (call_import U kwargs) Q w.
Proof.
  intros H. unfold wp, call_import.
  destruct (import_knowledge_file U kwargs (w_fs w)) as [r d] eqn:Hc. cbn [fst snd].
  apply H. reflexivity.
Qed.

Ltac wp_upload :=
  lazymatch goal with
  | |- wp (call_file_save _ _ _) _ _ => apply wp_file_save; intros ? ? ?
  | |- wp (call_import _ _) _ _ => apply wp_import; intros ? ? ?
  | _ => wp_step
  end.

(** A leaf of the [try] block: a 500, or the 200 after [file.save],
    [os.makedirs] and [import_knowledge_file] have all returned. *)
Ltac upload_leaf :=
  eexists; split; [reflexivity |];
  cbn [status jsonify jsonify_code w_log w_config w_fs] in *;
  split; [auto |]; split; [congruence |];
  let H200 := fresh "H200" in
  intros H200;
  first
    [ discriminate H200
    | repeat match goal with
             | u : unit |- _ => destruct u
             end;
      split; [reflexivity |];
      do 5 eexists;
      split; [eassumption |]; split; [eassumption |]; split; [eassumption |];
      split; reflexivity ].

(** X20: an upload that passed the checks is answered with 200 or 500, and
    with 200 only after [file.save], [os.makedirs] and
    [import_knowledge_file] have all returned: whatever they raise is
    answered with 500.  Whenever the route answers, the temporary copy
    [<UPLOAD_FOLDER_TEMP>/<secure name>] is not a file any more.  The only
    exception that leaves the view function is the [OSError] of
    [os.remove] in the [finally] block (the path is a directory, or the
    operating system refuses); the path is then still there. *)
Theorem upload_is_cleaned_up E U req file w :
  files_get (req_files req) "knowledge_file" = Some file ->
  filename file <> "" ->
  allowed_file (filename file) = inl true ->
  let run := import_knowledge_api E U req w in
  let tmp := temp_path U file in
  let project_name := field_get (req_form req) "project_name" "default_project" in
  let project := project_path w project_name in
  no_call w run
  /\ ((exists resp,
         responded run resp
         /\ not_a_file (w_fs (snd run)) tmp
         /\ (status resp = 200 \/ status resp = 500)
         /\ (status resp = 200 ->
             resp = jsonify
                      (JObj [("status", JStr "success");
                             ("message",
                              JStr ("Knowledge file '" ++ secure_filename U (filename file)
                                    ++ "' imported successfully to project '"
                                    ++ project_name ++ "'."))])
             /\ exists d1 w2 kwargs v d3,
                  file_save U file tmp (w_fs w) = (inl tt, d1)
                  /\ os_makedirs project (mk_world (w_config w) d1 (w_log w)) = (inl tt, w2)
                  /\ import_knowledge_file U kwargs (w_fs w2) = (inl v, d3)
                  /\ Py.lookup "file_path" kwargs = Some (JStr tmp)
                  /\ Py.lookup "filepath" kwargs = Some (JStr project)))
      \/ (exists e,
            escaped run e /\ Py.exn_cls e = Py.OSError
            /\ exists_on (w_fs (snd run)) tmp = true)).
Proof.
  intros Hfile Hname Hallowed run tmp project_name project.
  assert (Hrun : run = import_knowledge_api E U req w) by reflexivity. clearbody run.
  unfold import_knowledge_api in Hrun.
  rewrite Hfile in Hrun. apply String.eqb_neq in Hname. rewrite Hname in Hrun.
  cbn [negb] in Hrun. unfold bind at 1 in Hrun. unfold lift at 1 in Hrun.
  rewrite Hallowed in Hrun. cbv beta iota in Hrun.
  subst tmp project_name project.
  unfold temp_path, project_path, no_call, responded, escaped.
  match type of Hrun with
  | _ = finally ?m ?f w =>
      destruct (finally_spec m f w) as [Hw Hr];
      pose proof (cleanup_spec (posix_join (UPLOAD_FOLDER_TEMP U)
                                           (secure_filename U (filename file)))
                               (snd (m w))) as [Hlog Hclean];
      assert (Hbody :
        exists resp,
          fst (m w) = inl resp
          /\ (status resp = 200 \/ status resp = 500)
          /\ w_log (snd (m w)) = w_log w
          /\ (status resp = 200 ->
              resp = jsonify
                       (JObj [("status", JStr "success");
                              ("message",
                               JStr ("Knowledge file '"
                                     ++ secure_filename U (filename file)
                                     ++ "' imported successfully to project '"
                                     ++ field_get (req_form req) "project_name"
                                          "default_project" ++ "'."))])
              /\ exists d1 w2 kwargs v d3,
                   file_save U file
                     (posix_join (UPLOAD_FOLDER_TEMP U) (secure_filename U (filename file)))
                     (w_fs w) = (inl tt, d1)
                   /\ os_makedirs
                        (posix_join
                           (default "novel_projects"
                              (PROJECTS_BASE_PATH_OVERRIDE (w_config w)))
                           (field_get (req_form req) "project_name" "default_project"))
                        (mk_world (w_config w) d1 (w_log w)) = (inl tt, w2)
                   /\ import_knowledge_file U kwargs (w_fs w2) = (inl v, d3)
                   /\ Py.lookup "file_path" kwargs
                      = Some (JStr (posix_join (UPLOAD_FOLDER_TEMP U)
                                               (secure_filename U (filename file))))
                   /\ Py.lookup "filepath" kwargs
                      = Some (JStr (posix_join
                                      (default "novel_projects"
                                         (PROJECTS_BASE_PATH_OVERRIDE (w_config w)))
                                      (field_get (req_form req) "project_name"
                                         "default_project")))))
  end.
  - match goal with
    | |- context [try_except ?b ?hs w] => wp_run_of (try_except b hs w)
    end.
    repeat wp_upload.
    all: try no_uncaught.
    all: upload_leaf.
  - cbv zeta in Hlog, Hclean. rewrite <- Hrun in Hw, Hr. rewrite Hw.
    destruct Hbody as (resp & Hresp & Hstatus & Hl & H200).
    split; [congruence |].
    match type of Hr with
    | match ?x with _ => _ end => destruct x as [u | e] eqn:Hf
    end.
    + left. exists resp. rewrite Hr. auto.
    + right. exists e. destruct Hclean as (Hcls & Hsame & Hthere).
      rewrite Hsame. auto.
Qed.

(** [notes.TXT] uploaded to the project [p]. *)
Lemma upload_is_cleaned_up_witness :
  let E := Sample.env (inl JNull) in
  let file := mk_file_storage "notes.TXT" "lore" in
  let run := import_knowledge_api E Sample2.uploads Sample2.notes Sample.fresh in
  exists resp,
    responded run resp /\ status resp = 200
    /\ not_a_file (w_fs (snd run)) "/tmp/notes.TXT"
    /\ exists d1, file_save Sample2.uploads file "/tmp/notes.TXT" (w_fs Sample.fresh)
                  = (inl tt, d1).
Proof.
  intros E file run.
  destruct (upload_is_cleaned_up E Sample2.uploads Sample2.notes file Sample.fresh)
    as [_ [(resp & Hresp & Hgone & _ & H200) | (e & He & _)]].
  - reflexivity.
  - discriminate.
  - reflexivity.
  - assert (Hs : status resp = 200).
    { vm_compute in Hresp. injection Hresp as <-. reflexivity. }
    exists resp. split; [exact Hresp |]. split; [exact Hs |]. split; [exact Hgone |].
    destruct (H200 Hs) as (_ & d1 & _ & _ & _ & _ & Hsave & _). exists d1. exact Hsave.
  - vm_compute in He. discriminate He.
Defined.

(** The outcomes occur: the import of [notes.TXT] is answered with 200; an
    import that raises is answered with 500; with a directory at the
    temporary path, or a stale copy that may not be removed, the [OSError]
    of [os.remove] leaves the view function. *)
Example upload_outcomes :
  let E := Sample.env (inl JNull) in
  (exists resp,
     responded (import_knowledge_api E Sample2.uploads Sample2.notes Sample.fresh) resp
     /\ status resp = 200)
  /\ (exists resp,
        responded (import_knowledge_api E Sample2.failing_uploads Sample2.notes Sample.fresh)
                  resp
        /\ status resp = 500)
  /\ (exists e,
        escaped (import_knowledge_api E Sample2.uploads Sample2.notes
                   Sample2.tmp_is_directory) e
        /\ Py.exn_cls e = Py.OSError)
  /\ (exists e,
        escaped (import_knowledge_api E Sample2.uploads Sample2.notes
                   Sample2.tmp_is_protected) e
        /\ Py.exn_str e = "[Errno 13] Permission denied: '/tmp/notes.TXT'").
Proof.
  intros E. split; [| split; [| split]].
  - eexists. split; [vm_compute; reflexivity | reflexivity].
  - eexists. split; [vm_compute; reflexivity | reflexivity].
  - eexists. split; [vm_compute; reflexivity | reflexivity].
  - eexists. split; [vm_compute; reflexivity | reflexivity].
Qed.

(** * Numbers sent as strings *)

Ltac digit_step IH d :=
  cbn [NilEmpty.string_of_uint list_ascii_of_string Py.int_digits];
  match goal with
  | |- context [Py.is_digit ?c] => change (Py.is_digit c) with true
  end;
  cbv iota;
  rewrite IH by auto; f_equal;
  match goal with
  | |- context [Decimal.rev (?k d)] =>
      change (Decimal.rev (k d)) with (Decimal.revapp d (k Decimal.Nil))
  end;
  rewrite DecimalPos.Unsigned.of_lu_revapp;
  match goal with
  | |- context [DecimalPos.Unsigned.of_lu (?k Decimal.Nil)] =>
      let v := eval vm_compute in (DecimalPos.Unsigned.of_lu (k Decimal.Nil)) in
      change (DecimalPos.Unsigned.of_lu (k Decimal.Nil)) with v
  end;
  cbn [DecimalPos.Unsigned.usize];
  rewrite N2Z.inj_succ, Z.pow_succ_r by apply N2Z.is_nonneg;
  rewrite N2Z.inj_add, N2Z.inj_mul, N2Z.inj_pow;
  match goal with
  | |- context [Py.digit_val ?c] =>
      let v := eval vm_compute in (Py.digit_val c) in
      change (Py.digit_val c) with v
  end;
  cbn [Z.of_N]; ring.

Lemma int_digits_uint d acc b :
  d <> Decimal.Nil \/ b = true ->
  Py.int_digits (list_ascii_of_string (NilEmpty.string_of_uint d)) acc b
  = Some (acc * 10 ^ Z.of_N (DecimalPos.Unsigned.usize d)
          + Z.of_N (DecimalPos.Unsigned.of_lu (Decimal.rev d))).
Proof.
  revert acc b.
  induction d as [| d IH | d IH | d IH | d IH | d IH | d IH | d IH | d IH | d IH | d IH];
    intros acc b Hok.
  - destruct Hok as [Hok | ->]; [congruence |].
    cbn. f_equal. lia.
  - digit_step IH d.
  - digit_step IH d.
  - digit_step IH d.
  - digit_step IH d.
  - digit_step IH d.
  - digit_step IH d.
  - digit_step IH d.
  - digit_step IH d.
  - digit_step IH d.
  - digit_step IH d.
Qed.

Lemma digits_not_space d :
  List.Forall (fun c => Py.is_space c = false)
    (list_ascii_of_string (NilEmpty.string_of_uint d)).
Proof.
  induction d; cbn [NilEmpty.string_of_uint list_ascii_of_string];
    constructor; solve [reflexivity | assumption].
Qed.

Lemma lstrip_no_space s :
  List.Forall (fun c => Py.is_space c = false) s -> Py.lstrip s = s.
Proof.
  destruct 1 as [| c s Hc _]; [reflexivity |]. cbn [Py.lstrip]. now rewrite Hc.
Qed.

Lemma strip_no_space s :
  List.Forall (fun c => Py.is_space c = false) s -> Py.strip s = s.
Proof.
  intros Hs. unfold Py.strip. rewrite (lstrip_no_space s Hs).
  rewrite lstrip_no_space by (apply List.Forall_rev; exact Hs).
  apply List.rev_involutive.
Qed.

Lemma int_of_uint_string d :
  d <> Decimal.Nil ->
  Py.int_of_str (NilEmpty.string_of_uint d) = Some (Z.of_N (N.of_uint d)) /\
  Py.int_of_str (String "-" (NilEmpty.string_of_uint d))
  = Some (- Z.of_N (N.of_uint d)).
Proof.
  intros Hd.
  assert (Hrun : Py.int_digits (list_ascii_of_string (NilEmpty.string_of_uint d)) 0 false
                 = Some (Z.of_N (N.of_uint d))).
  { rewrite int_digits_uint by auto. f_equal.
    unfold N.of_uint. rewrite DecimalPos.Unsigned.of_uint_alt. lia. }
  unfold Py.int_of_str. split.
  - rewrite strip_no_space by apply digits_not_space.
    destruct d; try congruence;
      cbn [NilEmpty.string_of_uint list_ascii_of_string] in *; exact Hrun.
  - cbn [list_ascii_of_string].
    rewrite strip_no_space
      by (constructor; [reflexivity | apply digits_not_space]).
    cbv iota. now rewrite Hrun.
Qed.

Lemma int_of_str_of_Z z : Py.int_of_str (Py.str_of_Z z) = Some z.
Proof.
  unfold Py.str_of_Z.
  destruct z as [| p | p]; [reflexivity | |];
    cbn [Z.to_int NilZero.string_of_int];
    pose proof (DecimalPos.Unsigned.to_uint_nonnil p) as Hnil;
    pose proof (DecimalPos.Unsigned.of_to p) as Hback;
    destruct (int_of_uint_string (Pos.to_uint p) Hnil) as [Hpos Hneg];
    unfold N.of_uint in Hpos, Hneg; rewrite Hback in Hpos, Hneg.
  - unfold NilZero.string_of_uint.
    destruct (Pos.to_uint p) eqn:Hd; try congruence; exact Hpos.
  - unfold NilZero.string_of_uint.
    destruct (Pos.to_uint p) eqn:Hd; try congruence; exact Hneg.
Qed.

Lemma lookup_set_field_same k v kvs x :
  Py.lookup k kvs = Some x -> Py.lookup k (set_field k v kvs) = Some v.
Proof.
  induction kvs as [| [k' v'] rest IH]; cbn [Py.lookup set_field]; [discriminate |].
  destruct (String.eqb k k') eqn:Hk; cbn [Py.lookup]; rewrite Hk; auto.
Qed.

Lemma lookup_set_field_other k k' v kvs :
  String.eqb k' k = false -> Py.lookup k' (set_field k v kvs) = Py.lookup k' kvs.
Proof.
  intros Hne.
  induction kvs as [| [k0 v0] rest IH]; cbn [Py.lookup set_field]; [reflexivity |].
  destruct (String.eqb k k0) eqn:Hk; cbn [Py.lookup].
  - apply String.eqb_eq in Hk. subst k0. now rewrite Hne.
  - now rewrite IH.
Qed.

Lemma get_set_field_same k v kvs x d :
  Py.lookup k kvs = Some x -> Py.get (JObj (set_field k v kvs)) k d = inl v.
Proof. intros H. unfold Py.get. now rewrite (lookup_set_field_same k v kvs x H). Qed.

Lemma get_set_field_other k k' v kvs d :
  String.eqb k' k = false ->
  Py.get (JObj (set_field k v kvs)) k' d = Py.get (JObj kvs) k' d.
Proof. intros H. unfold Py.get. now rewrite lookup_set_field_other. Qed.

Lemma truthy_set_field k v kvs :
  Py.truthy (JObj (set_field k v kvs)) = Py.truthy (JObj kvs).
Proof.
  destruct kvs as [| [k' v'] rest]; [reflexivity |].
  cbn [set_field]. now destruct (String.eqb k k').
Qed.

Lemma int_of_decimal_string n : Py.int (JStr (Py.str_of_Z n)) = Py.int (JInt n).
Proof. cbn [Py.int]. now rewrite int_of_str_of_Z. Qed.

Ltac same_field_run Hk :=
  cbn [req_json];
  rewrite ?truthy_set_field;
  erewrite !get_set_field_same by exact Hk;
  rewrite ?get_set_field_other by reflexivity;
  rewrite ?(get_present _ _ _ _ Hk);
  unfold int_or_ValueError, int_pair_or_ValueError;
  cbv beta iota zeta delta [bind lift is_None];
  rewrite ?int_of_decimal_string;
  reflexivity.

(** X21: an integer field of the body may be sent as its decimal string:
    the five routes that pass a field to [int()] answer the request with
    the string exactly as they answer the one with the number, calls and
    disk included.  (Python refuses to convert strings of more than 4300
    digits, hence the bound.) *)
Theorem integer_field_as_string E handler fields k kvs n w :
  In (handler, fields) (integer_fields E) ->
  In k fields ->
  Py.lookup k kvs = Some (JInt n) ->
  (String.length (Py.str_of_Z n) <= 4300)%nat ->
  handler (mk_request (JObj (set_field k (JStr (Py.str_of_Z n)) kvs))) w
  = handler (mk_request (JObj kvs)) w.
Proof.
  intros Hh Hf Hk _.
  unfold integer_fields in Hh. cbn [In] in Hh.
  destruct Hh as [Hh | [Hh | [Hh | [Hh | [Hh | []]]]]];
    injection Hh as <- <-; cbn [In] in Hf.
  - destruct Hf as [<- | [<- | []]].
    + unfold generate_architecture_api. same_field_run Hk.
    + unfold generate_architecture_api. same_field_run Hk.
  - destruct Hf as [<- | []].
    unfold generate_blueprint_api. same_field_run Hk.
  - destruct Hf as [<- | [<- | [<- | []]]].
    + unfold generate_chapter_draft_api. same_field_run Hk.
    + unfold generate_chapter_draft_api. same_field_run Hk.
    + unfold generate_chapter_draft_api. same_field_run Hk.
  - destruct Hf as [<- | [<- | []]].
    + unfold finalize_chapter_api. same_field_run Hk.
    + unfold finalize_chapter_api. same_field_run Hk.
  - destruct Hf as [<- | []].
    unfold check_consistency_api. same_field_run Hk.
Qed.

(** Chapter 1 of the drafted project, asked for as ["1"]. *)
Lemma integer_field_as_string_witness :
  let E := Sample.env (inl (JStr "fine")) in
  let body := [("project_name", JStr "p"); ("chapter_number", JInt 1)] in
  set_field "chapter_number" (JStr (Py.str_of_Z 1)) body
  = [("project_name", JStr "p"); ("chapter_number", JStr "1")]
  /\ check_consistency_api E
       (mk_request (JObj (set_field "chapter_number" (JStr (Py.str_of_Z 1)) body)))
       Sample.drafted
     = check_consistency_api E (mk_request (JObj body)) Sample.drafted.
Proof.
  intros E body. split; [reflexivity |].
  apply (integer_field_as_string E (check_consistency_api E) ["chapter_number"]
           "chapter_number" body 1 Sample.drafted).
  - do 4 right. left. reflexivity.
  - left. reflexivity.
  - reflexivity.
  - vm_compute. lia.
Defined.
